(** * herebythere/jwts: the token codec and its verification pipeline

    A shallow embedding of the two Go packages of the repository,
    [jwts] (src/v0.1/golang/jwts.go) and its predecessor [jwtx]
    (src/v0.1/golang/jwtx.go), together with executable models of the
    parts of the Go standard library they call: [strings.Split],
    [encoding/base64], [crypto/sha256], [crypto/hmac], [unicode/utf8]
    and the fragment of [encoding/json] that serialises and parses the
    [Header] and [Claims] structs.

    Conventions.
    - A Go [string] is a [string]; its characters are 8-bit bytes.
    - A Go [[]byte] is a [list byte]; [[]byte(s)] and [string(b)] are
      [list_byte_of_string] and [string_of_list_byte].
    - A Go pointer [*T] is an [option T]; [None] is [nil].  Nothing in
      the two packages writes through a pointer after it was shared, so
      pointers are modelled by the value they point to.
    - A Go [error] is an [option error]; [None] is the [nil] error.
    - A Go [int64] is a [Z] with the wrap-around written out.
    - A call that may dereference [nil] returns an [outcome]: either
      the returned values or a run-time panic.
    - [time.Now().Unix()] and the random source are explicit inputs. *)

From Stdlib Require Import ZArith List Bool Lia.
From Stdlib.Strings Require Import Byte Ascii String.
Import ListNotations.

Local Open Scope Z_scope.

(* ================================================================== *)
(** * The Go run-time model *)
(* ================================================================== *)

Module Go.

(** The result of running a Go function: it returns, or a run-time
    panic unwinds the stack (here always "invalid memory address or
    nil pointer dereference"). *)
Inductive outcome (A : Type) : Type :=
| Returns (a : A)
| Panics.
Arguments Returns {A} a.
Arguments Panics {A}.

Definition bind {A B : Type} (m : outcome A) (k : A -> outcome B) : outcome B :=
  match m with
  | Returns a => k a
  | Panics => Panics
  end.

(** [*p]: evaluating the indirection of a nil pointer panics. *)
Definition deref {A : Type} (p : option A) : outcome A :=
  match p with
  | Some a => Returns a
  | None => Panics
  end.

(** [&p.f] for a pointer [p] to a struct: "if the evaluation of x
    would cause a run-time panic, then the evaluation of &x does
    too", and evaluating [p.f] with [p] nil panics. *)
Definition field_addr {S A : Type} (p : option S) (f : S -> A) : outcome (option A) :=
  match p with
  | Some s => Returns (Some (f s))
  | None => Panics
  end.

(** A slice is nil or has elements.  [range] and [len] do not tell a
    nil slice from an empty one; [encoding/json] does. *)
Definition slice (A : Type) : Type := option (list A).

Definition elements {A : Type} (s : slice A) : list A :=
  match s with
  | Some l => l
  | None => []
  end.

(** int64 arithmetic wraps around. *)
Definition min_int64 : Z := - 2 ^ 63.
Definition max_int64 : Z := 2 ^ 63 - 1.

Definition wrap64 (z : Z) : Z := (z + 2 ^ 63) mod 2 ^ 64 - 2 ^ 63.
Definition add64 (a b : Z) : Z := wrap64 (a + b).
Definition sub64 (a b : Z) : Z := wrap64 (a - b).

Definition is_int64 (z : Z) : bool := (min_int64 <=? z) && (z <=? max_int64).

(** The code of a character, and the character of a code. *)
Definition code (c : ascii) : Z := Z.of_N (N_of_ascii c).
Definition chr (z : Z) : ascii := ascii_of_N (Z.to_N z).

Definition byte_code (b : byte) : Z := Z.of_N (Byte.to_N b).
Definition byte_chr (z : Z) : byte := byte_of_ascii (chr z).

End Go.

Import Go.

Declare Scope go_scope.
Delimit Scope go_scope with go.
Notation "x <- m ;; k" := (Go.bind m (fun x => k))
  (at level 61, m at next level, right associativity) : go_scope.
Notation "' pat <- m ;; k" := (Go.bind m (fun x => match x with pat => k end))
  (at level 61, pat pattern, m at next level, right associativity) : go_scope.

(* ================================================================== *)
(** * strings *)
(* ================================================================== *)

Module Strings.

(** [strings.Split(s, sep)] for a one-byte separator: the substrings
    between the separators, [Count(s, sep) + 1] of them. *)
Fixpoint Split (s : string) (sep : ascii) : list string :=
  match s with
  | EmptyString => [EmptyString]
  | String c s' =>
      if Ascii.eqb c sep then EmptyString :: Split s' sep
      else match Split s' sep with
           | piece :: pieces => String c piece :: pieces
           | [] => [String c EmptyString]
           end
  end.

(** [strings.HasPrefix(s, prefix)]. *)
Fixpoint HasPrefix (s prefix : string) {struct prefix} : bool :=
  match prefix with
  | EmptyString => true
  | String p prefix' =>
      match s with
      | String c s' => Ascii.eqb c p && HasPrefix s' prefix'
      | EmptyString => false
      end
  end.

(** Whether a byte occurs in a string. *)
Fixpoint contains (s : string) (c : ascii) : bool :=
  match s with
  | EmptyString => false
  | String c' s' => Ascii.eqb c' c || contains s' c
  end.

End Strings.

(* ================================================================== *)
(** * encoding/base64 *)
(* ================================================================== *)

Module Base64.

(** The standard alphabet of RFC 4648. *)
Definition encodeStd : string :=
  "ABCDEFGHIJKLMNOPQRSTUVWXYZabcdefghijklmnopqrstuvwxyz0123456789+/".

(** [enc.encode[v]] for a sextet [v]. *)
Definition encode_char (v : Z) : ascii :=
  match String.get (Z.to_nat v) encodeStd with
  | Some c => c
  | None => "A"%char
  end.

Fixpoint index_from (c : ascii) (s : string) (i : Z) : option Z :=
  match s with
  | EmptyString => None
  | String c' s' => if Ascii.eqb c c' then Some i else index_from c s' (i + 1)
  end.

(** [enc.decodeMap[c]]: the sextet of an alphabet character, [None]
    (0xff in Go) for any other byte. *)
Definition decodeMap (c : ascii) : option Z := index_from c encodeStd 0.

(** The padding of an encoding: [StdEncoding] pads with '=',
    [RawStdEncoding] has [NoPadding]. *)
Definition padding (pad : option ascii) (n : nat) : string :=
  match pad with
  | Some p => string_of_list_ascii (repeat p n)
  | None => EmptyString
  end.

(** [enc.EncodeToString(src)].  Go builds
    [val = b0<<16 | b1<<8 | b2] and emits the four sextets
    [val>>18&0x3F], [val>>12&0x3F], [val>>6&0x3F], [val&0x3F]; the
    shifts and masks are written here as multiplications, quotients
    and remainders.  A remainder of one or two bytes gives two or
    three characters and, with padding, '=' up to four. *)
Fixpoint EncodeToString (pad : option ascii) (src : list byte) : string :=
  match src with
  | [] => EmptyString
  | [b0] =>
      let val := byte_code b0 * 65536 in
      String (encode_char (val / 262144 mod 64))
        (String (encode_char (val / 4096 mod 64)) (padding pad 2))
  | [b0; b1] =>
      let val := byte_code b0 * 65536 + byte_code b1 * 256 in
      String (encode_char (val / 262144 mod 64))
        (String (encode_char (val / 4096 mod 64))
           (String (encode_char (val / 64 mod 64)) (padding pad 1)))
  | b0 :: b1 :: b2 :: rest =>
      let val := byte_code b0 * 65536 + byte_code b1 * 256 + byte_code b2 in
      String (encode_char (val / 262144 mod 64))
        (String (encode_char (val / 4096 mod 64))
           (String (encode_char (val / 64 mod 64))
              (String (encode_char (val mod 64))
                 (EncodeToString pad rest))))
  end.

Inductive CorruptInputError : Type :=
| CorruptInput (offset : Z).

(** The bytes of a quantum of [dlen] sextets ([dlen] is 2, 3 or 4):
    [dlen - 1] bytes of
    [val = d0<<18 | d1<<12 | d2<<6 | d3]. *)
Definition quantum_bytes (q : list Z) : list byte :=
  match q with
  | [d0; d1] =>
      let val := d0 * 262144 + d1 * 4096 in
      [byte_chr (val / 65536 mod 256)]
  | [d0; d1; d2] =>
      let val := d0 * 262144 + d1 * 4096 + d2 * 64 in
      [byte_chr (val / 65536 mod 256); byte_chr (val / 256 mod 256)]
  | [d0; d1; d2; d3] =>
      let val := d0 * 262144 + d1 * 4096 + d2 * 64 + d3 in
      [byte_chr (val / 65536 mod 256); byte_chr (val / 256 mod 256);
       byte_chr (val mod 256)]
  | _ => []
  end.

(** The loop of [enc.Decode] over [decodeQuantum] for an encoding
    without padding and without strict mode ([RawStdEncoding]).
    [si] is the offset of the next source byte, [q] the sextets of
    the quantum being read and [out] the bytes decoded so far.
    '\r' and '\n' are skipped; any other byte outside the alphabet
    is corrupt at its own offset; a last quantum of a single sextet
    is corrupt at [len(src) - 1]; the left-over bits of a last
    quantum of two or three sextets are dropped unchecked.  On an
    error Go returns the bytes of the quanta completed before it. *)
Fixpoint decode_loop (src : string) (si : Z) (q : list Z) (out : list byte)
  : list byte * option CorruptInputError :=
  match src with
  | EmptyString =>
      match q with
      | [] => (out, None)
      | [_] => (out, Some (CorruptInput (si - 1)))
      | _ => (out ++ quantum_bytes q, None)
      end
  | String c src' =>
      match decodeMap c with
      | Some v =>
          match q with
          | [d0; d1; d2] =>
              decode_loop src' (si + 1) [] (out ++ quantum_bytes [d0; d1; d2; v])
          | _ => decode_loop src' (si + 1) (q ++ [v]) out
          end
      | None =>
          if (Ascii.eqb c "010" || Ascii.eqb c "013")%bool
          then decode_loop src' (si + 1) q out
          else (out, Some (CorruptInput si))
      end
  end.

(** [RawStdEncoding.DecodeString(s)]. *)
Definition DecodeString (s : string) : list byte * option CorruptInputError :=
  decode_loop s 0 [] [].

Definition RawStd : option ascii := None.
Definition Std : option ascii := Some "="%char.

End Base64.

(* ================================================================== *)
(** * crypto/sha256 and crypto/hmac *)
(* ================================================================== *)

Module SHA256.

Definition BlockSize : nat := 64.
Definition Size : nat := 32.

(** uint32 arithmetic wraps around. *)
Definition u32 (z : Z) : Z := z mod 4294967296.

(** [bits.RotateLeft32(x, -n)]. *)
Definition rotr (x n : Z) : Z :=
  Z.lor (Z.shiftr x n) (u32 (Z.shiftl x (32 - n))).

(** The integer cube root: the bits of the root from bit [i - 1]
    down, added to [x] while the cube stays below [n]. *)
Fixpoint cbrt_bits (i : nat) (n x : Z) : Z :=
  match i with
  | O => x
  | S i' =>
      let y := x + 2 ^ Z.of_nat i' in
      cbrt_bits i' n (if y * y * y <=? n then y else x)
  end.

Definition cbrt (n : Z) : Z := cbrt_bits 64 n 0.

Definition is_prime (p : Z) : bool :=
  forallb (fun d => negb (p mod Z.of_nat d =? 0)) (seq 2 (Z.to_nat p - 2)).

(** The first 64 primes, 2 to 311. *)
Definition primes : list Z :=
  Eval vm_compute in filter is_prime (map Z.of_nat (seq 2 310)).

(** [_K]: "the first thirty-two bits of the fractional parts of the
    cube roots of the first sixty-four prime numbers" (FIPS 180-4),
    0x428a2f98 to 0xc67178f2. *)
Definition K : list Z :=
  Eval vm_compute in map (fun p => cbrt (p * 2 ^ 96) mod 2 ^ 32) primes.

(** [init0] to [init7]: the same of the square roots of the first
    eight primes, 0x6a09e667 to 0x5be0cd19. *)
Definition init : list Z :=
  Eval vm_compute in map (fun p => Z.sqrt (p * 2 ^ 64) mod 2 ^ 32) (firstn 8 primes).

(** Big-endian words of a block. *)
Fixpoint words (p : list byte) : list Z :=
  match p with
  | b0 :: b1 :: b2 :: b3 :: rest =>
      (byte_code b0 * 16777216 + byte_code b1 * 65536
       + byte_code b2 * 256 + byte_code b3) :: words rest
  | _ => []
  end.

Definition word_bytes (w : Z) : list byte :=
  [ byte_chr (w / 16777216 mod 256); byte_chr (w / 65536 mod 256);
    byte_chr (w / 256 mod 256); byte_chr (w mod 256) ].

(** The message schedule: [w[i] = t1 + w[i-7] + t2 + w[i-16]]. *)
Fixpoint schedule (n : nat) (w : list Z) : list Z :=
  match n with
  | O => w
  | S n' =>
      let i := List.length w in
      let v1 := nth (i - 2) w 0 in
      let t1 := Z.lxor (Z.lxor (rotr v1 17) (rotr v1 19)) (Z.shiftr v1 10) in
      let v2 := nth (i - 15) w 0 in
      let t2 := Z.lxor (Z.lxor (rotr v2 7) (rotr v2 18)) (Z.shiftr v2 3) in
      schedule n' (w ++ [u32 (t1 + nth (i - 7) w 0 + t2 + nth (i - 16) w 0)])
  end.

Record regs : Type :=
  mkRegs { ra : Z; rb : Z; rc : Z; rd : Z; re : Z; rf : Z; rg : Z; rh : Z }.

Definition round (s : regs) (kw : Z * Z) : regs :=
  let '(k, w) := kw in
  let '(mkRegs a b c d e f g h) := s in
  let t1 := u32 (h + Z.lxor (Z.lxor (rotr e 6) (rotr e 11)) (rotr e 25)
                 + Z.lxor (Z.land e f) (Z.land (Z.lnot e) g) + k + w) in
  let t2 := u32 (Z.lxor (Z.lxor (rotr a 2) (rotr a 13)) (rotr a 22)
                 + Z.lxor (Z.lxor (Z.land a b) (Z.land a c)) (Z.land b c)) in
  mkRegs (u32 (t1 + t2)) a b c (u32 (d + t1)) e f g.

Definition regs_of (h : list Z) : regs :=
  mkRegs (nth 0 h 0) (nth 1 h 0) (nth 2 h 0) (nth 3 h 0)
         (nth 4 h 0) (nth 5 h 0) (nth 6 h 0) (nth 7 h 0).

(** One call of [block] on a 64-byte chunk. *)
Definition block (h : list Z) (p : list byte) : list Z :=
  let w := schedule 48 (words p) in
  let '(mkRegs a b c d e f g h') := fold_left round (combine K w) (regs_of h) in
  map u32 (map (fun xy => fst xy + snd xy) (combine h [a; b; c; d; e; f; g; h'])).

Fixpoint blocks (fuel : nat) (h : list Z) (p : list byte) : list Z :=
  match fuel with
  | O => h
  | S fuel' =>
      match p with
      | [] => h
      | _ => blocks fuel' (block h (firstn 64 p)) (skipn 64 p)
      end
  end.

(** The padding of [checkSum]: 0x80, zeros up to 56 modulo 64, and
    the length in bits as a big-endian uint64. *)
Definition pad (len : Z) : list byte :=
  let zeros := (55 - len) mod 64 in
  let bits := len * 8 in
  byte_chr 128 :: repeat (byte_chr 0) (Z.to_nat zeros)
    ++ word_bytes (bits / 4294967296 mod 4294967296) ++ word_bytes (bits mod 4294967296).

(** [sha256.Sum256(data)]. *)
Definition Sum256 (data : list byte) : list byte :=
  let p := data ++ pad (Z.of_nat (List.length data)) in
  flat_map word_bytes (blocks (S (List.length p / 64)) init p).

End SHA256.

Module HMAC.

Definition xor_pad (k : Z) (key : list byte) : list byte :=
  map (fun b => byte_chr (Z.lxor (byte_code b) k)) key.

(** [hmac.New(sha256.New, key)], [Write(message)], [Sum(nil)]: a key
    longer than the block size is hashed first, then padded with
    zeros to the block size. *)
Definition Sum (key message : list byte) : list byte :=
  let key := if (SHA256.BlockSize <? List.length key)%nat then SHA256.Sum256 key else key in
  let key := key ++ repeat (byte_chr 0) (SHA256.BlockSize - List.length key) in
  SHA256.Sum256 (xor_pad 92 key ++ SHA256.Sum256 (xor_pad 54 key ++ message)).

End HMAC.

(* ================================================================== *)
(** * unicode/utf8 *)
(* ================================================================== *)

Module UTF8.

Definition RuneError : Z := 65533.
Definition MaxRune : Z := 1114111.
Definition RuneSelf : Z := 128.

(** [first[b0]] with [acceptRanges]: for a leading byte of a
    multi-byte sequence, the size of the sequence and the range the
    second byte must lie in; [None] for a byte that cannot lead one
    (0x80..0xC1 and 0xF5..0xFF). *)
Definition lead (b0 : Z) : option (Z * Z * Z) :=
  if b0 <? 194 then None
  else if b0 <? 224 then Some (2, 128, 191)
  else if b0 =? 224 then Some (3, 160, 191)
  else if b0 =? 237 then Some (3, 128, 159)
  else if b0 <? 240 then Some (3, 128, 191)
  else if b0 =? 240 then Some (4, 144, 191)
  else if b0 <? 244 then Some (4, 128, 191)
  else if b0 =? 244 then Some (4, 128, 143)
  else None.

Definition continuation (b : Z) : bool := (128 <=? b) && (b <=? 191).

(** [utf8.DecodeRuneInString(s)]: the first rune of [s] and its
    width in bytes; [(RuneError, 1)] for an encoding that is invalid
    or cut short, [(RuneError, 0)] for the empty string. *)
Definition DecodeRune (s : string) : Z * nat :=
  match s with
  | EmptyString => (RuneError, 0%nat)
  | String c0 s1 =>
      let b0 := code c0 in
      if b0 <? RuneSelf then (b0, 1%nat)
      else
        match lead b0 with
        | None => (RuneError, 1%nat)
        | Some (sz, lo, hi) =>
            match s1 with
            | EmptyString => (RuneError, 1%nat)
            | String c1 s2 =>
                let b1 := code c1 in
                if (b1 <? lo) || (hi <? b1) then (RuneError, 1%nat)
                else if sz <=? 2 then (b0 mod 32 * 64 + b1 mod 64, 2%nat)
                else
                  match s2 with
                  | EmptyString => (RuneError, 1%nat)
                  | String c2 s3 =>
                      let b2 := code c2 in
                      if negb (continuation b2) then (RuneError, 1%nat)
                      else if sz <=? 3
                           then (b0 mod 16 * 4096 + b1 mod 64 * 64 + b2 mod 64, 3%nat)
                      else
                        match s3 with
                        | EmptyString => (RuneError, 1%nat)
                        | String c3 _ =>
                            let b3 := code c3 in
                            if negb (continuation b3) then (RuneError, 1%nat)
                            else (b0 mod 8 * 262144 + b1 mod 64 * 4096
                                  + b2 mod 64 * 64 + b3 mod 64, 4%nat)
                        end
                  end
            end
        end
  end.

Definition str1 (a : Z) : string := String (chr a) EmptyString.
Definition str2 (a b : Z) : string := String (chr a) (str1 b).
Definition str3 (a b c : Z) : string := String (chr a) (str2 b c).
Definition str4 (a b c d : Z) : string := String (chr a) (str3 b c d).

(** [utf8.EncodeRune(r)]: a surrogate or a value beyond [MaxRune]
    (or negative) is written as [RuneError]. *)
Definition EncodeRune (r : Z) : string :=
  if (0 <=? r) && (r <=? 127) then str1 r
  else if (0 <=? r) && (r <=? 2047) then str2 (192 + r / 64) (128 + r mod 64)
  else if (r <? 0) || (MaxRune <? r) || ((55296 <=? r) && (r <=? 57343))
  then str3 239 191 189
  else if r <=? 65535
  then str3 (224 + r / 4096) (128 + r / 64 mod 64) (128 + r mod 64)
  else str4 (240 + r / 262144) (128 + r / 4096 mod 64)
            (128 + r / 64 mod 64) (128 + r mod 64).

Fixpoint drop (n : nat) (s : string) : string :=
  match n, s with
  | S n', String _ s' => drop n' s'
  | _, _ => s
  end.

Fixpoint take (n : nat) (s : string) : string :=
  match n, s with
  | S n', String c s' => String c (take n' s')
  | _, _ => EmptyString
  end.

(** Whether the first rune of [s] is an invalid encoding. *)
Definition invalid_head (s : string) : bool :=
  let '(r, size) := DecodeRune s in (r =? RuneError) && Nat.eqb size 1.

(** What remains of a string after every byte that is not part of a
    valid encoding has been replaced by U+FFFD
    ([strings.ToValidUTF8] with one replacement per byte). *)
Fixpoint coerce_fuel (fuel : nat) (s : string) : string :=
  match fuel with
  | O => EmptyString
  | S fuel' =>
      match s with
      | EmptyString => EmptyString
      | String c s' =>
          if code c <? RuneSelf then String c (coerce_fuel fuel' s')
          else if invalid_head s then (EncodeRune RuneError ++ coerce_fuel fuel' s')%string
          else (take (snd (DecodeRune s)) s
                ++ coerce_fuel fuel' (drop (snd (DecodeRune s)) s))%string
      end
  end.

Definition coerce (s : string) : string := coerce_fuel (String.length s) s.

(** [utf8.ValidString(s)]. *)
Fixpoint valid_fuel (fuel : nat) (s : string) : bool :=
  match fuel with
  | O => true
  | S fuel' =>
      match s with
      | EmptyString => true
      | String c s' =>
          if code c <? RuneSelf then valid_fuel fuel' s'
          else negb (invalid_head s) && valid_fuel fuel' (drop (snd (DecodeRune s)) s)
      end
  end.

Definition ValidString (s : string) : bool := valid_fuel (String.length s) s.

End UTF8.

(* ================================================================== *)
(** * strconv *)
(* ================================================================== *)

Module Strconv.

Definition is_digit (c : ascii) : bool := (48 <=? code c) && (code c <=? 57).

(** Decimal digits of a non-negative number, most significant first,
    in front of [acc]. *)
Fixpoint digits_fuel (fuel : nat) (n : Z) (acc : string) : string :=
  match fuel with
  | O => acc
  | S fuel' =>
      let acc' := String (chr (48 + n mod 10)) acc in
      if n <? 10 then acc' else digits_fuel fuel' (n / 10) acc'
  end.

Definition digits (n : Z) : string := digits_fuel (S (Z.to_nat (Z.log2 n))) n EmptyString.

(** [strconv.FormatInt(i, 10)]. *)
Definition FormatInt (i : Z) : string :=
  if i <? 0 then String "-" (digits (- i)) else digits i.

Fixpoint value_of_digits (s : string) (acc : Z) : option Z :=
  match s with
  | EmptyString => Some acc
  | String c s' =>
      if is_digit c then value_of_digits s' (acc * 10 + (code c - 48)) else None
  end.

(** [strconv.ParseInt(s, 10, 64)]: an optional sign and decimal
    digits; [None] for a syntax error or a value out of range. *)
Definition ParseInt (s : string) : option Z :=
  let '(neg, ds) :=
    match s with
    | String c s' =>
        if Ascii.eqb c "-" then (true, s')
        else if Ascii.eqb c "+" then (false, s')
        else (false, s)
    | EmptyString => (false, s)
    end in
  match ds with
  | EmptyString => None
  | _ =>
      match value_of_digits ds 0 with
      | Some n => let z := if neg then - n else n in
                  if is_int64 z then Some z else None
      | None => None
      end
  end.

End Strconv.

(* ================================================================== *)
(** * encoding/json *)
(* ================================================================== *)

(** The two structs both packages declare, with the same fields and
    the same JSON tags: [Nbf] is [*int64] with [omitempty]. *)
Record Header : Type := mkHeader {
  Alg : string;
  Typ : string
}.

Record Claims : Type := mkClaims {
  Aud : slice string;
  Exp : Z;
  Iat : Z;
  Iss : string;
  Nbf : option Z;
  Sub : string
}.

(** The dynamic types of the values the packages hand to
    [json.Marshal] through an [interface{}]. *)
Inductive any : Type :=
| AnyHeader (h : Header)
| AnyClaims (c : Claims)
| AnyBytes (b : list byte)
| AnyString (s : string).

#[local] Set Warnings "-register-all".

Module Json.

Definition dquote : ascii := "034"%char.
Definition backslash : ascii := "\"%char.

Inductive error : Type :=
| SyntaxError
| UnmarshalTypeError.

(** ** Encoding *)

Definition hex : string := "0123456789abcdef".

Definition hex_char (v : Z) : ascii :=
  match String.get (Z.to_nat v) hex with
  | Some c => c
  | None => "0"%char
  end.

(** [htmlSafeSet[b]] for [b < utf8.RuneSelf]: the printable ASCII
    characters but the double quote, the backslash and the three
    characters '<', '>', '&' that [Marshal] escapes for HTML. *)
Definition htmlSafe (b : Z) : bool :=
  (32 <=? b) && negb (b =? 34) && negb (b =? 92)
  && negb (b =? 60) && negb (b =? 62) && negb (b =? 38).

(** The escape of a byte below [utf8.RuneSelf] outside the safe set
    (Go 1.22 and later; earlier releases wrote backspace and form
    feed as \u0008 and \u000c, which decode to the same bytes). *)
Definition escape_ascii (b : Z) : string :=
  if (b =? 92) || (b =? 34) then String backslash (String (chr b) EmptyString)
  else if b =? 8 then String backslash "b"
  else if b =? 12 then String backslash "f"
  else if b =? 10 then String backslash "n"
  else if b =? 13 then String backslash "r"
  else if b =? 9 then String backslash "t"
  else String backslash
         (String "u" (String "0" (String "0"
            (String (hex_char (b / 16)) (String (hex_char (b mod 16)) EmptyString))))).

(** The body of [appendString(dst, src, escapeHTML = true)], between
    the two quotes.  An invalid byte is written as the escape of
    U+FFFD; U+2028 and U+2029 are escaped; any other rune is copied. *)
Fixpoint escape_fuel (fuel : nat) (src : string) : string :=
  match fuel with
  | O => EmptyString
  | S fuel' =>
      match src with
      | EmptyString => EmptyString
      | String c src' =>
          let b := code c in
          if b <? UTF8.RuneSelf then
            if htmlSafe b then String c (escape_fuel fuel' src')
            else (escape_ascii b ++ escape_fuel fuel' src')%string
          else
            let '(r, size) := UTF8.DecodeRune src in
            if (r =? UTF8.RuneError) && Nat.eqb size 1
            then (String backslash "ufffd" ++ escape_fuel fuel' src')%string
            else if (r =? 8232) || (r =? 8233)
            then (String backslash "u202" ++ String (hex_char (r mod 16)) EmptyString
                  ++ escape_fuel fuel' (UTF8.drop size src))%string
            else (UTF8.take size src ++ escape_fuel fuel' (UTF8.drop size src))%string
      end
  end.

Definition escape (src : string) : string := escape_fuel (String.length src) src.

Definition quote (src : string) : string :=
  String dquote (escape src ++ String dquote EmptyString)%string.

Fixpoint join_comma (l : list string) : string :=
  match l with
  | [] => EmptyString
  | [x] => x
  | x :: l' => (x ++ String "," (join_comma l'))%string
  end.

(** A slice of strings: [null] for a nil slice. *)
Definition encode_strings (s : slice string) : string :=
  match s with
  | None => "null"
  | Some l => String "[" (join_comma (map quote l) ++ "]")%string
  end.

(** A byte slice is written as a string, the padded standard base64
    of its bytes. *)
Definition encode_bytes (b : list byte) : string :=
  String dquote (Base64.EncodeToString Base64.Std b ++ String dquote EmptyString)%string.

Definition key (name : string) : string := (quote name ++ ":")%string.

(** ** Decoding: the scanner *)

Inductive value : Type :=
| Null
| Bool (b : bool)
| Number (literal : string)
| Str (s : string)
| Array (elements : list value)
| Object (members : list (string * value)).

Definition isSpace (c : ascii) : bool :=
  let b := code c in (b =? 32) || (b =? 9) || (b =? 13) || (b =? 10).

Fixpoint skip_space (s : string) : string :=
  match s with
  | String c s' => if isSpace c then skip_space s' else s
  | EmptyString => s
  end.

Fixpoint span_digits (s : string) : string * string :=
  match s with
  | String c s' =>
      if Strconv.is_digit c
      then let '(d, r) := span_digits s' in (String c d, r)
      else (EmptyString, s)
  | EmptyString => (EmptyString, EmptyString)
  end.

(** The exponent of a number: 'e' or 'E', an optional sign and at
    least one digit. *)
Definition scan_exponent (s : string) : option (string * string) :=
  match s with
  | String c s1 =>
      if Ascii.eqb c "e" || Ascii.eqb c "E" then
        let '(sign, s2) :=
          match s1 with
          | String c' s' =>
              if Ascii.eqb c' "+" || Ascii.eqb c' "-"
              then (String c' EmptyString, s') else (EmptyString, s1)
          | EmptyString => (EmptyString, s1)
          end in
        match span_digits s2 with
        | (EmptyString, _) => None
        | (d, r) => Some (String c (sign ++ d)%string, r)
        end
      else Some (EmptyString, s)
  | EmptyString => Some (EmptyString, s)
  end.

(** The fraction of a number: '.' and at least one digit. *)
Definition scan_fraction (s : string) : option (string * string) :=
  match s with
  | String c s1 =>
      if Ascii.eqb c "." then
        match span_digits s1 with
        | (EmptyString, _) => None
        | (d, r) => Some (String c d, r)
        end
      else Some (EmptyString, s)
  | EmptyString => Some (EmptyString, s)
  end.

(** A number literal, as the scanner accepts it: an optional '-',
    then '0' or a digit from 1 to 9 followed by digits, then an
    optional fraction and an optional exponent. *)
Definition scan_number (s : string) : option (string * string) :=
  let '(sign, s1) :=
    match s with
    | String c s' => if Ascii.eqb c "-" then (String c EmptyString, s') else (EmptyString, s)
    | EmptyString => (EmptyString, s)
    end in
  match s1 with
  | String c s2 =>
      let int_part :=
        if Ascii.eqb c "0" then Some (String c EmptyString, s2)
        else if Strconv.is_digit c
        then let '(d, r) := span_digits s2 in Some (String c d, r)
        else None in
      match int_part with
      | None => None
      | Some (i, r1) =>
          match scan_fraction r1 with
          | None => None
          | Some (f, r2) =>
              match scan_exponent r2 with
              | None => None
              | Some (e, r3) => Some ((sign ++ i ++ f ++ e)%string, r3)
              end
          end
      end
  | EmptyString => None
  end.

Definition hex_value (c : ascii) : option Z :=
  let b := code c in
  if (48 <=? b) && (b <=? 57) then Some (b - 48)
  else if (97 <=? b) && (b <=? 102) then Some (b - 87)
  else if (65 <=? b) && (b <=? 70) then Some (b - 55)
  else None.

(** [getu4(s)]: the value of a backslash, 'u' and four hexadecimal
    digits at the head of [s], and what follows them. *)
Definition getu4 (s : string) : option (Z * string) :=
  match s with
  | String e (String u (String h1 (String h2 (String h3 (String h4 rest))))) =>
      if Ascii.eqb e backslash && Ascii.eqb u "u" then
        match hex_value h1, hex_value h2, hex_value h3, hex_value h4 with
        | Some a, Some b, Some c, Some d => Some (a * 4096 + b * 256 + c * 16 + d, rest)
        | _, _, _, _ => None
        end
      else None
  | _ => None
  end.

Definition isSurrogate (r : Z) : bool := (55296 <=? r) && (r <? 57344).

(** [utf16.DecodeRune(r1, r2)]. *)
Definition utf16_DecodeRune (r1 r2 : Z) : Z :=
  if (55296 <=? r1) && (r1 <? 56320) && (56320 <=? r2) && (r2 <? 57344)
  then (r1 - 55296) * 1024 + (r2 - 56320) + 65536
  else UTF8.RuneError.

(** A string literal after its opening quote: the unquoted string
    and what follows the closing quote.  The scanner refuses a
    control character and a backslash that does not start an escape;
    [unquote] then resolves the escapes and coerces the rest to
    well-formed UTF-8. *)
Fixpoint scan_string (fuel : nat) (s : string) : option (string * string) :=
  match fuel with
  | O => None
  | S fuel' =>
      match s with
      | EmptyString => None
      | String c s1 =>
          let b := code c in
          let cons (out : string) (rest : string) :=
            match scan_string fuel' rest with
            | Some (t, r) => Some ((out ++ t)%string, r)
            | None => None
            end in
          if b =? 34 then Some (EmptyString, s1)
          else if b =? 92 then
            match s1 with
            | EmptyString => None
            | String e s2 =>
                let x := code e in
                if (x =? 34) || (x =? 92) || (x =? 47) then cons (String e EmptyString) s2
                else if x =? 98 then cons (UTF8.str1 8) s2
                else if x =? 102 then cons (UTF8.str1 12) s2
                else if x =? 110 then cons (UTF8.str1 10) s2
                else if x =? 114 then cons (UTF8.str1 13) s2
                else if x =? 116 then cons (UTF8.str1 9) s2
                else if x =? 117 then
                  match getu4 s with
                  | None => None
                  | Some (rr, rest) =>
                      if isSurrogate rr then
                        match getu4 rest with
                        | Some (rr1, rest') =>
                            let dec := utf16_DecodeRune rr rr1 in
                            if dec =? UTF8.RuneError
                            then cons (UTF8.EncodeRune UTF8.RuneError) rest
                            else cons (UTF8.EncodeRune dec) rest'
                        | None => cons (UTF8.EncodeRune UTF8.RuneError) rest
                        end
                      else cons (UTF8.EncodeRune rr) rest
                  end
                else None
            end
          else if b <? 32 then None
          else if b <? UTF8.RuneSelf then cons (String c EmptyString) s1
          else
            let '(rr, size) := UTF8.DecodeRune s in
            cons (UTF8.EncodeRune rr) (UTF8.drop size s)
      end
  end.

Definition maxNestingDepth : Z := 10000.

Definition literal (name : string) (v : value) (s : string) : option (value * string) :=
  if Strings.HasPrefix s name
  then Some (v, UTF8.drop (String.length name) s)
  else None.

(** One value, after leading white space.  [depth] is the number of
    arrays and objects that are open. *)
Fixpoint scan_value (fuel : nat) (depth : Z) (s : string) : option (value * string) :=
  match fuel with
  | O => None
  | S fuel' =>
      match skip_space s with
      | EmptyString => None
      | String c s1 =>
          let b := code c in
          if b =? 123 then
            if maxNestingDepth <? depth + 1 then None
            else
              match skip_space s1 with
              | String c' s2 =>
                  if code c' =? 125 then Some (Object [], s2)
                  else
                    match scan_members fuel' (depth + 1) s1 with
                    | Some (ms, r) => Some (Object ms, r)
                    | None => None
                    end
              | EmptyString => None
              end
          else if b =? 91 then
            if maxNestingDepth <? depth + 1 then None
            else
              match skip_space s1 with
              | String c' s2 =>
                  if code c' =? 93 then Some (Array [], s2)
                  else
                    match scan_elements fuel' (depth + 1) s1 with
                    | Some (vs, r) => Some (Array vs, r)
                    | None => None
                    end
              | EmptyString => None
              end
          else if b =? 34 then
            match scan_string (String.length s1) s1 with
            | Some (t, r) => Some (Str t, r)
            | None => None
            end
          else if b =? 116 then literal "true" (Bool true) (String c s1)
          else if b =? 102 then literal "false" (Bool false) (String c s1)
          else if b =? 110 then literal "null" Null (String c s1)
          else
            match scan_number (String c s1) with
            | Some (n, r) => Some (Number n, r)
            | None => None
            end
      end
  end

(** The elements of an array after the first bracket or a comma, up
    to the closing bracket. *)
with scan_elements (fuel : nat) (depth : Z) (s : string) : option (list value * string) :=
  match fuel with
  | O => None
  | S fuel' =>
      match scan_value fuel' depth s with
      | None => None
      | Some (v, r) =>
          match skip_space r with
          | String c r' =>
              if code c =? 93 then Some ([v], r')
              else if code c =? 44 then
                match scan_elements fuel' depth r' with
                | Some (vs, r'') => Some (v :: vs, r'')
                | None => None
                end
              else None
          | EmptyString => None
          end
      end
  end

(** The members of an object after the brace or a comma, up to the
    closing brace: a string, a colon and a value each. *)
with scan_members (fuel : nat) (depth : Z) (s : string)
  : option (list (string * value) * string) :=
  match fuel with
  | O => None
  | S fuel' =>
      match skip_space s with
      | String q s1 =>
          if code q =? 34 then
            match scan_string (String.length s1) s1 with
            | None => None
            | Some (k, r) =>
                match skip_space r with
                | String c r1 =>
                    if code c =? 58 then
                      match scan_value fuel' depth r1 with
                      | None => None
                      | Some (v, r2) =>
                          match skip_space r2 with
                          | String c' r3 =>
                              if code c' =? 125 then Some ([(k, v)], r3)
                              else if code c' =? 44 then
                                match scan_members fuel' depth r3 with
                                | Some (ms, r4) => Some ((k, v) :: ms, r4)
                                | None => None
                                end
                              else None
                          | EmptyString => None
                          end
                      end
                    else None
                | EmptyString => None
                end
            end
          else None
      | EmptyString => None
      end
  end.

(** [checkValid(data)] and the value it scans: one value with white
    space around it and nothing else. *)
Definition scan (data : string) : option value :=
  match scan_value (S (2 * String.length data)) 0 data with
  | Some (v, r) =>
      match skip_space r with
      | EmptyString => Some v
      | _ => None
      end
  | None => None
  end.

(** ** Decoding: storing into the structs

    [Unmarshal] first checks that the whole input is one JSON value,
    then stores it.  A value of the wrong kind for its field records
    an [UnmarshalTypeError] (the first one is kept) and decoding goes
    on; [null] leaves a string or an integer as it is and sets a
    pointer or a slice to nil; a member whose name matches no field
    is skipped. *)

(** [foldName], as far as equality with an ASCII name goes: ASCII
    letters are put in upper case, and of all other runes only
    U+017F (long s) and U+212A (Kelvin sign) fold to an ASCII
    letter. *)
Fixpoint foldName (s : string) : string :=
  match s with
  | EmptyString => EmptyString
  | String c s' =>
      let b := code c in
      if (97 <=? b) && (b <=? 122) then String (chr (b - 32)) (foldName s')
      else
        match s' with
        | String c1 s1 =>
            if (b =? 197) && (code c1 =? 191) then String "S" (foldName s1)
            else
              match s1 with
              | String c2 s2 =>
                  if (b =? 226) && (code c1 =? 132) && (code c2 =? 170)
                  then String "K" (foldName s2)
                  else String c (foldName s')
              | EmptyString => String c (foldName s')
              end
        | EmptyString => String c EmptyString
        end
  end.

(** The field a member name selects: an exact match is preferred to
    a match under folding. *)
Definition field_of (fields : list string) (name : string) : option string :=
  match find (String.eqb name) fields with
  | Some f => Some f
  | None => find (fun f => String.eqb (foldName f) (foldName name)) fields
  end.

Definition save (saved : option error) (bad : bool) : option error :=
  match saved with
  | Some e => Some e
  | None => if bad then Some UnmarshalTypeError else None
  end.

Definition store_string (v : value) (old : string) : string * bool :=
  match v with
  | Str s => (s, false)
  | Null => (old, false)
  | _ => (old, true)
  end.

Definition store_int64 (v : value) (old : Z) : Z * bool :=
  match v with
  | Number lit =>
      match Strconv.ParseInt lit with
      | Some z => (z, false)
      | None => (old, true)
      end
  | Null => (old, false)
  | _ => (old, true)
  end.

(** A pointer is allocated before the value is looked at, unless
    the value is [null]. *)
Definition store_int64_ptr (v : value) (old : option Z) : option Z * bool :=
  match v with
  | Null => (None, false)
  | _ =>
      let '(z, bad) := store_int64 v (match old with Some z => z | None => 0 end) in
      (Some z, bad)
  end.

(** The elements of an array are stored into fresh strings.  (Go
    stores a second array for the same field over the elements of
    the first; that shows only when a member is repeated and the
    later array has elements that are not strings.) *)
Definition store_strings (v : value) (old : slice string) : slice string * bool :=
  match v with
  | Array vs =>
      let stored := map (fun e => store_string e EmptyString) vs in
      (Some (map fst stored), existsb snd stored)
  | Null => (None, false)
  | _ => (old, true)
  end.

Definition zero_Header : Header := mkHeader EmptyString EmptyString.
Definition zero_Claims : Claims := mkClaims None 0 0 EmptyString None EmptyString.

Definition store_Header_member (st : Header * option error) (m : string * value)
  : Header * option error :=
  let '(h, err) := st in
  let '(name, v) := m in
  match field_of ["alg"; "typ"]%string name with
  | None => st
  | Some f =>
      if String.eqb f "alg" then
        let '(x, bad) := store_string v (Alg h) in (mkHeader x (Typ h), save err bad)
      else
        let '(x, bad) := store_string v (Typ h) in (mkHeader (Alg h) x, save err bad)
  end.

Definition store_Claims_member (st : Claims * option error) (m : string * value)
  : Claims * option error :=
  let '(c, err) := st in
  let '(name, v) := m in
  match field_of ["aud"; "exp"; "iat"; "iss"; "nbf"; "sub"]%string name with
  | None => st
  | Some f =>
      if String.eqb f "aud" then
        let '(x, bad) := store_strings v (Aud c) in
        (mkClaims x (Exp c) (Iat c) (Iss c) (Nbf c) (Sub c), save err bad)
      else if String.eqb f "exp" then
        let '(x, bad) := store_int64 v (Exp c) in
        (mkClaims (Aud c) x (Iat c) (Iss c) (Nbf c) (Sub c), save err bad)
      else if String.eqb f "iat" then
        let '(x, bad) := store_int64 v (Iat c) in
        (mkClaims (Aud c) (Exp c) x (Iss c) (Nbf c) (Sub c), save err bad)
      else if String.eqb f "iss" then
        let '(x, bad) := store_string v (Iss c) in
        (mkClaims (Aud c) (Exp c) (Iat c) x (Nbf c) (Sub c), save err bad)
      else if String.eqb f "nbf" then
        let '(x, bad) := store_int64_ptr v (Nbf c) in
        (mkClaims (Aud c) (Exp c) (Iat c) (Iss c) x (Sub c), save err bad)
      else
        let '(x, bad) := store_string v (Sub c) in
        (mkClaims (Aud c) (Exp c) (Iat c) (Iss c) (Nbf c) x, save err bad)
  end.

(** [json.Unmarshal(data, &header)] into a zero [Header]: the struct
    as far as it was filled, and the error. *)
Definition Unmarshal_Header (data : list byte) : Header * option error :=
  match scan (string_of_list_byte data) with
  | None => (zero_Header, Some SyntaxError)
  | Some (Object ms) => fold_left store_Header_member ms (zero_Header, None)
  | Some Null => (zero_Header, None)
  | Some _ => (zero_Header, Some UnmarshalTypeError)
  end.

(** [json.Unmarshal(data, &claims)] into a zero [Claims]. *)
Definition Unmarshal_Claims (data : list byte) : Claims * option error :=
  match scan (string_of_list_byte data) with
  | None => (zero_Claims, Some SyntaxError)
  | Some (Object ms) => fold_left store_Claims_member ms (zero_Claims, None)
  | Some Null => (zero_Claims, None)
  | Some _ => (zero_Claims, Some UnmarshalTypeError)
  end.

(** ** Encoding the structs *)

Definition encode_Header (h : Header) : string :=
  ("{" ++ key "alg" ++ quote (Alg h) ++ "," ++ key "typ" ++ quote (Typ h) ++ "}")%string.

(** The fields in the order of their declaration; [nbf] is left out
    when the pointer is nil. *)
Definition encode_Claims (c : Claims) : string :=
  ("{" ++ key "aud" ++ encode_strings (Aud c)
   ++ "," ++ key "exp" ++ Strconv.FormatInt (Exp c)
   ++ "," ++ key "iat" ++ Strconv.FormatInt (Iat c)
   ++ "," ++ key "iss" ++ quote (Iss c)
   ++ match Nbf c with
      | Some n => "," ++ key "nbf" ++ Strconv.FormatInt n
      | None => EmptyString
      end
   ++ "," ++ key "sub" ++ quote (Sub c) ++ "}")%string.

Definition encode (v : any) : string :=
  match v with
  | AnyHeader h => encode_Header h
  | AnyClaims c => encode_Claims c
  | AnyBytes b => encode_bytes b
  | AnyString s => quote s
  end.

(** [json.Marshal(v)]: none of these types has a value that cannot
    be encoded, so the error is always nil. *)
Definition Marshal (v : any) : list byte * option error :=
  (list_byte_of_string (encode v), None).

End Json.

(* ================================================================== *)
(** * package jwts (src/v0.1/golang/jwts.go) *)
(* ================================================================== *)

Module Jwts.

Record CreateTokenParams : Type := mkCreateTokenParams {
  Params_Aud : slice string;
  Params_Iss : string;
  Params_Sub : string;
  Params_Lifetime : Z;
  Params_Delay : option Z
}.

Record TokenChunks : Type := mkTokenChunks {
  Chunks_Header : string;
  Chunks_Claims : string;
  Chunks_Signature : string
}.

Record TokenDetails : Type := mkTokenDetails {
  Details_Header : Header;
  Details_Claims : Claims
}.

(** The error values of the package, and the errors of the library
    calls it passes on. *)
Inductive error : Type :=
| errSourceIsNil
| errNilCreateTokenParams
| errHeaderIsNil
| errClaimsIsNil
| errSecretIsNil
| errTokenIsNil
| errInvalidToken
| Base64Error (e : Base64.CorruptInputError)
| JsonError (e : Json.error).

Definition dotRune : string := ".".

Definition encodeJSONToBase64 (source : option any) : option string * option error :=
  match source with
  | None => (None, Some errSourceIsNil)
  | Some v =>
      let '(marshaled, errMarshaled) := Json.Marshal v in
      match errMarshaled with
      | Some e => (None, Some (JsonError e))
      | None =>
          let marshaled64 := Base64.EncodeToString Base64.RawStd marshaled in
          (Some marshaled64, None)
      end
  end.

Definition DefaultHeader : Header := mkHeader "HS256" "JWT".

Definition DefaultHeaderBase64 : option string :=
  fst (encodeJSONToBase64 (Some (AnyHeader DefaultHeader))).

Definition errHeaderBase64 : option error :=
  snd (encodeJSONToBase64 (Some (AnyHeader DefaultHeader))).

Definition decodeFromBase64 (source : option string) (err : option error)
  : option string * option error :=
  match err with
  | Some e => (None, Some e)
  | None =>
      match source with
      | None => (None, Some errSourceIsNil)
      | Some src =>
          let '(data64, errData64) := Base64.DecodeString src in
          let data64AsStr := string_of_list_byte data64 in
          (Some data64AsStr, option_map Base64Error errData64)
      end
  end.

Definition unmarshalHeader (header : option string) (err : option error)
  : option Header * option error :=
  match err with
  | Some e => (None, Some e)
  | None =>
      match header with
      | None => (None, Some errHeaderIsNil)
      | Some h =>
          let '(headerDetails, errHeaderMarshal) :=
            Json.Unmarshal_Header (list_byte_of_string h) in
          (Some headerDetails, option_map JsonError errHeaderMarshal)
      end
  end.

Definition unmarshalClaims (claims : option string) (err : option error)
  : option Claims * option error :=
  match err with
  | Some e => (None, Some e)
  | None =>
      match claims with
      | None => (None, Some errClaimsIsNil)
      | Some c =>
          let '(claimsDetails, errClaimsMarshal) :=
            Json.Unmarshal_Claims (list_byte_of_string c) in
          (Some claimsDetails, option_map JsonError errClaimsMarshal)
      end
  end.

(** [for _, audLabel := range *aud]: the first label equal to the
    target ends the loop. *)
Definition findAudChunk (aud : option (slice string)) (audTarget : option string)
  (err : option error) : outcome (bool * option error) :=
  match err with
  | Some e => Returns (false, Some e)
  | None =>
      match audTarget with
      | None => Returns (false, None)
      | Some target =>
          (labels <- deref aud ;;
           Returns (existsb (fun audLabel => String.eqb audLabel target)
                      (elements labels), None))%go
      end
  end.

Definition parseTokenChunks (token : option string) (err : option error)
  : option TokenChunks * option error :=
  match err with
  | Some e => (None, Some e)
  | None =>
      match token with
      | None => (None, Some errTokenIsNil)
      | Some t =>
          match Strings.Split t "." with
          | [c0; c1; c2] => (Some (mkTokenChunks c0 c1 c2), None)
          | _ => (None, Some errInvalidToken)
          end
      end
  end.

(** [currentTime] is what [time.Now().Unix()] returns.  The expiry
    check is the last statement of the function; it is reached from
    both branches of the test of [Nbf]. *)
Definition validateTokenTimes (tokenDetails : option TokenDetails) (err : option error)
  (currentTime : Z) : outcome (bool * option error) :=
  match err with
  | Some e => Returns (false, Some e)
  | None =>
      (details <- deref tokenDetails ;;
       let claims := Details_Claims details in
       let checkExpiry :=
         let lifetime := sub64 (Exp claims) currentTime in
         if lifetime >? 0 then Returns (true, None)
         else Returns (false, None) in
       let issueDelta := sub64 (Iat claims) currentTime in
       if issueDelta >? 0 then Returns (false, None)
       else
         match Nbf claims with
         | Some notBefore =>
             let notBeforeDelta := sub64 notBefore currentTime in
             if notBeforeDelta >=? 0 then Returns (false, None)
             else checkExpiry
         | None => checkExpiry
         end)%go
  end.

(** [nowAsSecond] is what [time.Now().Unix()] returns.  [notBefore]
    is declared as a zero [int64] and its address is stored whether
    or not a delay was given. *)
Definition createClaims (params : option CreateTokenParams) (err : option error)
  (nowAsSecond : Z) : option string * option error :=
  match err with
  | Some e => (None, Some e)
  | None =>
      match params with
      | None => (None, Some errNilCreateTokenParams)
      | Some p =>
          let expiration := add64 nowAsSecond (Params_Lifetime p) in
          let notBefore :=
            match Params_Delay p with
            | Some delay => add64 nowAsSecond delay
            | None => 0
            end in
          let claims :=
            mkClaims (Params_Aud p) expiration nowAsSecond (Params_Iss p)
              (Some notBefore) (Params_Sub p) in
          encodeJSONToBase64 (Some (AnyClaims claims))
      end
  end.

Definition createSignature (header claims : option string) (secret : option (list byte))
  (err : option error) : option string * option error :=
  match err with
  | Some e => (None, Some e)
  | None =>
      match header, claims, secret with
      | None, _, _ => (None, Some errHeaderIsNil)
      | Some _, None, _ => (None, Some errClaimsIsNil)
      | Some _, Some _, None => (None, Some errSecretIsNil)
      | Some h, Some c, Some key =>
          let headerAndClaims := (h ++ dotRune ++ c)%string in
          let signature := HMAC.Sum key (list_byte_of_string headerAndClaims) in
          let signature64 := Base64.EncodeToString Base64.RawStd signature in
          (Some signature64, None)
      end
  end.

(** [*headerDetails] and [*claimsDetails] are evaluated before the
    error of the last step is looked at. *)
Definition parseTokenDetails (tokenChunks : option TokenChunks) (err : option error)
  : outcome (option TokenDetails * option error) :=
  match err with
  | Some e => Returns (None, Some e)
  | None =>
      match tokenChunks with
      | None => Returns (None, Some errTokenIsNil)
      | Some chunks =>
          let '(header, errHeader) := decodeFromBase64 (Some (Chunks_Header chunks)) err in
          let '(headerDetails, errHeaderDetails) := unmarshalHeader header errHeader in
          let '(claims, errClaims) :=
            decodeFromBase64 (Some (Chunks_Claims chunks)) errHeaderDetails in
          let '(claimsDetails, errClaimsDetails) := unmarshalClaims claims errClaims in
          (h <- deref headerDetails ;;
           c <- deref claimsDetails ;;
           Returns (Some (mkTokenDetails h c), errClaimsDetails))%go
      end
  end.

(** The arguments [&chunks.Header] and [&chunks.Claims] are
    evaluated before [createSignature] is called. *)
Definition validateSignature (chunks : option TokenChunks) (secret : option (list byte))
  (err : option error) : outcome (bool * option error) :=
  (header <- field_addr chunks Chunks_Header ;;
   claims <- field_addr chunks Chunks_Claims ;;
   let '(signatureCheck, errSignatureCheck) := createSignature header claims secret err in
   match errSignatureCheck with
   | Some e => Returns (false, Some e)
   | None =>
       c <- deref chunks ;;
       check <- deref signatureCheck ;;
       let signatureIsValid := String.eqb (Chunks_Signature c) check in
       if signatureIsValid then Returns (true, None) else Returns (false, None)
   end)%go.

Definition CreateToken (params : option CreateTokenParams) (secret : option (list byte))
  (err : option error) (now : Z) : outcome (option string * option error) :=
  match secret with
  | None => Returns (None, Some errSecretIsNil)
  | Some _ =>
      let '(claims, errClaims) := createClaims params err now in
      let '(signature, errSignature) :=
        createSignature DefaultHeaderBase64 claims secret errClaims in
      match errSignature with
      | Some e => Returns (None, Some e)
      | None =>
          (h <- deref DefaultHeaderBase64 ;;
           c <- deref claims ;;
           s <- deref signature ;;
           let token := (h ++ dotRune ++ c ++ dotRune ++ s)%string in
           Returns (Some token, None))%go
      end
  end.

(** The argument [&tokenDetails.Claims.Aud] is evaluated before
    [findAudChunk] is called. *)
Definition VerifyToken (token audTarget : option string) (err : option error) (now : Z)
  : outcome (bool * option error) :=
  let '(chunks, errChunks) := parseTokenChunks token err in
  ('(tokenDetails, errTokenDetails) <- parseTokenDetails chunks errChunks ;;
   aud <- field_addr tokenDetails (fun details => Aud (Details_Claims details)) ;;
   '(audChunkFound, errAudChunk) <- findAudChunk aud audTarget errTokenDetails ;;
   if negb audChunkFound then Returns (false, errAudChunk)
   else validateTokenTimes tokenDetails errAudChunk now)%go.

Definition ValidateToken (token : option string) (secret : option (list byte))
  (err : option error) : outcome (bool * option error) :=
  let '(chunks, errChunks) := parseTokenChunks token err in
  validateSignature chunks secret errChunks.

End Jwts.

(* ================================================================== *)
(** * package jwtx (src/v0.1/golang/jwtx.go) *)
(* ================================================================== *)

Module Jwtx.

Record CreateJWTParams : Type := mkCreateJWTParams {
  Params_Aud : slice string;
  Params_Iss : string;
  Params_Sub : string;
  Params_Lifetime : Z;
  Params_Delay : option Z
}.

Record TokenChunks : Type := mkTokenChunks {
  Chunks_Header : string;
  Chunks_Claims : string;
  Chunks_Signature : string
}.

Record TokenPayload : Type := mkTokenPayload {
  Payload_Token : option string;
  Payload_Secret : option (list byte);
  Payload_Signature : option string
}.

Record TokenDetails : Type := mkTokenDetails {
  Details_Header : option Header;
  Details_Claims : option Claims
}.

Inductive error : Type :=
| errSourceIsNil
| errNilCreateParams
| errHeaderIsNil
| errClaimsIsNil
| errSecretIsNil
| errTokenIsNil
| errInvalidToken
| errTokenIsExpired
| errTokenIssuedBeforeNow
| errTokenUsedBeforeExpected
| errAudChunkNotFound
| errNilTokenDetails
| errTokenPayloadIsNil
| Base64Error (e : Base64.CorruptInputError)
| JsonError (e : Json.error).

Definition periodRune : string := ".".
Definition randomLength : nat := 128.

(** The source of [math/rand]: the bytes it hands out next. *)
Definition Rand : Type := nat -> byte.

(** [rand.Read(p)] for a [p] of [n] bytes: "it always returns len(p)
    and a nil error". *)
Definition rand_Read (source : Rand) (n : nat) : list byte * nat * option error :=
  (map source (seq 0 n), n, None).

Definition encodeToBase64 (source : option any) : option string * option error :=
  match source with
  | None => (None, Some errSourceIsNil)
  | Some v =>
      let '(marshaled, errMarshaled) := Json.Marshal v in
      match errMarshaled with
      | Some e => (None, Some (JsonError e))
      | None =>
          let marshaled64 := Base64.EncodeToString Base64.RawStd marshaled in
          (Some marshaled64, None)
      end
  end.

Definition headerDefaultParams : Header := mkHeader "HS256" "JWT".

Definition headerBase64 : option string :=
  fst (encodeToBase64 (Some (AnyHeader headerDefaultParams))).

Definition decodeFromBase64 (source : option string) (err : option error)
  : option string * option error :=
  match err with
  | Some e => (None, Some e)
  | None =>
      match source with
      | None => (None, Some errSourceIsNil)
      | Some src =>
          let '(data64, errData64) := Base64.DecodeString src in
          let data64AsStr := string_of_list_byte data64 in
          (Some data64AsStr, option_map Base64Error errData64)
      end
  end.

Definition generateRandomByteArray (n : nat) (err : option error) (source : Rand)
  : option (list byte) * option error :=
  match err with
  | Some e => (None, Some e)
  | None =>
      let '(token, length, errRandom) := rand_Read source n in
      match errRandom with
      | Some e => (None, errRandom)
      | None => if negb (Nat.eqb length n) then (None, errRandom) else (Some token, None)
      end
  end.

(** The MAC goes through [encodeToBase64] like every other value:
    it is marshalled as JSON before it is encoded. *)
Definition generateSignature (header claims : option string) (secret : option (list byte))
  (err : option error) : option string * option error :=
  match err with
  | Some e => (None, Some e)
  | None =>
      match header, claims, secret with
      | None, _, _ => (None, Some errHeaderIsNil)
      | Some _, None, _ => (None, Some errClaimsIsNil)
      | Some _, Some _, None => (None, Some errSecretIsNil)
      | Some h, Some c, Some key =>
          let headerAndClaims := (h ++ periodRune ++ c)%string in
          let signature := HMAC.Sum key (list_byte_of_string headerAndClaims) in
          encodeToBase64 (Some (AnyBytes signature))
      end
  end.

Definition createJWTClaims (params : option CreateJWTParams) (err : option error)
  (nowAsSecond : Z) : option string * option error :=
  match err with
  | Some e => (None, Some e)
  | None =>
      match params with
      | None => (None, Some errNilCreateParams)
      | Some p =>
          let expiration := add64 nowAsSecond (Params_Lifetime p) in
          let notBefore :=
            match Params_Delay p with
            | Some delay => add64 nowAsSecond delay
            | None => 0
            end in
          let claims :=
            mkClaims (Params_Aud p) expiration nowAsSecond (Params_Iss p)
              (Some notBefore) (Params_Sub p) in
          encodeToBase64 (Some (AnyClaims claims))
      end
  end.

Definition retrieveTokenChunks (token : option string) (err : option error)
  : option TokenChunks * option error :=
  match err with
  | Some e => (None, Some e)
  | None =>
      match token with
      | None => (None, Some errTokenIsNil)
      | Some t =>
          match Strings.Split t "." with
          | [c0; c1; c2] => (Some (mkTokenChunks c0 c1 c2), None)
          | _ => (None, Some errInvalidToken)
          end
      end
  end.

Definition unmarshalHeader (header : option string) (err : option error)
  : option Header * option error :=
  match err with
  | Some e => (None, Some e)
  | None =>
      match header with
      | None => (None, Some errHeaderIsNil)
      | Some h =>
          let '(headerDetails, errHeaderMarshal) :=
            Json.Unmarshal_Header (list_byte_of_string h) in
          (Some headerDetails, option_map JsonError errHeaderMarshal)
      end
  end.

Definition unmarshalClaims (claims : option string) (err : option error)
  : option Claims * option error :=
  match err with
  | Some e => (None, Some e)
  | None =>
      match claims with
      | None => (None, Some errClaimsIsNil)
      | Some c =>
          let '(claimsDetails, errClaimsMarshal) :=
            Json.Unmarshal_Claims (list_byte_of_string c) in
          (Some claimsDetails, option_map JsonError errClaimsMarshal)
      end
  end.

Definition findAudChunk (aud : option (slice string)) (audTarget : string) : outcome bool :=
  (chunks <- deref aud ;;
   Returns (existsb (fun audChunk => String.eqb audChunk audTarget) (elements chunks)))%go.

Definition CreateJWT (params : option CreateJWTParams) (err : option error)
  (source : Rand) (now : Z) : outcome (option TokenPayload * option error) :=
  match err with
  | Some e => Returns (None, Some e)
  | None =>
      let '(claims, errClaims) := createJWTClaims params None now in
      let '(secret, errSecret) := generateRandomByteArray randomLength errClaims source in
      let '(signature, errSignature) :=
        generateSignature headerBase64 claims secret errSecret in
      (h <- deref headerBase64 ;;
       c <- deref claims ;;
       s <- deref signature ;;
       let token := (h ++ periodRune ++ c ++ periodRune ++ s)%string in
       let tokenPayload := mkTokenPayload (Some token) secret signature in
       Returns (Some tokenPayload, errSignature))%go
  end.

(** [secret, errSecret := generateRandomByteArray(...)] declares
    [errSecret] and assigns to the parameter [secret], which is in
    the same scope: from there on [secret] is the generated one. *)
Definition CreateJWTFromSecret (params : option CreateJWTParams)
  (secret : option (list byte)) (err : option error) (source : Rand) (now : Z)
  : outcome (option TokenPayload * option error) :=
  match err with
  | Some e => Returns (None, Some e)
  | None =>
      match secret with
      | None => Returns (None, Some errSecretIsNil)
      | Some _ =>
          let '(claims, errClaims) := createJWTClaims params None now in
          let '(secret, errSecret) :=
            generateRandomByteArray randomLength errClaims source in
          let '(signature, errSignature) :=
            generateSignature headerBase64 claims secret errSecret in
          (h <- deref headerBase64 ;;
           c <- deref claims ;;
           s <- deref signature ;;
           let token := (h ++ periodRune ++ c ++ periodRune ++ s)%string in
           let tokenPayload := mkTokenPayload (Some token) secret signature in
           Returns (Some tokenPayload, errSignature))%go
      end
  end.

Definition ValidateJWT (tokenPayload : option TokenPayload) (err : option error)
  : outcome (bool * option error) :=
  match err with
  | Some e => Returns (false, Some e)
  | None =>
      match tokenPayload with
      | None => Returns (false, Some errTokenPayloadIsNil)
      | Some payload =>
          let '(chunks, errChunks) := retrieveTokenChunks (Payload_Token payload) None in
          (header <- field_addr chunks Chunks_Header ;;
           claims <- field_addr chunks Chunks_Claims ;;
           let '(signature, errSignature) :=
             generateSignature header claims (Payload_Secret payload) errChunks in
           s <- deref signature ;;
           c <- deref chunks ;;
           let signatureIsValid := String.eqb s (Chunks_Signature c) in
           Returns (signatureIsValid, errSignature))%go
      end
  end.

Definition RetrieveTokenDetails (token : option string) (err : option error)
  : outcome (option TokenDetails * option error) :=
  match err with
  | Some e => Returns (None, Some e)
  | None =>
      match token with
      | None => Returns (None, Some errTokenIsNil)
      | Some _ =>
          let '(chunks, errChunks) := retrieveTokenChunks token None in
          (headerChunk <- field_addr chunks Chunks_Header ;;
           let '(header, errHeader) := decodeFromBase64 headerChunk errChunks in
           let '(headerDetails, errHeaderDetails) := unmarshalHeader header errHeader in
           claimsChunk <- field_addr chunks Chunks_Claims ;;
           let '(claims, errClaims) := decodeFromBase64 claimsChunk errHeaderDetails in
           let '(claimsDetails, errClaimsDetails) := unmarshalClaims claims errClaims in
           let tokenDetails := mkTokenDetails headerDetails claimsDetails in
           Returns (Some tokenDetails, errClaimsDetails))%go
      end
  end.

Definition ValidateTokenByWindowAndAud (token : option string) (audTarget : string)
  (err : option error) (currentTime : Z) : outcome (bool * option error) :=
  ('(tokenDetails, errTokenDetails) <- RetrieveTokenDetails token err ;;
   match errTokenDetails with
   | Some e => Returns (false, Some e)
   | None =>
       match tokenDetails with
       | None => Returns (false, Some errNilTokenDetails)
       | Some details =>
           aud <- field_addr (Details_Claims details) Aud ;;
           audChunkFound <- findAudChunk aud audTarget ;;
           if negb audChunkFound then Returns (false, Some errAudChunkNotFound)
           else
             claims <- deref (Details_Claims details) ;;
             let checkExpiry :=
               let lifetime := sub64 (Exp claims) currentTime in
               if lifetime >? 0 then Returns (true, None)
               else Returns (false, Some errTokenIsExpired) in
             let issueDelta := sub64 (Iat claims) currentTime in
             if issueDelta >? 0 then Returns (false, Some errTokenIssuedBeforeNow)
             else
               match Nbf claims with
               | Some notBefore =>
                   let notBeforeDelta := sub64 notBefore currentTime in
                   if notBeforeDelta >=? 0
                   then Returns (false, Some errTokenUsedBeforeExpected)
                   else checkExpiry
               | None => checkExpiry
               end
       end
   end)%go.

End Jwtx.

(* ================================================================== *)
(** * Definitions the statements are written with *)
(* ================================================================== *)

Module Spec.

Definition header64 : string := "eyJhbGciOiJIUzI1NiIsInR5cCI6IkpXVCJ9".

Definition encoded (v : any) : string :=
  Base64.EncodeToString Base64.RawStd (list_byte_of_string (Json.encode v)).

Definition claims_of (aud : slice string) (iss sub : string) (lifetime : Z)
  (delay : option Z) (now : Z) : Claims :=
  mkClaims aud (add64 now lifetime) now iss
    (Some match delay with Some d => add64 now d | None => 0 end) sub.

Definition jwts_claims (p : Jwts.CreateTokenParams) (now : Z) : Claims :=
  claims_of (Jwts.Params_Aud p) (Jwts.Params_Iss p) (Jwts.Params_Sub p)
    (Jwts.Params_Lifetime p) (Jwts.Params_Delay p) now.

Definition mac (key : list byte) (header claims : string) : list byte :=
  HMAC.Sum key (list_byte_of_string (header ++ "." ++ claims)).

Definition jwts_signature (key : list byte) (header claims : string) : string :=
  Base64.EncodeToString Base64.RawStd (mac key header claims).

(** The text the header must be the encoding of. *)
Definition quoted (s : string) : string := String "034" (s ++ String "034" "").

Definition header_json : string :=
  ("{" ++ quoted "alg" ++ ":" ++ quoted "HS256" ++ ","
       ++ quoted "typ" ++ ":" ++ quoted "JWT" ++ "}")%string.

(** The signature of package jwtx: the MAC as JSON, then encoded. *)
Definition jwtx_signature (key : list byte) (header claims : string) : string :=
  encoded (AnyBytes (mac key header claims)).

Definition jwtx_claims (p : Jwtx.CreateJWTParams) (now : Z) : Claims :=
  claims_of (Jwtx.Params_Aud p) (Jwtx.Params_Iss p) (Jwtx.Params_Sub p)
    (Jwtx.Params_Lifetime p) (Jwtx.Params_Delay p) now.

Definition generated (source : Jwtx.Rand) : list byte :=
  map source (seq 0 Jwtx.randomLength).

Definition jwtx_token (p : Jwtx.CreateJWTParams) (key : list byte) (now : Z) : string :=
  let c := encoded (AnyClaims (jwtx_claims p now)) in
  (header64 ++ "." ++ c ++ "." ++ jwtx_signature key header64 c)%string.

Definition jwts_token (p : Jwts.CreateTokenParams) (key : list byte) (now : Z) : string :=
  let c := encoded (AnyClaims (jwts_claims p now)) in
  (header64 ++ "." ++ c ++ "." ++ jwts_signature key header64 c)%string.

Fixpoint all_digits (s : string) : bool :=
  match s with
  | EmptyString => true
  | String c s' => Strconv.is_digit c && all_digits s'
  end.

(** Whether a number literal ends where [rest] starts. *)
Definition number_end (rest : string) : bool :=
  match rest with
  | EmptyString => true
  | String c _ =>
      negb (Strconv.is_digit c) && negb (Ascii.eqb c ".")
      && negb (Ascii.eqb c "e") && negb (Ascii.eqb c "E")
  end.

(** What a string, a slice of strings and a [Claims] are after a
    round trip through JSON: every string is coerced to valid
    UTF-8. *)
Definition coerce_strings (s : slice string) : slice string :=
  option_map (map UTF8.coerce) s.

Definition coerce_Claims (c : Claims) : Claims :=
  mkClaims (coerce_strings (Aud c)) (Exp c) (Iat c) (UTF8.coerce (Iss c))
    (Nbf c) (UTF8.coerce (Sub c)).

Definition strings_value (s : slice string) : Json.value :=
  match s with
  | None => Json.Null
  | Some l => Json.Array (map (fun x => Json.Str (UTF8.coerce x)) l)
  end.

(** Whether the integers of a [Claims] are int64 values. *)
Definition int64_Claims (c : Claims) : bool :=
  is_int64 (Exp c) && is_int64 (Iat c)
  && match Nbf c with Some n => is_int64 n | None => true end.

(** The aud list a token carries: the strings of the parameters as
    they come back from JSON. *)
Definition token_aud (aud : slice string) : list string :=
  elements (coerce_strings aud).

(** Whether a target is one of the labels. *)
Definition has_label (labels : list string) (target : string) : bool :=
  existsb (fun label => String.eqb label target) labels.

(** The not-before instant of a token created at [now] with a delay. *)
Definition not_before (now : Z) (delay : option Z) : Z :=
  match delay with
  | Some d => now + d
  | None => 0
  end.

(** Times and durations for which no int64 operation of the two
    packages wraps around. *)
Definition plain_time (z : Z) : Prop := 0 <= z <= max_int64.

(** What scanning does with the result of the rest of a literal
    when a step has produced [out]. *)
Definition prepend (out : string) (r : option (string * string)) : option (string * string) :=
  match r with
  | Some (t, rest) => Some ((out ++ t)%string, rest)
  | None => None
  end.


(** The escape of one ASCII character. *)
Definition escape1 (c : ascii) : string :=
  if Json.htmlSafe (code c) then String c EmptyString else Json.escape_ascii (code c).


(** The members the scanner finds in the text of a [Claims]. *)
Definition members_of (c : Claims) : list (string * Json.value) :=
  [ ("aud"%string, strings_value (Aud c));
    ("exp"%string, Json.Number (Strconv.FormatInt (Exp c)));
    ("iat"%string, Json.Number (Strconv.FormatInt (Iat c)));
    ("iss"%string, Json.Str (UTF8.coerce (Iss c))) ]
  ++ match Nbf c with
     | Some n => [("nbf"%string, Json.Number (Strconv.FormatInt n))]
     | None => []
     end
  ++ [ ("sub"%string, Json.Str (UTF8.coerce (Sub c))) ].


End Spec.

(** The inputs of the examples. *)
Module Examples.

Definition params : Jwts.CreateTokenParams :=
  Jwts.mkCreateTokenParams (Some ["svc"%string]) "x" "y" 3600 None.
Definition secret : list byte := list_byte_of_string "secret".
Definition source : Jwtx.Rand := fun i => byte_chr (Z.of_nat i * 7 + 3).

Definition hex_digit (c : ascii) : Z :=
  let z := code c in if z <? 58 then z - 48 else z - 87.

(** The bytes a string of hexadecimal digits stands for. *)
Fixpoint unhex (s : string) : list byte :=
  match s with
  | String h (String l s') => byte_chr (hex_digit h * 16 + hex_digit l) :: unhex s'
  | _ => []
  end.
Definition header_segment : string := "eyJhbGciOiJIUzI1NiIsInR5cCI6IkpXVCJ9".

Definition claims_segment : string :=
  "eyJhdWQiOlsic3ZjIl0sImV4cCI6MTcwMDAwMzYwMCwiaWF0IjoxNzAwMDAwMDAwLCJpc3MiOiJ4IiwibmJmIjowLCJzdWIiOiJ5In0".

(** The token [CreateToken] makes of [params] and [secret] at
    1700000000, and the same with another third segment. *)
Definition token : string :=
  (header_segment ++ "." ++ claims_segment
   ++ "." ++ "HF8jZR7wKgrDiwf5Sm4M+GdxHJVtiheOYKx71R14kMA")%string.

Definition forged_token : string :=
  (header_segment ++ "." ++ claims_segment ++ "." ++ "forged")%string.

End Examples.

Ltac zbool :=
  repeat match goal with
    | |- context [?a <? ?b] => destruct (Z.ltb_spec a b)
    | |- context [?a <=? ?b] => destruct (Z.leb_spec a b)
    | |- context [?a =? ?b] => destruct (Z.eqb_spec a b)
    | H : context [?a <? ?b] |- _ => destruct (Z.ltb_spec a b)
    | H : context [?a <=? ?b] |- _ => destruct (Z.leb_spec a b)
    | H : context [?a =? ?b] |- _ => destruct (Z.eqb_spec a b)
    end.

Ltac plain := unfold Spec.plain_time, Spec.not_before, max_int64 in *; lia.

(* ================================================================== *)
(** * Strings, Split and base64 *)
(* ================================================================== *)

Module StringFacts.

Lemma append_assoc (a b c : string) : ((a ++ b) ++ c = a ++ (b ++ c))%string.
Proof. induction a as [|x a IH]; simpl; [reflexivity | now rewrite IH]. Qed.

Lemma append_nil_r (a : string) : (a ++ "" = a)%string.
Proof. induction a as [|x a IH]; simpl; [reflexivity | now rewrite IH]. Qed.

Lemma length_append (a b : string) :
  String.length (a ++ b) = (String.length a + String.length b)%nat.
Proof. induction a as [|x a IH]; simpl; [reflexivity | now rewrite IH]. Qed.

Lemma contains_append (a b : string) (c : ascii) :
  Strings.contains (a ++ b) c = Strings.contains a c || Strings.contains b c.
Proof.
  induction a as [|x a IH]; simpl; [reflexivity|].
  rewrite IH. now rewrite orb_assoc.
Qed.

Lemma code_range (c : ascii) : 0 <= code c < 256.
Proof.
  unfold code. pose proof (N_ascii_bounded c). lia.
Qed.

Lemma chr_code (c : ascii) : chr (code c) = c.
Proof. unfold chr, code. rewrite N2Z.id. apply ascii_N_embedding. Qed.

Lemma code_chr (z : Z) : 0 <= z < 256 -> code (chr z) = z.
Proof.
  intros H. unfold chr, code. rewrite N_ascii_embedding; lia.
Qed.

Lemma byte_code_range (b : byte) : 0 <= byte_code b < 256.
Proof. unfold byte_code. pose proof (Byte.to_N_bounded b). lia. Qed.

Lemma byte_chr_code (b : byte) : byte_chr (byte_code b) = b.
Proof.
  unfold byte_chr, byte_code, chr. rewrite N2Z.id.
  rewrite <- ascii_of_byte_via_N. apply byte_of_ascii_of_byte.
Qed.

Lemma byte_chr_eq (b : byte) (z : Z) : z = byte_code b -> byte_chr z = b.
Proof. intros ->. apply byte_chr_code. Qed.

Lemma get_contains (s : string) (n : nat) (c : ascii) :
  String.get n s = Some c -> Strings.contains s c = true.
Proof.
  revert n. induction s as [|x s IH]; intros n H; [discriminate|].
  destruct n as [|n]; simpl in *.
  - injection H as ->. now rewrite Ascii.eqb_refl.
  - rewrite (IH _ H). apply orb_true_r.
Qed.

End StringFacts.

Module SplitFacts.

Import StringFacts.

Lemma Split_nonempty (s : string) (sep : ascii) : Strings.Split s sep <> [].
Proof.
  induction s as [|c s IH]; simpl; [discriminate|].
  destruct (Ascii.eqb c sep); [discriminate|].
  destruct (Strings.Split s sep); discriminate.
Qed.

(** A string without the separator is a single piece. *)
Lemma Split_none (s : string) (sep : ascii) :
  Strings.contains s sep = false -> Strings.Split s sep = [s].
Proof.
  induction s as [|c s IH]; simpl; intros H; [reflexivity|].
  apply orb_false_iff in H as [Hc Hs].
  rewrite Hc, (IH Hs). reflexivity.
Qed.

(** The first separator ends the first piece. *)
Lemma Split_append (a b : string) (sep : ascii) :
  Strings.contains a sep = false ->
  Strings.Split (a ++ String sep b) sep = a :: Strings.Split b sep.
Proof.
  induction a as [|c a IH]; simpl; intros H.
  - now rewrite Ascii.eqb_refl.
  - apply orb_false_iff in H as [Hc Ha].
    rewrite Hc, (IH Ha). reflexivity.
Qed.

Lemma Split_three (h c s : string) :
  Strings.contains h "." = false ->
  Strings.contains c "." = false ->
  Strings.contains s "." = false ->
  Strings.Split (h ++ "." ++ c ++ "." ++ s) "." = [h; c; s].
Proof.
  intros Hh Hc Hs. simpl.
  rewrite (Split_append h _ "." Hh), (Split_append c _ "." Hc), (Split_none s "." Hs).
  reflexivity.
Qed.

(** The pieces have no separator in them. *)
Lemma Split_pieces (s : string) (sep : ascii) :
  Forall (fun piece => Strings.contains piece sep = false) (Strings.Split s sep).
Proof.
  induction s as [|c s IH]; simpl.
  - repeat constructor.
  - destruct (Ascii.eqb c sep) eqn:E.
    + constructor; [reflexivity | exact IH].
    + destruct (Strings.Split s sep) as [|p ps]; [repeat constructor; simpl; now rewrite E|].
      inversion IH; subst. constructor; [simpl; now rewrite E | assumption].
Qed.

End SplitFacts.

Module Base64Facts.

Import StringFacts.

Lemma encode_char_alphabet (v : Z) :
  Strings.contains Base64.encodeStd (Base64.encode_char v) = true.
Proof.
  unfold Base64.encode_char.
  destruct (String.get (Z.to_nat v) Base64.encodeStd) eqn:E.
  - eapply get_contains; eassumption.
  - reflexivity.
Qed.

Lemma contains_alphabet_not (c x : ascii) :
  Strings.contains Base64.encodeStd x = false ->
  Strings.contains Base64.encodeStd c = true -> Ascii.eqb c x = false.
Proof.
  intros Hx Hc. destruct (Ascii.eqb_spec c x) as [->|]; [congruence | reflexivity].
Qed.

Lemma encode_char_not_dot (v : Z) : Ascii.eqb (Base64.encode_char v) "." = false.
Proof.
  apply contains_alphabet_not; [reflexivity | apply encode_char_alphabet].
Qed.

(** [list] induction three elements at a time. *)
Lemma list_ind3 {A : Type} (P : list A -> Prop) :
  P [] -> (forall a, P [a]) -> (forall a b, P [a; b]) ->
  (forall a b c l, P l -> P (a :: b :: c :: l)) ->
  forall l, P l.
Proof.
  intros H0 H1 H2 H3.
  fix IH 1. intros [|a [|b [|c l]]].
  - exact H0.
  - apply H1.
  - apply H2.
  - apply H3, IH.
Qed.

(** The unpadded encoding has no dot in it. *)
Lemma EncodeToString_no_dot (src : list byte) :
  Strings.contains (Base64.EncodeToString Base64.RawStd src) "." = false.
Proof.
  induction src as [| a | a b | a b c l IH] using list_ind3;
    cbn [Base64.EncodeToString Strings.contains Base64.padding Base64.RawStd];
    rewrite ?encode_char_not_dot; auto.
Qed.

Lemma decodeMap_encode_char (v : Z) :
  0 <= v < 64 -> Base64.decodeMap (Base64.encode_char v) = Some v.
Proof.
  intros H.
  assert (Hn : exists n, (n < 64)%nat /\ v = Z.of_nat n).
  { exists (Z.to_nat v). lia. }
  destruct Hn as (n & Hn & ->).
  do 64 (destruct n as [|n]; [reflexivity|]). lia.
Qed.

Lemma decode_quantum4 (b0 b1 b2 : byte) (src : string) (si : Z) (out : list byte) :
  let val := byte_code b0 * 65536 + byte_code b1 * 256 + byte_code b2 in
  Base64.decode_loop
    (String (Base64.encode_char (val / 262144 mod 64))
       (String (Base64.encode_char (val / 4096 mod 64))
          (String (Base64.encode_char (val / 64 mod 64))
             (String (Base64.encode_char (val mod 64)) src)))) si [] out
  = Base64.decode_loop src (si + 1 + 1 + 1 + 1) [] (out ++ [b0; b1; b2]).
Proof.
  intros val.
  pose proof (byte_code_range b0). pose proof (byte_code_range b1).
  pose proof (byte_code_range b2).
  cbn [Base64.decode_loop].
  rewrite !decodeMap_encode_char by (apply Z.mod_pos_bound; lia).
  cbn [app Base64.quantum_bytes].
  repeat f_equal; apply byte_chr_eq; subst val; Z.div_mod_to_equations; lia.
Qed.

(** Decoding undoes the unpadded encoding. *)
Lemma decode_loop_EncodeToString (src : list byte) :
  forall si out,
    Base64.decode_loop (Base64.EncodeToString Base64.RawStd src) si [] out
    = (out ++ src, None).
Proof.
  induction src as [| a | a b | a b c l IH] using list_ind3; intros si out.
  - cbn. now rewrite app_nil_r.
  - pose proof (byte_code_range a).
    cbn [Base64.EncodeToString Base64.padding Base64.RawStd Base64.decode_loop].
    rewrite !decodeMap_encode_char by (apply Z.mod_pos_bound; lia).
    cbn [app Base64.quantum_bytes].
    repeat f_equal; apply byte_chr_eq; Z.div_mod_to_equations; lia.
  - pose proof (byte_code_range a). pose proof (byte_code_range b).
    cbn [Base64.EncodeToString Base64.padding Base64.RawStd Base64.decode_loop].
    rewrite !decodeMap_encode_char by (apply Z.mod_pos_bound; lia).
    cbn [app Base64.quantum_bytes].
    repeat f_equal; apply byte_chr_eq; Z.div_mod_to_equations; lia.
  - cbn [Base64.EncodeToString].
    rewrite decode_quantum4, IH, <- app_assoc. reflexivity.
Qed.

Lemma DecodeString_EncodeToString (src : list byte) :
  Base64.DecodeString (Base64.EncodeToString Base64.RawStd src) = (src, None).
Proof. unfold Base64.DecodeString. now rewrite decode_loop_EncodeToString. Qed.

End Base64Facts.

(* ================================================================== *)
(** * The JSON round trip *)
(* ================================================================== *)

Module UTF8Facts.

Import StringFacts.

Lemma take_append (a b : string) : UTF8.take (String.length a) (a ++ b) = a.
Proof. induction a as [|x a IH]; simpl; [now destruct b | now rewrite IH]. Qed.

Lemma drop_append (a b : string) : UTF8.drop (String.length a) (a ++ b) = b.
Proof. induction a as [|x a IH]; simpl; [now destruct b | exact IH]. Qed.

Lemma length_drop (n : nat) (s : string) :
  String.length (UTF8.drop n s) = (String.length s - n)%nat.
Proof.
  revert s. induction n as [|n IH]; intros [|c s]; simpl; auto.
Qed.

(** What [lead] says about a leading byte. *)
Lemma lead_spec (b0 sz lo hi : Z) :
  UTF8.lead b0 = Some (sz, lo, hi) ->
  128 <= lo /\ hi <= 191 /\
  ((sz = 2 /\ 194 <= b0 < 224)
   \/ (sz = 3 /\ 224 <= b0 < 240 /\ (b0 = 224 -> lo = 160) /\ (b0 = 237 -> hi = 159))
   \/ (sz = 4 /\ 240 <= b0 <= 244 /\ (b0 = 240 -> lo = 144) /\ (b0 = 244 -> hi = 143))).
Proof.
  unfold UTF8.lead. intros H. zbool; try discriminate; injection H as <- <- <-; lia.
Qed.

Lemma str_chr2 (c0 c1 : ascii) (a b : Z) :
  a = code c0 -> b = code c1 -> UTF8.str2 a b = String c0 (String c1 EmptyString).
Proof. intros -> ->. unfold UTF8.str2, UTF8.str1. now rewrite !chr_code. Qed.

Lemma str_chr3 (c0 c1 c2 : ascii) (a b c : Z) :
  a = code c0 -> b = code c1 -> c = code c2 ->
  UTF8.str3 a b c = String c0 (String c1 (String c2 EmptyString)).
Proof. intros -> -> ->. unfold UTF8.str3, UTF8.str2, UTF8.str1. now rewrite !chr_code. Qed.

Lemma str_chr4 (c0 c1 c2 c3 : ascii) (a b c d : Z) :
  a = code c0 -> b = code c1 -> c = code c2 -> d = code c3 ->
  UTF8.str4 a b c d = String c0 (String c1 (String c2 (String c3 EmptyString))).
Proof.
  intros -> -> -> ->. unfold UTF8.str4, UTF8.str3, UTF8.str2, UTF8.str1.
  now rewrite !chr_code.
Qed.

(** A valid multi-byte encoding at the head of a string: the rune
    it decodes to is encoded by the same bytes, and decoding looks
    at these bytes only. *)
Lemma DecodeRune_valid (c0 : ascii) (s1 : string) :
  128 <= code c0 ->
  UTF8.invalid_head (String c0 s1) = false ->
  exists (r : Z) (bs tl : string),
    String c0 s1 = (bs ++ tl)%string
    /\ (1 <= String.length bs)%nat
    /\ UTF8.EncodeRune r = bs
    /\ forall tl' : string, UTF8.DecodeRune (bs ++ tl') = (r, String.length bs).
Proof.
  intros H0 Hv. unfold UTF8.invalid_head in Hv.
  unfold UTF8.DecodeRune in Hv.
  pose proof (code_range c0) as R0.
  unfold UTF8.RuneSelf in Hv.
  destruct (Z.ltb_spec (code c0) 128) as [|_]; [lia|].
  destruct (UTF8.lead (code c0)) as [[[sz lo] hi]|] eqn:L; [|discriminate].
  pose proof (lead_spec _ _ _ _ L) as (Hlo & Hhi & Hsz).
  destruct s1 as [|c1 s2]; [discriminate|].
  pose proof (code_range c1) as R1.
  destruct (Z.ltb_spec (code c1) lo) as [|B1lo]; [discriminate|].
  destruct (Z.ltb_spec hi (code c1)) as [|B1hi]; [discriminate|].
  cbn [orb] in Hv.
  destruct (Z.leb_spec sz 2) as [S2|S2].
  { (* two bytes *)
    exists (code c0 mod 32 * 64 + code c1 mod 64),
      (String c0 (String c1 EmptyString)), s2.
    split; [reflexivity|]. split; [simpl; lia|]. split.
    - unfold UTF8.EncodeRune, UTF8.MaxRune.
      assert (128 <= code c0 mod 32 * 64 + code c1 mod 64 <= 2047)
        by (Z.div_mod_to_equations; lia).
      destruct (Z.leb_spec 0 (code c0 mod 32 * 64 + code c1 mod 64)); [|lia].
      destruct (Z.leb_spec (code c0 mod 32 * 64 + code c1 mod 64) 127); [lia|].
      destruct (Z.leb_spec (code c0 mod 32 * 64 + code c1 mod 64) 2047); [|lia].
      cbn [andb]. apply str_chr2; Z.div_mod_to_equations; lia.
    - intros tl'. cbn [append String.length]. unfold UTF8.DecodeRune, UTF8.RuneSelf.
      destruct (Z.ltb_spec (code c0) 128); [lia|]. rewrite L.
      destruct (Z.ltb_spec (code c1) lo); [lia|].
      destruct (Z.ltb_spec hi (code c1)); [lia|]. cbn [orb].
      destruct (Z.leb_spec sz 2); [reflexivity | lia]. }
  destruct s2 as [|c2 s3]; [discriminate|].
  pose proof (code_range c2) as R2.
  unfold UTF8.continuation in Hv.
  destruct (Z.leb_spec 128 (code c2)) as [B2lo|]; [|discriminate].
  destruct (Z.leb_spec (code c2) 191) as [B2hi|]; [|discriminate].
  cbn [andb negb] in Hv.
  destruct (Z.leb_spec sz 3) as [S3|S3].
  { (* three bytes *)
    set (r := code c0 mod 16 * 4096 + code c1 mod 64 * 64 + code c2 mod 64).
    exists r, (String c0 (String c1 (String c2 EmptyString))), s3.
    split; [reflexivity|]. split; [simpl; lia|]. split.
    - unfold UTF8.EncodeRune, UTF8.MaxRune.
      assert (2048 <= r <= 65535 /\ (r < 55296 \/ 57343 < r))
        by (subst r; Z.div_mod_to_equations; lia).
      destruct (Z.leb_spec 0 r); [|lia].
      destruct (Z.leb_spec r 127); [lia|].
      destruct (Z.leb_spec r 2047); [lia|].
      destruct (Z.ltb_spec r 0); [lia|].
      destruct (Z.ltb_spec 1114111 r); [lia|].
      destruct (Z.leb_spec 55296 r); destruct (Z.leb_spec r 57343); try lia;
        cbn [andb orb];
        (destruct (Z.leb_spec r 65535); [|lia]);
        apply str_chr3; subst r; Z.div_mod_to_equations; lia.
    - intros tl'. cbn [append String.length]. unfold UTF8.DecodeRune, UTF8.RuneSelf.
      destruct (Z.ltb_spec (code c0) 128); [lia|]. rewrite L.
      destruct (Z.ltb_spec (code c1) lo); [lia|].
      destruct (Z.ltb_spec hi (code c1)); [lia|]. cbn [orb].
      destruct (Z.leb_spec sz 2); [lia|].
      unfold UTF8.continuation.
      destruct (Z.leb_spec 128 (code c2)); [|lia].
      destruct (Z.leb_spec (code c2) 191); [|lia]. cbn [andb negb].
      destruct (Z.leb_spec sz 3); [reflexivity | lia]. }
  destruct s3 as [|c3 s4]; [discriminate|].
  pose proof (code_range c3) as R3.
  destruct (Z.leb_spec 128 (code c3)) as [B3lo|]; [|discriminate].
  destruct (Z.leb_spec (code c3) 191) as [B3hi|]; [|discriminate].
  cbn [andb negb] in Hv.
  set (r := code c0 mod 8 * 262144 + code c1 mod 64 * 4096
            + code c2 mod 64 * 64 + code c3 mod 64).
  exists r, (String c0 (String c1 (String c2 (String c3 EmptyString)))), s4.
  split; [reflexivity|]. split; [simpl; lia|]. split.
  - unfold UTF8.EncodeRune, UTF8.MaxRune.
    assert (65536 <= r <= 1114111) by (subst r; Z.div_mod_to_equations; lia).
    destruct (Z.leb_spec 0 r); [|lia].
    destruct (Z.leb_spec r 127); [lia|].
    destruct (Z.leb_spec r 2047); [lia|].
    destruct (Z.ltb_spec r 0); [lia|].
    destruct (Z.ltb_spec 1114111 r); [lia|].
    destruct (Z.leb_spec 55296 r); destruct (Z.leb_spec r 57343); try lia;
      cbn [andb orb];
      (destruct (Z.leb_spec r 65535); [lia|]);
      apply str_chr4; subst r; Z.div_mod_to_equations; lia.
  - intros tl'. cbn [append String.length]. unfold UTF8.DecodeRune, UTF8.RuneSelf.
    destruct (Z.ltb_spec (code c0) 128); [lia|]. rewrite L.
    destruct (Z.ltb_spec (code c1) lo); [lia|].
    destruct (Z.ltb_spec hi (code c1)); [lia|]. cbn [orb].
    destruct (Z.leb_spec sz 2); [lia|].
    unfold UTF8.continuation.
    destruct (Z.leb_spec 128 (code c2)); [|lia].
    destruct (Z.leb_spec (code c2) 191); [|lia]. cbn [andb negb].
    destruct (Z.leb_spec sz 3); [lia|].
    destruct (Z.leb_spec 128 (code c3)); [|lia].
    destruct (Z.leb_spec (code c3) 191); [|lia]. reflexivity.
Qed.

End UTF8Facts.

Module JsonStringFacts.

Import StringFacts UTF8Facts Spec.

Lemma scan_string_quote (f : nat) (rest : string) :
  Json.scan_string (S f) (String Json.dquote rest) = Some (EmptyString, rest).
Proof. reflexivity. Qed.

(** One step of the scanner reads the escape of one ASCII character
    back. *)
Lemma scan_string_ascii (c : ascii) :
  code c < 128 ->
  forall (f : nat) (t : string),
    Json.scan_string (S f) (escape1 c ++ t)
    = prepend (String c EmptyString) (Json.scan_string f t).
Proof.
  intros H f t.
  destruct c as [[] [] [] [] [] [] [] []];
    first [ exfalso; vm_compute in H; discriminate H | reflexivity ].
Qed.

Lemma scan_string_replacement (f : nat) (t : string) :
  Json.scan_string (S f) (String Json.backslash "ufffd" ++ t)
  = prepend (UTF8.EncodeRune UTF8.RuneError) (Json.scan_string f t).
Proof. reflexivity. Qed.

Lemma scan_string_separator (r : Z) (f : nat) (t : string) :
  r = 8232 \/ r = 8233 ->
  Json.scan_string (S f)
    (String Json.backslash "u202" ++ String (Json.hex_char (r mod 16)) EmptyString ++ t)
  = prepend (UTF8.EncodeRune r) (Json.scan_string f t).
Proof. intros [-> | ->]; reflexivity. Qed.

Lemma scan_string_rune (c : ascii) (s : string) (f : nat) :
  128 <= code c ->
  Json.scan_string (S f) (String c s)
  = prepend (UTF8.EncodeRune (fst (UTF8.DecodeRune (String c s))))
      (Json.scan_string f (UTF8.drop (snd (UTF8.DecodeRune (String c s))) (String c s))).
Proof.
  intros H. cbn [Json.scan_string]. unfold UTF8.RuneSelf.
  destruct (Z.eqb_spec (code c) 34); [lia|].
  destruct (Z.eqb_spec (code c) 92); [lia|].
  destruct (Z.ltb_spec (code c) 32); [lia|].
  destruct (Z.ltb_spec (code c) 128); [lia|].
  destruct (UTF8.DecodeRune (String c s)) as [rr size]. reflexivity.
Qed.

Lemma length_escape1 (c : ascii) : (1 <= String.length (escape1 c))%nat.
Proof.
  unfold escape1, Json.escape_ascii.
  repeat match goal with |- context [if ?b then _ else _] => destruct b end; simpl; lia.
Qed.

(** Scanning the escape of a string gives the string back, coerced
    to valid UTF-8. *)
Lemma scan_string_escape_fuel (g : nat) :
  forall (s rest : string) (f : nat),
    (String.length s <= g)%nat ->
    (String.length (Json.escape_fuel g s) < f)%nat ->
    Json.scan_string f (Json.escape_fuel g s ++ String Json.dquote rest)
    = Some (UTF8.coerce_fuel g s, rest).
Proof.
  induction g as [|g IH]; intros s rest f Hg Hf.
  - destruct s; [|simpl in Hg; lia]. destruct f; [simpl in Hf; lia|]. reflexivity.
  - destruct s as [|c s].
    { destruct f; [simpl in Hf; lia|]. reflexivity. }
    cbn [Json.escape_fuel UTF8.coerce_fuel] in *.
    unfold UTF8.RuneSelf in *.
    destruct (Z.ltb_spec (code c) 128) as [A|A].
    + (* an ASCII character *)
      assert (E : (if Json.htmlSafe (code c)
                   then String c (Json.escape_fuel g s)
                   else Json.escape_ascii (code c) ++ Json.escape_fuel g s)%string
                  = (escape1 c ++ Json.escape_fuel g s)%string).
      { unfold escape1. now destruct (Json.htmlSafe (code c)). }
      rewrite E in *. rewrite length_append in Hf.
      pose proof (length_escape1 c).
      destruct f as [|f]; [lia|].
      rewrite append_assoc, scan_string_ascii by assumption.
      rewrite IH by (simpl in Hg; lia). reflexivity.
    + unfold UTF8.invalid_head.
      destruct (UTF8.DecodeRune (String c s)) as [r size] eqn:D.
      destruct ((r =? UTF8.RuneError) && Nat.eqb size 1) eqn:V.
      * (* an invalid byte *)
        rewrite length_append in Hf. cbn [String.length] in Hf.
        destruct f as [|f]; [lia|].
        rewrite append_assoc, scan_string_replacement.
        rewrite IH by (simpl in Hg; simpl; lia). reflexivity.
      * (* a valid encoding *)
        assert (V' : UTF8.invalid_head (String c s) = false)
          by (unfold UTF8.invalid_head; now rewrite D).
        destruct (DecodeRune_valid c s A V') as (r' & bs & tl & Es & Hbs & Enc & Dec).
        rewrite Es in D. rewrite Dec in D. injection D as <- <-.
        cbn [snd]. rewrite Es, take_append, drop_append.
        rewrite Es, take_append, drop_append in Hf.
        assert (Hl : (String.length tl <= g)%nat).
        { apply (f_equal String.length) in Es. rewrite length_append in Es.
          simpl in Es, Hg. lia. }
        destruct ((r' =? 8232) || (r' =? 8233)) eqn:Sep.
        -- rewrite !length_append in Hf. cbn [String.length] in Hf.
           destruct f as [|f]; [lia|].
           rewrite !append_assoc.
           rewrite scan_string_separator
             by (apply orb_true_iff in Sep as [Sep|Sep]; apply Z.eqb_eq in Sep; auto).
           rewrite IH by (assumption || lia). now rewrite Enc.
        -- rewrite length_append in Hf.
           destruct f as [|f]; [lia|].
           rewrite append_assoc.
           destruct bs as [|c' bs']; [simpl in Hbs; lia|].
           assert (c' = c) by (simpl in Es; congruence). subst c'.
           cbn [append]. rewrite scan_string_rune by assumption.
           change (String c (bs' ++ Json.escape_fuel g tl ++ String Json.dquote rest))%string
             with (String c bs' ++ (Json.escape_fuel g tl ++ String Json.dquote rest))%string.
           rewrite Dec. cbn [fst snd]. rewrite drop_append.
           rewrite IH by (assumption || lia). now rewrite Enc.
Qed.

Lemma scan_string_escape (s rest : string) (f : nat) :
  (String.length (Json.escape s) < f)%nat ->
  Json.scan_string f (Json.escape s ++ String Json.dquote rest)
  = Some (UTF8.coerce s, rest).
Proof. intros H. now apply scan_string_escape_fuel. Qed.

End JsonStringFacts.

Module StrconvFacts.

Import StringFacts Spec.

Lemma all_digits_append (a b : string) :
  all_digits (a ++ b) = all_digits a && all_digits b.
Proof.
  induction a as [|c a IH]; simpl; [reflexivity|]. now rewrite IH, andb_assoc.
Qed.

Lemma is_digit_chr (d : Z) : 0 <= d < 10 -> Strconv.is_digit (chr (48 + d)) = true.
Proof.
  intros H. unfold Strconv.is_digit. rewrite code_chr by lia.
  apply andb_true_iff. split; apply Z.leb_le; lia.
Qed.

Lemma value_of_digits_append (a b : string) (acc : Z) :
  Strconv.value_of_digits (a ++ b) acc
  = match Strconv.value_of_digits a acc with
    | Some v => Strconv.value_of_digits b v
    | None => None
    end.
Proof.
  revert acc. induction a as [|c a IH]; intros acc; simpl; [reflexivity|].
  destruct (Strconv.is_digit c); [apply IH | reflexivity].
Qed.

(** The digits of a number: what [digits_fuel] puts in front of its
    accumulator. *)
Lemma digits_fuel_S (f : nat) (n : Z) (acc : string) :
  Strconv.digits_fuel (S f) n acc
  = if n <? 10 then String (chr (48 + n mod 10)) acc
    else Strconv.digits_fuel f (n / 10) (String (chr (48 + n mod 10)) acc).
Proof. reflexivity. Qed.

Lemma digits_fuel_spec (f : nat) :
  forall n : Z,
    0 <= n < 2 ^ Z.of_nat (S f) ->
    exists (c : ascii) (ds : string),
      (forall acc, Strconv.digits_fuel (S f) n acc = String c (ds ++ acc))
      /\ Strconv.is_digit c = true
      /\ all_digits ds = true
      /\ (c = "0"%char -> n = 0 /\ ds = EmptyString)
      /\ (forall a, 0 <= a ->
            exists v, Strconv.value_of_digits (String c ds) a = Some v /\ 0 <= v
                      /\ (a = 0 -> v = n)).
Proof.
  induction f as [|f IH]; intros n Hn;
    destruct (Z.ltb_spec n 10) as [L|L].
  1, 3: exists (chr (48 + n mod 10)), EmptyString;
    (split; [intros acc; rewrite digits_fuel_S;
             destruct (Z.ltb_spec n 10); [reflexivity | lia]|]);
    rewrite Z.mod_small by lia;
    (split; [apply is_digit_chr; lia|]);
    (split; [reflexivity|]); split;
    [ intros E; apply (f_equal code) in E; rewrite code_chr in E by lia;
      change (code "0") with 48 in E; split; [lia | reflexivity]
    | intros a Ha; cbn [Strconv.value_of_digits];
      rewrite is_digit_chr by lia; eexists; split; [reflexivity|];
      rewrite code_chr by lia; lia ].
  - change (2 ^ Z.of_nat 1) with 2 in Hn. lia.
  - assert (Hq : 0 <= n / 10 < 2 ^ Z.of_nat (S f)).
    { rewrite (Nat2Z.inj_succ (S f)), Z.pow_succ_r in Hn by lia.
      split; [apply Z.div_pos; lia|].
      apply Z.div_lt_upper_bound; lia. }
    destruct (IH _ Hq) as (c & ds & Eq & Dc & Dd & Z0 & Val).
    exists c, (ds ++ String (chr (48 + n mod 10)) EmptyString)%string.
    assert (Hm : 0 <= n mod 10 < 10) by (apply Z.mod_pos_bound; lia).
    split; [intros acc; rewrite digits_fuel_S;
            destruct (Z.ltb_spec n 10); [lia|];
            rewrite Eq, append_assoc; reflexivity|].
    split; [assumption|].
    split; [rewrite all_digits_append, Dd; cbn [all_digits];
            rewrite is_digit_chr by lia; reflexivity|].
    split.
    * intros E. destruct (Z0 E) as [Hz _].
      assert (n < 10) by (Z.div_mod_to_equations; lia). lia.
    * intros a Ha. destruct (Val a Ha) as (v & Ev & Hv & Hv0).
      change (String c (ds ++ String (chr (48 + n mod 10)) ""))%string
        with (String c ds ++ String (chr (48 + n mod 10)) "")%string.
      rewrite value_of_digits_append, Ev. cbn [Strconv.value_of_digits].
      rewrite is_digit_chr, code_chr by lia.
      eexists; split; [reflexivity|]. split; [lia|].
      intros ->. rewrite (Hv0 eq_refl). Z.div_mod_to_equations; lia.
Qed.

Lemma digits_spec (n : Z) :
  0 <= n ->
  exists (c : ascii) (ds : string),
    Strconv.digits n = String c ds
    /\ Strconv.is_digit c = true
    /\ all_digits ds = true
    /\ (c = "0"%char -> n = 0 /\ ds = EmptyString)
    /\ Strconv.value_of_digits (String c ds) 0 = Some n.
Proof.
  intros Hn. unfold Strconv.digits.
  assert (H : 0 <= n < 2 ^ Z.of_nat (S (Z.to_nat (Z.log2 n)))).
  { split; [assumption|].
    rewrite Nat2Z.inj_succ, Z2Nat.id by apply Z.log2_nonneg.
    destruct (Z.eq_dec n 0) as [->|]; [reflexivity|].
    apply Z.log2_spec. lia. }
  destruct (digits_fuel_spec _ _ H) as (c & ds & Eq & Dc & Dd & Z0 & Val).
  exists c, ds. rewrite Eq, append_nil_r.
  repeat split; try assumption; try (apply Z0; assumption).
  destruct (Val 0 ltac:(lia)) as (v & Ev & _ & Hv). now rewrite Ev, Hv.
Qed.

Lemma is_digit_not_sign (c : ascii) :
  Strconv.is_digit c = true -> Ascii.eqb c "-" = false /\ Ascii.eqb c "+" = false.
Proof.
  intros H. split; destruct (Ascii.eqb_spec c "-"), (Ascii.eqb_spec c "+");
    subst; try reflexivity; discriminate H.
Qed.

(** [ParseInt] reads back what [FormatInt] wrote. *)
Lemma ParseInt_FormatInt (z : Z) :
  is_int64 z = true -> Strconv.ParseInt (Strconv.FormatInt z) = Some z.
Proof.
  intros Hz. unfold Strconv.FormatInt.
  destruct (Z.ltb_spec z 0) as [N|N].
  - destruct (digits_spec (- z) ltac:(lia)) as (c & ds & -> & Dc & Dd & Z0 & Val).
    unfold Strconv.ParseInt. cbn [Ascii.eqb Bool.eqb]. rewrite Val.
    rewrite Z.opp_involutive, Hz. reflexivity.
  - destruct (digits_spec z N) as (c & ds & -> & Dc & Dd & Z0 & Val).
    unfold Strconv.ParseInt.
    destruct (is_digit_not_sign c Dc) as [-> ->]. rewrite Val, Hz. reflexivity.
Qed.

Lemma span_digits_append (ds rest : string) :
  all_digits ds = true ->
  match rest with String c _ => Strconv.is_digit c = false | EmptyString => True end ->
  Json.span_digits (ds ++ rest) = (ds, rest).
Proof.
  intros Hd Hr. induction ds as [|c ds IH]; simpl in *.
  - destruct rest as [|c r]; [reflexivity|]. simpl. now rewrite Hr.
  - apply andb_true_iff in Hd as [Hc Hd]. rewrite Hc, (IH Hd). reflexivity.
Qed.

Lemma number_end_digit (rest : string) :
  number_end rest = true ->
  match rest with String c _ => Strconv.is_digit c = false | EmptyString => True end.
Proof.
  destruct rest as [|c r]; [trivial|]. unfold number_end.
  destruct (Strconv.is_digit c); [discriminate | reflexivity].
Qed.

Lemma scan_fraction_end (rest : string) :
  number_end rest = true -> Json.scan_fraction rest = Some (EmptyString, rest).
Proof.
  destruct rest as [|c r]; [reflexivity|]. unfold number_end, Json.scan_fraction.
  destruct (Ascii.eqb c "."); [|reflexivity].
  rewrite andb_false_r. discriminate.
Qed.

Lemma scan_exponent_end (rest : string) :
  number_end rest = true -> Json.scan_exponent rest = Some (EmptyString, rest).
Proof.
  destruct rest as [|c r]; [reflexivity|]. unfold number_end, Json.scan_exponent.
  destruct (Ascii.eqb c "e"), (Ascii.eqb c "E"); try reflexivity;
    rewrite ?andb_false_r; discriminate.
Qed.

Lemma scan_integer_part (c : ascii) (ds rest : string) :
  Strconv.is_digit c = true ->
  all_digits ds = true ->
  (c = "0"%char -> ds = EmptyString) ->
  number_end rest = true ->
  (if Ascii.eqb c "0" then Some (String c EmptyString, (ds ++ rest)%string)
   else if Strconv.is_digit c
        then let '(d, r) := Json.span_digits (ds ++ rest) in Some (String c d, r)
        else None) = Some (String c ds, rest).
Proof.
  intros Dc Dd Z0 He.
  destruct (Ascii.eqb_spec c "0") as [E|E].
  - rewrite (Z0 E). reflexivity.
  - rewrite Dc, (span_digits_append ds rest Dd (number_end_digit rest He)). reflexivity.
Qed.

(** The scanner takes what [FormatInt] wrote as one number. *)
Lemma scan_number_FormatInt (z : Z) (rest : string) :
  number_end rest = true ->
  Json.scan_number (Strconv.FormatInt z ++ rest) = Some (Strconv.FormatInt z, rest).
Proof.
  intros He. unfold Strconv.FormatInt.
  assert (K : forall (c : ascii) (ds sign : string),
             Strconv.is_digit c = true -> all_digits ds = true ->
             (c = "0"%char -> ds = EmptyString) ->
             match
               (if Ascii.eqb c "0" then Some (String c EmptyString, (ds ++ rest)%string)
                else if Strconv.is_digit c
                     then let '(d, r) := Json.span_digits (ds ++ rest) in Some (String c d, r)
                     else None)
             with
             | Some (i, r1) =>
                 match Json.scan_fraction r1 with
                 | Some (f, r2) =>
                     match Json.scan_exponent r2 with
                     | Some (e, r3) => Some ((sign ++ i ++ f ++ e)%string, r3)
                     | None => None
                     end
                 | None => None
                 end
             | None => None
             end = Some ((sign ++ String c ds)%string, rest)).
  { intros c ds sign Dc Dd Z0.
    rewrite (scan_integer_part c ds rest Dc Dd Z0 He).
    rewrite (scan_fraction_end _ He), (scan_exponent_end _ He).
    cbn [append]. now rewrite append_nil_r. }
  destruct (Z.ltb_spec z 0) as [N|N].
  - destruct (digits_spec (- z) ltac:(lia)) as (c & ds & -> & Dc & Dd & Z0 & _).
    unfold Json.scan_number. cbn [append Ascii.eqb Bool.eqb].
    apply (K c ds "-"%string Dc Dd (fun E => proj2 (Z0 E))).
  - destruct (digits_spec z N) as (c & ds & -> & Dc & Dd & Z0 & _).
    unfold Json.scan_number. cbn [append].
    destruct (is_digit_not_sign c Dc) as [-> _].
    apply (K c ds EmptyString Dc Dd (fun E => proj2 (Z0 E))).
Qed.

(** The first character of what [FormatInt] writes starts a number
    and nothing else. *)
Lemma FormatInt_head (z : Z) :
  exists (c : ascii) (s : string),
    Strconv.FormatInt z = String c s
    /\ (code c = 45 \/ 48 <= code c <= 57).
Proof.
  unfold Strconv.FormatInt. destruct (Z.ltb_spec z 0) as [N|N].
  - eexists _, _. split; [reflexivity|]. left. reflexivity.
  - destruct (digits_spec z N) as (c & ds & -> & Dc & _).
    exists c, ds. split; [reflexivity|]. right.
    unfold Strconv.is_digit in Dc. apply andb_true_iff in Dc as [A B].
    apply Z.leb_le in A, B. lia.
Qed.

End StrconvFacts.

Module JsonFacts.

Import StringFacts UTF8Facts JsonStringFacts StrconvFacts Spec.

Lemma quote_append (s rest : string) :
  (Json.quote s ++ rest)%string
  = String Json.dquote (Json.escape s ++ String Json.dquote rest).
Proof. unfold Json.quote. cbn [append]. now rewrite append_assoc. Qed.

Lemma scan_value_string (s rest : string) (f : nat) (d : Z) :
  (1 <= f)%nat ->
  Json.scan_value f d (Json.quote s ++ rest) = Some (Json.Str (UTF8.coerce s), rest).
Proof.
  intros Hf. destruct f as [|f]; [lia|]. rewrite quote_append.
  cbn [Json.scan_value Json.skip_space].
  change (Json.isSpace Json.dquote) with false. cbv iota.
  change (code Json.dquote) with 34. cbn [Z.eqb Pos.eqb].
  rewrite scan_string_escape; [reflexivity|].
  rewrite length_append. simpl. lia.
Qed.

Lemma scan_value_number (z : Z) (rest : string) (f : nat) (d : Z) :
  (1 <= f)%nat ->
  number_end rest = true ->
  Json.scan_value f d (Strconv.FormatInt z ++ rest)
  = Some (Json.Number (Strconv.FormatInt z), rest).
Proof.
  intros Hf He. destruct f as [|f]; [lia|].
  pose proof (scan_number_FormatInt z rest He) as Sn.
  destruct (FormatInt_head z) as (c & s & E & Hc). rewrite E in *.
  cbn [append] in *. cbn [Json.scan_value Json.skip_space].
  assert (Sp : Json.isSpace c = false).
  { unfold Json.isSpace.
    destruct (Z.eqb_spec (code c) 32), (Z.eqb_spec (code c) 9),
      (Z.eqb_spec (code c) 13), (Z.eqb_spec (code c) 10); try lia; reflexivity. }
  rewrite Sp.
  destruct (Z.eqb_spec (code c) 123); [lia|].
  destruct (Z.eqb_spec (code c) 91); [lia|].
  destruct (Z.eqb_spec (code c) 34); [lia|].
  destruct (Z.eqb_spec (code c) 116); [lia|].
  destruct (Z.eqb_spec (code c) 102); [lia|].
  destruct (Z.eqb_spec (code c) 110); [lia|].
  now rewrite Sn.
Qed.

Lemma scan_value_null (rest : string) (f : nat) (d : Z) :
  (1 <= f)%nat ->
  Json.scan_value f d ("null" ++ rest) = Some (Json.Null, rest).
Proof. intros Hf. destruct f as [|f]; [lia|]. reflexivity. Qed.

Lemma join_comma_cons (a b : string) (l : list string) :
  Json.join_comma (a :: b :: l) = (a ++ String "," (Json.join_comma (b :: l)))%string.
Proof. reflexivity. Qed.

Lemma scan_elements_strings (l : list string) :
  forall (x : string) (rest : string) (f : nat) (d : Z),
    (2 * List.length l + 2 <= f)%nat ->
    Json.scan_elements f d (Json.join_comma (map Json.quote (x :: l)) ++ String "]" rest)
    = Some (map (fun s => Json.Str (UTF8.coerce s)) (x :: l), rest).
Proof.
  induction l as [|y l IH]; intros x rest f d Hf.
  - destruct f as [|f]; [simpl in Hf; lia|].
    cbn [map Json.join_comma Json.scan_elements].
    rewrite scan_value_string by (simpl in Hf; lia). reflexivity.
  - destruct f as [|f]; [simpl in Hf; lia|].
    cbn [map]. cbn [map] in IH. rewrite join_comma_cons.
    rewrite append_assoc. cbn [Json.scan_elements].
    rewrite scan_value_string by (simpl in Hf; lia).
    cbn [append Json.skip_space].
    change (Json.isSpace ",") with false. cbv iota.
    change (code ",") with 44. cbn [Z.eqb Pos.eqb].
    rewrite IH by (simpl in Hf |- *; lia). reflexivity.
Qed.

Lemma scan_value_strings (s : slice string) (rest : string) (f : nat) (d : Z) :
  (2 * List.length (elements s) + 3 <= f)%nat ->
  d + 1 <= Json.maxNestingDepth ->
  Json.scan_value f d (Json.encode_strings s ++ rest) = Some (strings_value s, rest).
Proof.
  intros Hf Hd. destruct s as [[|x l]|]; cbn [Json.encode_strings strings_value elements] in *.
  - destruct f as [|f]; [lia|]. cbn [map Json.join_comma append].
    cbn [Json.scan_value Json.skip_space].
    change (Json.isSpace "[") with false. cbv iota.
    change (code "[") with 91. cbn [Z.eqb Pos.eqb].
    destruct (Z.ltb_spec Json.maxNestingDepth (d + 1)); [lia|].
    reflexivity.
  - destruct f as [|f]; [lia|].
    remember (Json.join_comma (map Json.quote (x :: l))) as J eqn:EJ.
    assert (Hq : exists t, J = String Json.dquote t).
    { subst J. cbn [map].
      destruct (map Json.quote l); [cbn [Json.join_comma] | rewrite join_comma_cons];
        unfold Json.quote; cbn [append]; eexists; reflexivity. }
    destruct Hq as (t & Et).
    cbn [append]. rewrite append_assoc. cbn [append].
    cbn [Json.scan_value Json.skip_space].
    change (Json.isSpace "[") with false. cbv iota.
    change (code "[") with 91. cbn [Z.eqb Pos.eqb].
    destruct (Z.ltb_spec Json.maxNestingDepth (d + 1)); [lia|].
    rewrite Et. cbn [append Json.skip_space].
    change (Json.isSpace Json.dquote) with false. cbv iota.
    change (code Json.dquote) with 34. cbn [Z.eqb Pos.eqb].
    change (String Json.dquote (t ++ String "]" rest))%string
      with (String Json.dquote t ++ String "]" rest)%string.
    rewrite <- Et, EJ.
    rewrite scan_elements_strings by (cbn [List.length] in Hf; lia). reflexivity.
  - apply scan_value_null. lia.
Qed.

End JsonFacts.

Module JsonObjectFacts.

Import StringFacts UTF8Facts JsonStringFacts StrconvFacts Spec JsonFacts.

Lemma key_append (k rest : string) :
  (Json.key k ++ rest)%string
  = String Json.dquote (Json.escape k ++ String Json.dquote (String ":" rest)).
Proof.
  unfold Json.key. rewrite append_assoc, quote_append. reflexivity.
Qed.

(** A member that is followed by another one. *)
Lemma scan_members_cons (k V more r : string) (v : Json.value)
  (ms : list (string * Json.value)) (f : nat) (d : Z) :
  Json.scan_value f d (V ++ String "," more) = Some (v, String "," more) ->
  Json.scan_members f d more = Some (ms, r) ->
  Json.scan_members (S f) d (Json.key k ++ V ++ String "," more)
  = Some ((UTF8.coerce k, v) :: ms, r).
Proof.
  intros Hv Hm. rewrite key_append.
  cbn [Json.scan_members Json.skip_space].
  change (Json.isSpace Json.dquote) with false. cbv iota.
  change (code Json.dquote) with 34. cbn [Z.eqb Pos.eqb].
  rewrite scan_string_escape by (rewrite length_append; simpl; lia).
  cbn [Json.skip_space]. change (Json.isSpace ":") with false. cbv iota.
  change (code ":") with 58. cbn [Z.eqb Pos.eqb].
  rewrite Hv. cbn [Json.skip_space]. change (Json.isSpace ",") with false. cbv iota.
  change (code ",") with 44. cbn [Z.eqb Pos.eqb].
  now rewrite Hm.
Qed.

(** The last member of an object. *)
Lemma scan_members_last (k V r : string) (v : Json.value) (f : nat) (d : Z) :
  Json.scan_value f d (V ++ String "}" r) = Some (v, String "}" r) ->
  Json.scan_members (S f) d (Json.key k ++ V ++ String "}" r)
  = Some ([(UTF8.coerce k, v)], r).
Proof.
  intros Hv. rewrite key_append.
  cbn [Json.scan_members Json.skip_space].
  change (Json.isSpace Json.dquote) with false. cbv iota.
  change (code Json.dquote) with 34. cbn [Z.eqb Pos.eqb].
  rewrite scan_string_escape by (rewrite length_append; simpl; lia).
  cbn [Json.skip_space]. change (Json.isSpace ":") with false. cbv iota.
  change (code ":") with 58. cbn [Z.eqb Pos.eqb].
  rewrite Hv. reflexivity.
Qed.

(** An object with at least one member. *)
Lemma scan_value_object (k rest r : string) (ms : list (string * Json.value))
  (f : nat) (d : Z) :
  d + 1 <= Json.maxNestingDepth ->
  Json.scan_members f (d + 1) (Json.key k ++ rest) = Some (ms, r) ->
  Json.scan_value (S f) d (String "{" (Json.key k ++ rest)) = Some (Json.Object ms, r).
Proof.
  intros Hd Hm. cbn [Json.scan_value Json.skip_space].
  change (Json.isSpace "{") with false. cbv iota.
  change (code "{") with 123. cbn [Z.eqb Pos.eqb].
  destruct (Z.ltb_spec Json.maxNestingDepth (d + 1)); [lia|].
  rewrite Hm. rewrite key_append.
  cbn [Json.skip_space]. change (Json.isSpace Json.dquote) with false. cbv iota.
  change (code Json.dquote) with 34. reflexivity.
Qed.

Lemma length_join_quote (l : list string) :
  (List.length l <= String.length (Json.join_comma (map Json.quote l)))%nat.
Proof.
  induction l as [|x [|y l] IH]; [simpl; lia | simpl; lia |].
  cbn [map] in *. rewrite join_comma_cons, length_append.
  cbn [String.length List.length] in *. lia.
Qed.

Lemma length_encode_strings (s : slice string) :
  (List.length (elements s) <= String.length (Json.encode_strings s))%nat.
Proof.
  destruct s as [l|]; [|simpl; lia].
  cbn [Json.encode_strings elements String.length].
  rewrite length_append. pose proof (length_join_quote l). lia.
Qed.

(** The text of a [Claims], one append after the other. *)
Lemma encode_Claims_eq (c : Claims) :
  Json.encode_Claims c
  = String "{"
      (Json.key "aud" ++ Json.encode_strings (Aud c) ++ String ","
      (Json.key "exp" ++ Strconv.FormatInt (Exp c) ++ String ","
      (Json.key "iat" ++ Strconv.FormatInt (Iat c) ++ String ","
      (Json.key "iss" ++ Json.quote (Iss c) ++ String ","
      match Nbf c with
      | Some n =>
          (Json.key "nbf" ++ Strconv.FormatInt n ++ String ","
          (Json.key "sub" ++ Json.quote (Sub c) ++ String "}" EmptyString))
      | None => (Json.key "sub" ++ Json.quote (Sub c) ++ String "}" EmptyString)
      end))))%string.
Proof.
  unfold Json.encode_Claims. destruct (Nbf c); cbn [append];
    rewrite ?append_assoc; cbn [append]; reflexivity.
Qed.

Lemma scan_encode_Claims (c : Claims) :
  Json.scan (Json.encode_Claims c) = Some (Json.Object (members_of c)).
Proof.
  unfold Json.scan.
  assert (HF : exists F, S (2 * String.length (Json.encode_Claims c)) = (8 + F)%nat
                         /\ (2 * List.length (elements (Aud c)) + 3 <= F)%nat).
  { exists (S (2 * String.length (Json.encode_Claims c)) - 8)%nat.
    rewrite encode_Claims_eq. cbn [String.length]. rewrite !length_append.
    pose proof (length_encode_strings (Aud c)).
    change (String.length (Json.key "aud")) with 6%nat. lia. }
  destruct HF as (F & -> & HF). cbn [Nat.add].
  rewrite encode_Claims_eq.
  assert (Hd : 0 + 1 <= Json.maxNestingDepth) by (unfold Json.maxNestingDepth; lia).
  assert (Hd' : 0 + 1 + 1 <= Json.maxNestingDepth) by (unfold Json.maxNestingDepth; lia).
  match goal with
  | |- context [Json.scan_value (S ?f) _ (String "{" ?M)] =>
      assert (Hm : Json.scan_members f (0 + 1) M = Some (members_of c, EmptyString))
  end.
  { unfold members_of.
    apply (scan_members_cons "aud"); [apply scan_value_strings; [lia | exact Hd']|].
    apply (scan_members_cons "exp"); [apply scan_value_number; [lia | reflexivity]|].
    apply (scan_members_cons "iat"); [apply scan_value_number; [lia | reflexivity]|].
    apply (scan_members_cons "iss"); [apply scan_value_string; lia|].
    destruct (Nbf c) as [n|]; cbn [app].
    - apply (scan_members_cons "nbf"); [apply scan_value_number; [lia | reflexivity]|].
      apply (scan_members_last "sub"). apply scan_value_string; lia.
    - apply (scan_members_last "sub"). apply scan_value_string; lia. }
  rewrite (scan_value_object _ _ _ _ _ _ Hd Hm). reflexivity.
Qed.

Lemma store_strings_value (s old : slice string) :
  Json.store_strings (strings_value s) old = (coerce_strings s, false).
Proof.
  destruct s as [l|]; [|reflexivity].
  cbn [strings_value Json.store_strings coerce_strings option_map].
  rewrite !map_map. cbn [Json.store_string fst snd].
  assert (E : existsb snd (map (fun x : string => (UTF8.coerce x, false)) l) = false)
    by (induction l as [|x l IH]; [reflexivity | exact IH]).
  rewrite E. reflexivity.
Qed.

Lemma store_int64_FormatInt (z old : Z) :
  is_int64 z = true ->
  Json.store_int64 (Json.Number (Strconv.FormatInt z)) old = (z, false).
Proof. intros H. unfold Json.store_int64. now rewrite ParseInt_FormatInt. Qed.

Lemma store_member_aud (c : Claims) (err : option Json.error) (v : Json.value) :
  Json.store_Claims_member (c, err) ("aud"%string, v)
  = (mkClaims (fst (Json.store_strings v (Aud c))) (Exp c) (Iat c) (Iss c) (Nbf c) (Sub c),
     Json.save err (snd (Json.store_strings v (Aud c)))).
Proof.
  unfold Json.store_Claims_member.
  change (Json.field_of _ "aud") with (Some "aud"%string). cbv iota.
  change (String.eqb "aud" "aud") with true. cbv iota.
  now destruct (Json.store_strings v (Aud c)).
Qed.

Lemma store_member_exp (c : Claims) (err : option Json.error) (v : Json.value) :
  Json.store_Claims_member (c, err) ("exp"%string, v)
  = (mkClaims (Aud c) (fst (Json.store_int64 v (Exp c))) (Iat c) (Iss c) (Nbf c) (Sub c),
     Json.save err (snd (Json.store_int64 v (Exp c)))).
Proof.
  unfold Json.store_Claims_member.
  change (Json.field_of _ "exp") with (Some "exp"%string). cbv iota.
  change (String.eqb "exp" "aud") with false. change (String.eqb "exp" "exp") with true.
  cbv iota. now destruct (Json.store_int64 v (Exp c)).
Qed.

Lemma store_member_iat (c : Claims) (err : option Json.error) (v : Json.value) :
  Json.store_Claims_member (c, err) ("iat"%string, v)
  = (mkClaims (Aud c) (Exp c) (fst (Json.store_int64 v (Iat c))) (Iss c) (Nbf c) (Sub c),
     Json.save err (snd (Json.store_int64 v (Iat c)))).
Proof.
  unfold Json.store_Claims_member.
  change (Json.field_of _ "iat") with (Some "iat"%string). cbv iota.
  change (String.eqb "iat" "aud") with false. change (String.eqb "iat" "exp") with false.
  change (String.eqb "iat" "iat") with true.
  cbv iota. now destruct (Json.store_int64 v (Iat c)).
Qed.

Lemma store_member_iss (c : Claims) (err : option Json.error) (v : Json.value) :
  Json.store_Claims_member (c, err) ("iss"%string, v)
  = (mkClaims (Aud c) (Exp c) (Iat c) (fst (Json.store_string v (Iss c))) (Nbf c) (Sub c),
     Json.save err (snd (Json.store_string v (Iss c)))).
Proof.
  unfold Json.store_Claims_member.
  change (Json.field_of _ "iss") with (Some "iss"%string). cbv iota.
  change (String.eqb "iss" "aud") with false. change (String.eqb "iss" "exp") with false.
  change (String.eqb "iss" "iat") with false. change (String.eqb "iss" "iss") with true.
  cbv iota. now destruct (Json.store_string v (Iss c)).
Qed.

Lemma store_member_nbf (c : Claims) (err : option Json.error) (v : Json.value) :
  Json.store_Claims_member (c, err) ("nbf"%string, v)
  = (mkClaims (Aud c) (Exp c) (Iat c) (Iss c) (fst (Json.store_int64_ptr v (Nbf c))) (Sub c),
     Json.save err (snd (Json.store_int64_ptr v (Nbf c)))).
Proof.
  unfold Json.store_Claims_member.
  change (Json.field_of _ "nbf") with (Some "nbf"%string). cbv iota.
  change (String.eqb "nbf" "aud") with false. change (String.eqb "nbf" "exp") with false.
  change (String.eqb "nbf" "iat") with false. change (String.eqb "nbf" "iss") with false.
  change (String.eqb "nbf" "nbf") with true.
  cbv iota. now destruct (Json.store_int64_ptr v (Nbf c)).
Qed.

Lemma store_member_sub (c : Claims) (err : option Json.error) (v : Json.value) :
  Json.store_Claims_member (c, err) ("sub"%string, v)
  = (mkClaims (Aud c) (Exp c) (Iat c) (Iss c) (Nbf c) (fst (Json.store_string v (Sub c))),
     Json.save err (snd (Json.store_string v (Sub c)))).
Proof.
  unfold Json.store_Claims_member.
  change (Json.field_of _ "sub") with (Some "sub"%string). cbv iota.
  change (String.eqb "sub" "aud") with false. change (String.eqb "sub" "exp") with false.
  change (String.eqb "sub" "iat") with false. change (String.eqb "sub" "iss") with false.
  change (String.eqb "sub" "nbf") with false.
  cbv iota. now destruct (Json.store_string v (Sub c)).
Qed.

Lemma store_int64_ptr_FormatInt (z : Z) (old : option Z) :
  is_int64 z = true ->
  Json.store_int64_ptr (Json.Number (Strconv.FormatInt z)) old = (Some z, false).
Proof.
  intros H. unfold Json.store_int64_ptr. now rewrite store_int64_FormatInt.
Qed.

(** Storing the members of the text of a [Claims] into a zero
    [Claims] gives the [Claims] back, its strings coerced. *)
Lemma store_members_of (c : Claims) :
  int64_Claims c = true ->
  fold_left Json.store_Claims_member (members_of c) (Json.zero_Claims, None)
  = (coerce_Claims c, None).
Proof.
  unfold int64_Claims. intros H.
  apply andb_true_iff in H as [H Hn]. apply andb_true_iff in H as [He Hi].
  destruct c as [aud exp iat iss nbf sub]. cbn [Aud Exp Iat Iss Nbf Sub] in *.
  unfold members_of, coerce_Claims. cbn [Aud Exp Iat Iss Nbf Sub].
  destruct nbf as [n|]; cbn [app fold_left].
  - rewrite store_member_aud, store_strings_value. cbn [fst snd Aud Exp Iat Iss Nbf Sub].
    rewrite store_member_exp, store_int64_FormatInt by assumption.
    cbn [fst snd Aud Exp Iat Iss Nbf Sub].
    rewrite store_member_iat, store_int64_FormatInt by assumption.
    cbn [fst snd Aud Exp Iat Iss Nbf Sub].
    rewrite store_member_iss. cbn [fst snd Aud Exp Iat Iss Nbf Sub Json.store_string].
    rewrite store_member_nbf, store_int64_ptr_FormatInt by assumption.
    cbn [fst snd Aud Exp Iat Iss Nbf Sub].
    rewrite store_member_sub. reflexivity.
  - rewrite store_member_aud, store_strings_value. cbn [fst snd Aud Exp Iat Iss Nbf Sub].
    rewrite store_member_exp, store_int64_FormatInt by assumption.
    cbn [fst snd Aud Exp Iat Iss Nbf Sub].
    rewrite store_member_iat, store_int64_FormatInt by assumption.
    cbn [fst snd Aud Exp Iat Iss Nbf Sub].
    rewrite store_member_iss. cbn [fst snd Aud Exp Iat Iss Nbf Sub Json.store_string].
    rewrite store_member_sub. reflexivity.
Qed.

(** [Unmarshal] reads back what [Marshal] wrote for a [Claims]. *)
Lemma Unmarshal_Marshal_Claims (c : Claims) :
  int64_Claims c = true ->
  Json.Unmarshal_Claims (fst (Json.Marshal (AnyClaims c))) = (coerce_Claims c, None).
Proof.
  intros H. unfold Json.Unmarshal_Claims, Json.Marshal. cbn [fst Json.encode].
  rewrite string_of_list_byte_of_string, scan_encode_Claims.
  now apply store_members_of.
Qed.

End JsonObjectFacts.

Module CoerceFacts.

Import StringFacts UTF8Facts Spec.

Lemma coerce_fuel_valid (g : nat) :
  forall s : string,
    (String.length s <= g)%nat -> UTF8.valid_fuel g s = true -> UTF8.coerce_fuel g s = s.
Proof.
  induction g as [|g IH]; intros s Hg Hv.
  - destruct s; [reflexivity | simpl in Hg; lia].
  - destruct s as [|c s]; [reflexivity|].
    cbn [UTF8.coerce_fuel UTF8.valid_fuel] in *. unfold UTF8.RuneSelf in *.
    destruct (Z.ltb_spec (code c) 128) as [A|A].
    + rewrite IH; [reflexivity | simpl in Hg; lia | assumption].
    + apply andb_true_iff in Hv as [Hi Hv]. apply negb_true_iff in Hi. rewrite Hi.
      destruct (DecodeRune_valid c s A Hi) as (r & bs & tl & Es & Hbs & Enc & Dec).
      assert (Hl : (String.length tl <= g)%nat).
      { apply (f_equal String.length) in Es. rewrite length_append in Es.
        simpl in Es, Hg. lia. }
      rewrite Es in Hv |- *. rewrite Dec in Hv |- *. cbn [snd] in Hv |- *.
      rewrite drop_append in Hv. rewrite take_append, drop_append.
      rewrite IH; [reflexivity | assumption | assumption].
Qed.

(** A string that is valid UTF-8 comes back from JSON as it is. *)
Lemma coerce_valid (s : string) : UTF8.ValidString s = true -> UTF8.coerce s = s.
Proof. intros H. now apply coerce_fuel_valid. Qed.

(** The aud list of a token is the aud list of the parameters when
    its labels are valid UTF-8. *)
Lemma token_aud_valid (aud : slice string) :
  Forall (fun label => UTF8.ValidString label = true) (elements aud) ->
  token_aud aud = elements aud.
Proof.
  unfold token_aud, coerce_strings. destruct aud as [l|]; [|reflexivity].
  cbn [elements option_map]. intros H.
  induction H as [|x l Hx _ IH]; [reflexivity|].
  cbn [map]. now rewrite (coerce_valid x Hx), IH.
Qed.

End CoerceFacts.

(* ================================================================== *)
(** * The two packages *)
(* ================================================================== *)

Module JwtsFacts.

Import StringFacts SplitFacts Base64Facts Spec.

Lemma DefaultHeaderBase64_eq : Jwts.DefaultHeaderBase64 = Some header64.
Proof. vm_compute. reflexivity. Qed.

Lemma encoded_no_dot (v : any) : Strings.contains (encoded v) "." = false.
Proof. apply EncodeToString_no_dot. Qed.

Lemma header64_no_dot : Strings.contains header64 "." = false.
Proof. reflexivity. Qed.

Lemma createClaims_eq (p : Jwts.CreateTokenParams) (now : Z) :
  Jwts.createClaims (Some p) None now = (Some (encoded (AnyClaims (jwts_claims p now))), None).
Proof. reflexivity. Qed.

Lemma createSignature_eq (h c : string) (key : list byte) :
  Jwts.createSignature (Some h) (Some c) (Some key) None
  = (Some (jwts_signature key h c), None).
Proof. reflexivity. Qed.

Lemma CreateToken_eq (p : Jwts.CreateTokenParams) (key : list byte) (now : Z) :
  Jwts.CreateToken (Some p) (Some key) None now = Returns (Some (jwts_token p key now), None).
Proof.
  unfold Jwts.CreateToken. rewrite createClaims_eq, DefaultHeaderBase64_eq.
  rewrite createSignature_eq. reflexivity.
Qed.

Lemma Split_jwts_token (p : Jwts.CreateTokenParams) (key : list byte) (now : Z) :
  Strings.Split (jwts_token p key now) "."
  = [header64; encoded (AnyClaims (jwts_claims p now));
     jwts_signature key header64 (encoded (AnyClaims (jwts_claims p now)))].
Proof.
  unfold jwts_token. apply Split_three.
  - apply header64_no_dot.
  - apply encoded_no_dot.
  - apply EncodeToString_no_dot.
Qed.

Lemma parseTokenChunks_three (t h c s : string) :
  Strings.Split t "." = [h; c; s] ->
  Jwts.parseTokenChunks (Some t) None = (Some (Jwts.mkTokenChunks h c s), None).
Proof. intros H. unfold Jwts.parseTokenChunks. now rewrite H. Qed.

Lemma parseTokenChunks_malformed (t : string) :
  List.length (Strings.Split t ".") <> 3%nat ->
  Jwts.parseTokenChunks (Some t) None = (None, Some Jwts.errInvalidToken).
Proof.
  intros H. unfold Jwts.parseTokenChunks.
  destruct (Strings.Split t ".") as [|a [|b [|c [|d l]]]]; try reflexivity.
  now elim H.
Qed.

Lemma validateSignature_eq (h c s : string) (key : list byte) :
  Jwts.validateSignature (Some (Jwts.mkTokenChunks h c s)) (Some key) None
  = Returns (String.eqb s (jwts_signature key h c), None).
Proof.
  unfold Jwts.validateSignature. cbn [field_addr bind Jwts.Chunks_Header Jwts.Chunks_Claims].
  rewrite createSignature_eq. cbn [deref bind Jwts.Chunks_Signature].
  destruct (String.eqb s (jwts_signature key h c)); reflexivity.
Qed.

End JwtsFacts.

Module JwtxFacts.

Import StringFacts SplitFacts Base64Facts Spec.

Lemma headerBase64_eq : Jwtx.headerBase64 = Some header64.
Proof. vm_compute. reflexivity. Qed.

Lemma createJWTClaims_eq (p : Jwtx.CreateJWTParams) (now : Z) :
  Jwtx.createJWTClaims (Some p) None now
  = (Some (encoded (AnyClaims (jwtx_claims p now))), None).
Proof. reflexivity. Qed.

Lemma generateRandomByteArray_eq (n : nat) (source : Jwtx.Rand) :
  Jwtx.generateRandomByteArray n None source = (Some (map source (seq 0 n)), None).
Proof.
  unfold Jwtx.generateRandomByteArray, Jwtx.rand_Read.
  now rewrite Nat.eqb_refl.
Qed.

Lemma generateSignature_eq (h c : string) (key : list byte) :
  Jwtx.generateSignature (Some h) (Some c) (Some key) None
  = (Some (jwtx_signature key h c), None).
Proof. reflexivity. Qed.

Lemma CreateJWT_eq (p : Jwtx.CreateJWTParams) (source : Jwtx.Rand) (now : Z) :
  Jwtx.CreateJWT (Some p) None source now
  = Returns (Some (Jwtx.mkTokenPayload (Some (jwtx_token p (generated source) now))
                     (Some (generated source))
                     (Some (jwtx_signature (generated source) header64
                              (encoded (AnyClaims (jwtx_claims p now)))))), None).
Proof.
  unfold Jwtx.CreateJWT. rewrite createJWTClaims_eq, generateRandomByteArray_eq.
  rewrite headerBase64_eq, generateSignature_eq. reflexivity.
Qed.

Lemma CreateJWTFromSecret_CreateJWT (p : option Jwtx.CreateJWTParams) (secret : list byte)
  (err : option Jwtx.error) (source : Jwtx.Rand) (now : Z) :
  Jwtx.CreateJWTFromSecret p (Some secret) err source now = Jwtx.CreateJWT p err source now.
Proof. reflexivity. Qed.

Lemma Split_jwtx_token (p : Jwtx.CreateJWTParams) (key : list byte) (now : Z) :
  Strings.Split (jwtx_token p key now) "."
  = [header64; encoded (AnyClaims (jwtx_claims p now));
     jwtx_signature key header64 (encoded (AnyClaims (jwtx_claims p now)))].
Proof.
  unfold jwtx_token. apply Split_three.
  - reflexivity.
  - apply EncodeToString_no_dot.
  - apply EncodeToString_no_dot.
Qed.

Lemma retrieveTokenChunks_three (t h c s : string) :
  Strings.Split t "." = [h; c; s] ->
  Jwtx.retrieveTokenChunks (Some t) None = (Some (Jwtx.mkTokenChunks h c s), None).
Proof. intros H. unfold Jwtx.retrieveTokenChunks. now rewrite H. Qed.

Lemma ValidateJWT_eq (t h c s : string) (key : list byte) (sig : option string) :
  Strings.Split t "." = [h; c; s] ->
  Jwtx.ValidateJWT (Some (Jwtx.mkTokenPayload (Some t) (Some key) sig)) None
  = Returns (String.eqb (jwtx_signature key h c) s, None).
Proof.
  intros H. unfold Jwtx.ValidateJWT. cbn [Jwtx.Payload_Token Jwtx.Payload_Secret].
  rewrite (retrieveTokenChunks_three _ _ _ _ H).
  cbn [field_addr bind Jwtx.Chunks_Header Jwtx.Chunks_Claims].
  rewrite generateSignature_eq. reflexivity.
Qed.

End JwtxFacts.

Module TimeFacts.

Import Spec.

Lemma wrap64_small (z : Z) : min_int64 <= z <= max_int64 -> wrap64 z = z.
Proof.
  unfold min_int64, max_int64, wrap64. intros H.
  rewrite Z.mod_small by lia. lia.
Qed.

Lemma is_int64_wrap64 (z : Z) : is_int64 (wrap64 z) = true.
Proof.
  unfold is_int64, wrap64, min_int64, max_int64.
  pose proof (Z.mod_pos_bound (z + 2 ^ 63) (2 ^ 64) ltac:(lia)).
  apply andb_true_iff. split; apply Z.leb_le; lia.
Qed.

Lemma is_int64_plain (z : Z) : plain_time z -> is_int64 z = true.
Proof.
  unfold plain_time, is_int64, min_int64, max_int64.
  intros H. apply andb_true_iff. split; apply Z.leb_le; lia.
Qed.

Lemma sub64_plain (a b : Z) : plain_time a -> plain_time b -> sub64 a b = a - b.
Proof.
  unfold plain_time, max_int64, sub64. intros Ha Hb.
  apply wrap64_small. unfold min_int64, max_int64. lia.
Qed.

Lemma add64_plain (a b : Z) : plain_time (a + b) -> add64 a b = a + b.
Proof.
  unfold plain_time, max_int64, add64. intros H.
  apply wrap64_small. unfold min_int64, max_int64. lia.
Qed.

Lemma int64_claims_of (aud : slice string) (iss sub : string) (lifetime : Z)
  (delay : option Z) (now : Z) :
  is_int64 now = true ->
  int64_Claims (Spec.claims_of aud iss sub lifetime delay now) = true.
Proof.
  intros H. unfold int64_Claims, Spec.claims_of. cbn [Exp Iat Nbf].
  unfold add64. rewrite is_int64_wrap64, H. destruct delay; [apply is_int64_wrap64 | reflexivity].
Qed.

Lemma has_label_In (labels : list string) (target : string) :
  has_label labels target = true <-> In target labels.
Proof.
  unfold has_label. rewrite existsb_exists. split.
  - intros (x & Hx & E). apply String.eqb_eq in E. now subst.
  - intros H. exists target. split; [assumption | apply String.eqb_refl].
Qed.

End TimeFacts.

Module VerifyFacts.

Import StringFacts SplitFacts Base64Facts Spec JwtsFacts JwtxFacts TimeFacts
  JsonObjectFacts.

Lemma jwts_decode_header :
  Jwts.unmarshalHeader (fst (Jwts.decodeFromBase64 (Some header64) None))
    (snd (Jwts.decodeFromBase64 (Some header64) None))
  = (Some Jwts.DefaultHeader, None).
Proof. vm_compute. reflexivity. Qed.

Lemma jwts_decode_claims (c : Claims) :
  int64_Claims c = true ->
  Jwts.unmarshalClaims (fst (Jwts.decodeFromBase64 (Some (encoded (AnyClaims c))) None))
    (snd (Jwts.decodeFromBase64 (Some (encoded (AnyClaims c))) None))
  = (Some (coerce_Claims c), None).
Proof.
  intros H. unfold Jwts.decodeFromBase64, encoded.
  rewrite DecodeString_EncodeToString. cbn [fst snd option_map].
  unfold Jwts.unmarshalClaims. rewrite list_byte_of_string_of_list_byte.
  pose proof (Unmarshal_Marshal_Claims c H) as E. cbn [fst Json.Marshal] in E.
  now rewrite E.
Qed.

(** The details of a token that holds the default header and the
    encoding of a [Claims]. *)
Lemma parseTokenDetails_encoded (c : Claims) (signature : string) :
  int64_Claims c = true ->
  Jwts.parseTokenDetails
    (Some (Jwts.mkTokenChunks header64 (encoded (AnyClaims c)) signature)) None
  = Returns (Some (Jwts.mkTokenDetails Jwts.DefaultHeader (coerce_Claims c)), None).
Proof.
  intros H. unfold Jwts.parseTokenDetails.
  cbn [Jwts.Chunks_Header Jwts.Chunks_Claims].
  pose proof jwts_decode_header as Eh.
  destruct (Jwts.decodeFromBase64 (Some header64) None) as [h eh].
  cbn [fst snd] in Eh. rewrite Eh.
  pose proof (jwts_decode_claims c H) as Ec.
  destruct (Jwts.decodeFromBase64 (Some (encoded (AnyClaims c))) None) as [cl ecl].
  cbn [fst snd] in Ec. rewrite Ec. reflexivity.
Qed.

(** What [VerifyToken] does with a token that [CreateToken] made. *)
Lemma VerifyToken_created (p : Jwts.CreateTokenParams) (secret : list byte)
  (now0 now : Z) (target : string) :
  is_int64 now0 = true ->
  Jwts.VerifyToken (Some (jwts_token p secret now0)) (Some target) None now
  = if has_label (token_aud (Jwts.Params_Aud p)) target
    then Jwts.validateTokenTimes
           (Some (Jwts.mkTokenDetails Jwts.DefaultHeader
                    (coerce_Claims (jwts_claims p now0)))) None now
    else Returns (false, None).
Proof.
  intros H. unfold Jwts.VerifyToken.
  rewrite (parseTokenChunks_three _ _ _ _ (Split_jwts_token p secret now0)).
  rewrite parseTokenDetails_encoded by (apply int64_claims_of; assumption).
  cbn [bind field_addr Jwts.Details_Claims coerce_Claims Aud jwts_claims claims_of
         Jwts.findAudChunk deref].
  unfold token_aud, has_label.
  destruct (existsb _ _); reflexivity.
Qed.

(** The time window of [validateTokenTimes] when nothing wraps. *)
Lemma validateTokenTimes_plain (h : Header) (c : Claims) (now : Z) :
  plain_time (Iat c) -> plain_time (Exp c) ->
  (forall n, Nbf c = Some n -> plain_time n) -> plain_time now ->
  Jwts.validateTokenTimes (Some (Jwts.mkTokenDetails h c)) None now
  = Returns ((Iat c <=? now)
             && match Nbf c with Some n => n <? now | None => true end
             && (now <? Exp c), None).
Proof.
  intros Hi He Hn Hnow. unfold Jwts.validateTokenTimes.
  cbn [deref bind Jwts.Details_Claims].
  rewrite (sub64_plain _ _ Hi Hnow), (sub64_plain _ _ He Hnow).
  destruct (Nbf c) as [n|].
  - rewrite (sub64_plain _ _ (Hn n eq_refl) Hnow).
    destruct (Z.gtb_spec (Iat c - now) 0), (Z.leb_spec (Iat c) now); try lia;
      [reflexivity|].
    destruct (Z.geb_spec (n - now) 0), (Z.ltb_spec n now); try lia;
      [reflexivity|].
    destruct (Z.gtb_spec (Exp c - now) 0), (Z.ltb_spec now (Exp c)); try lia;
      reflexivity.
  - destruct (Z.gtb_spec (Iat c - now) 0), (Z.leb_spec (Iat c) now); try lia;
      [reflexivity|].
    destruct (Z.gtb_spec (Exp c - now) 0), (Z.ltb_spec now (Exp c)); try lia;
      reflexivity.
Qed.

End VerifyFacts.

Module WindowFacts.

Import StringFacts SplitFacts Base64Facts Spec JwtsFacts JwtxFacts TimeFacts
  JsonObjectFacts VerifyFacts.

Lemma jwtx_decode_header :
  Jwtx.unmarshalHeader (fst (Jwtx.decodeFromBase64 (Some header64) None))
    (snd (Jwtx.decodeFromBase64 (Some header64) None))
  = (Some Jwtx.headerDefaultParams, None).
Proof. vm_compute. reflexivity. Qed.

Lemma jwtx_decode_claims (c : Claims) :
  int64_Claims c = true ->
  Jwtx.unmarshalClaims (fst (Jwtx.decodeFromBase64 (Some (encoded (AnyClaims c))) None))
    (snd (Jwtx.decodeFromBase64 (Some (encoded (AnyClaims c))) None))
  = (Some (coerce_Claims c), None).
Proof.
  intros H. unfold Jwtx.decodeFromBase64, encoded.
  rewrite DecodeString_EncodeToString. cbn [fst snd option_map].
  unfold Jwtx.unmarshalClaims. rewrite list_byte_of_string_of_list_byte.
  pose proof (Unmarshal_Marshal_Claims c H) as E. cbn [fst Json.Marshal] in E.
  now rewrite E.
Qed.

Lemma RetrieveTokenDetails_created (p : Jwtx.CreateJWTParams) (key : list byte) (now0 : Z) :
  is_int64 now0 = true ->
  Jwtx.RetrieveTokenDetails (Some (jwtx_token p key now0)) None
  = Returns (Some (Jwtx.mkTokenDetails (Some Jwtx.headerDefaultParams)
                     (Some (coerce_Claims (jwtx_claims p now0)))), None).
Proof.
  intros H. unfold Jwtx.RetrieveTokenDetails.
  rewrite (retrieveTokenChunks_three _ _ _ _ (Split_jwtx_token p key now0)).
  cbn [bind field_addr Jwtx.Chunks_Header Jwtx.Chunks_Claims].
  pose proof jwtx_decode_header as Eh.
  destruct (Jwtx.decodeFromBase64 (Some header64) None) as [h eh].
  cbn [fst snd] in Eh. rewrite Eh.
  pose proof (jwtx_decode_claims (jwtx_claims p now0)
                (int64_claims_of _ _ _ _ _ _ H)) as Ec.
  destruct (Jwtx.decodeFromBase64 _ None) as [cl ecl].
  cbn [fst snd] in Ec. rewrite Ec. reflexivity.
Qed.

(** A token created at [now0] and looked at at [now], when none of
    the times involved wraps around. *)
Section Created.

Variables (aud : slice string) (iss sub : string) (lifetime : Z) (delay : option Z).
Variables (now0 now : Z).

Hypothesis plain_iat : plain_time now0.
Hypothesis plain_exp : plain_time (now0 + lifetime).
Hypothesis plain_nbf : plain_time (not_before now0 delay).
Hypothesis plain_now : plain_time now.

(** The claims of the token. *)
Lemma claims_of_plain :
  claims_of aud iss sub lifetime delay now0
  = mkClaims aud (now0 + lifetime) now0 iss (Some (not_before now0 delay)) sub.
Proof.
  unfold claims_of. rewrite (add64_plain _ _ plain_exp).
  destruct delay as [d|]; cbn [not_before] in *;
    [rewrite (add64_plain _ _ plain_nbf)|]; reflexivity.
Qed.

(** [VerifyToken]: the audience, then the three comparisons, and
    never an error. *)
Lemma VerifyToken_created_plain (secret : list byte) (target : string) :
  Jwts.VerifyToken
    (Some (jwts_token (Jwts.mkCreateTokenParams aud iss sub lifetime delay) secret now0))
    (Some target) None now
  = Returns (has_label (token_aud aud) target
             && ((now0 <=? now) && (not_before now0 delay <? now)
                 && (now <? now0 + lifetime)), None).
Proof.
  rewrite VerifyToken_created by (apply is_int64_plain; assumption).
  cbn [Jwts.Params_Aud]. destruct (has_label (token_aud aud) target); [|reflexivity].
  unfold jwts_claims. cbn [Jwts.Params_Aud Jwts.Params_Iss Jwts.Params_Sub
                             Jwts.Params_Lifetime Jwts.Params_Delay].
  rewrite claims_of_plain. unfold coerce_Claims. cbn [Aud Exp Iat Iss Nbf Sub].
  rewrite validateTokenTimes_plain; cbn [Aud Exp Iat Iss Nbf Sub]; try assumption.
  - reflexivity.
  - intros n E. injection E as <-. assumption.
Qed.

(** [ValidateTokenByWindowAndAud]: the four checks in their order,
    each with its error. *)
Lemma ValidateTokenByWindowAndAud_created_plain (key : list byte) (target : string) :
  Jwtx.ValidateTokenByWindowAndAud
    (Some (jwtx_token (Jwtx.mkCreateJWTParams aud iss sub lifetime delay) key now0))
    target None now
  = Returns
      (if negb (has_label (token_aud aud) target)
       then (false, Some Jwtx.errAudChunkNotFound)
       else if now <? now0 then (false, Some Jwtx.errTokenIssuedBeforeNow)
       else if now <=? not_before now0 delay
            then (false, Some Jwtx.errTokenUsedBeforeExpected)
       else if now <? now0 + lifetime then (true, None)
       else (false, Some Jwtx.errTokenIsExpired)).
Proof.
  unfold Jwtx.ValidateTokenByWindowAndAud.
  rewrite RetrieveTokenDetails_created by (apply is_int64_plain; assumption).
  unfold jwtx_claims. cbn [Jwtx.Params_Aud Jwtx.Params_Iss Jwtx.Params_Sub
                             Jwtx.Params_Lifetime Jwtx.Params_Delay].
  rewrite claims_of_plain. unfold coerce_Claims.
  cbn [bind field_addr deref Jwtx.Details_Claims Aud Exp Iat Iss Nbf Sub
         Jwtx.findAudChunk].
  unfold token_aud, has_label.
  destruct (existsb _ (elements (coerce_strings aud))); cbn [negb]; [|reflexivity].
  rewrite (sub64_plain _ _ plain_iat plain_now), (sub64_plain _ _ plain_exp plain_now),
    (sub64_plain _ _ plain_nbf plain_now).
  destruct (Z.gtb_spec (now0 - now) 0), (Z.ltb_spec now now0); try lia; [reflexivity|].
  destruct (Z.geb_spec (not_before now0 delay - now) 0),
    (Z.leb_spec now (not_before now0 delay)); try lia; [reflexivity|].
  destruct (Z.gtb_spec (now0 + lifetime - now) 0), (Z.ltb_spec now (now0 + lifetime));
    try lia; reflexivity.
Qed.

End Created.

End WindowFacts.


(* ================================================================== *)
(** * The library models against known answers *)
(* ================================================================== *)

Example Split_pieces_example : Strings.Split "a.bc.d" "." = ["a"; "bc"; "d"]%string.
Proof. reflexivity. Qed.

Example Split_empty_example : Strings.Split "" "." = [""]%string.
Proof. reflexivity. Qed.

(** The test vector of the repository's own test
    [TestEncodeJSONToBase64]. *)
Example encodeJSONToBase64_lazy_fox :
  Jwts.encodeJSONToBase64 (Some (AnyString "i can be such a lazy summer fox sometimes"))
  = (Some "ImkgY2FuIGJlIHN1Y2ggYSBsYXp5IHN1bW1lciBmb3ggc29tZXRpbWVzIg"%string, None).
Proof. vm_compute. reflexivity. Qed.

(** [headerTest64] of the repository's tests. *)
Example DefaultHeaderBase64_test :
  Jwts.DefaultHeaderBase64 = Some "eyJhbGciOiJIUzI1NiIsInR5cCI6IkpXVCJ9"%string.
Proof. vm_compute. reflexivity. Qed.

Example sha256_abc :
  SHA256.Sum256 (list_byte_of_string "abc")
  = Examples.unhex "ba7816bf8f01cfea414140de5dae2223b00361a396177a9cb410ff61f20015ad".
Proof. vm_compute. reflexivity. Qed.

Example sha256_empty :
  SHA256.Sum256 []
  = Examples.unhex "e3b0c44298fc1c149afbf4c8996fb92427ae41e4649b934ca495991b7852b855".
Proof. vm_compute. reflexivity. Qed.

Example sha256_two_blocks :
  SHA256.Sum256
    (list_byte_of_string "abcdbcdecdefdefgefghfghighijhijkijkljklmklmnlmnomnopnopq")
  = Examples.unhex "248d6a61d20638b8e5c026930c3e6039a33ce45964ff2167f6ecedd419db06c1".
Proof. vm_compute. reflexivity. Qed.

(** RFC 4231, test case 2. *)
Example hmac_rfc4231_case2 :
  HMAC.Sum (list_byte_of_string "Jefe") (list_byte_of_string "what do ya want for nothing?")
  = Examples.unhex "5bdcc146bf60754e6a042426089575c75a003f089d2739839dec58b964ec3843".
Proof. vm_compute. reflexivity. Qed.

(** RFC 4231, test case 6: a key longer than the block size. *)
Example hmac_rfc4231_case6 :
  HMAC.Sum (repeat (byte_chr 170) 131)
    (list_byte_of_string "Test Using Larger Than Block-Size Key - Hash Key First")
  = Examples.unhex "60e431591ee0b67f0d8a26aacbf5b77f8e0bc6213728c5140546040f0ee37f54".
Proof. vm_compute. reflexivity. Qed.

Example Unmarshal_Claims_example :
  Json.Unmarshal_Claims
    (fst (Json.Marshal
            (AnyClaims (mkClaims (Some ["svc"; "a<b"]%string) 1700003600 1700000000 "x"
                          (Some (-5)) "y"))))
  = (mkClaims (Some ["svc"; "a<b"]%string) 1700003600 1700000000 "x" (Some (-5)) "y", None).
Proof. vm_compute. reflexivity. Qed.

(** A token that [CreateJWTFromSecret] returns does not validate
    against the secret that was handed in. *)
Example CreateJWTFromSecret_argument_rejected :
  exists payload : Jwtx.TokenPayload,
    Jwtx.CreateJWTFromSecret
      (Some (Jwtx.mkCreateJWTParams (Some ["svc"%string]) "x" "y" 3600 None))
      (Some Examples.secret) None Examples.source 1700000000 = Returns (Some payload, None)
    /\ Jwtx.ValidateJWT (Some payload) None = Returns (true, None)
    /\ Jwtx.ValidateJWT
         (Some (Jwtx.mkTokenPayload (Jwtx.Payload_Token payload) (Some Examples.secret)
                  (Jwtx.Payload_Signature payload))) None
       = Returns (false, None).
Proof.
  eexists. split; [vm_compute; reflexivity|]. split; vm_compute; reflexivity.
Qed.


(* ================================================================== *)
(** * The claims *)
(* ================================================================== *)

Import StringFacts SplitFacts Base64Facts Spec JwtsFacts JwtxFacts TimeFacts
  JsonObjectFacts VerifyFacts WindowFacts.

Example CreateToken_example :
  Jwts.CreateToken (Some Examples.params) (Some Examples.secret) None 1700000000
  = Returns (Some Examples.token, None).
Proof. vm_compute. reflexivity. Qed.

(** Every created token decodes to the claims it was created with. *)
Lemma created_token_details (aud : slice string) (iss sub : string) (lifetime : Z)
  (delay : option Z) (secret : list byte) (iat : Z) :
  is_int64 iat = true ->
  exists (token header claims signature : string) (details : Jwts.TokenDetails),
    Jwts.CreateToken (Some (Jwts.mkCreateTokenParams aud iss sub lifetime delay))
      (Some secret) None iat = Returns (Some token, None)
    /\ Strings.Split token "." = [header; claims; signature]
    /\ Jwts.parseTokenDetails (Some (Jwts.mkTokenChunks header claims signature)) None
       = Returns (Some details, None)
    /\ Jwts.Details_Claims details
       = coerce_Claims (claims_of aud iss sub lifetime delay iat).
Proof.
  intros H.
  set (p := Jwts.mkCreateTokenParams aud iss sub lifetime delay).
  exists (jwts_token p secret iat), header64, (encoded (AnyClaims (jwts_claims p iat))),
    (jwts_signature secret header64 (encoded (AnyClaims (jwts_claims p iat)))),
    (Jwts.mkTokenDetails Jwts.DefaultHeader (coerce_Claims (jwts_claims p iat))).
  split; [apply CreateToken_eq|]. split; [apply Split_jwts_token|]. split.
  - apply parseTokenDetails_encoded, int64_claims_of, H.
  - reflexivity.
Qed.

(** C1. Round trip: for every [params] and every secret, the token
    that [CreateToken] returns is accepted by [ValidateToken] under
    the same secret. *)
Theorem C1_validate_created_token :
  forall (params : Jwts.CreateTokenParams) (secret : list byte) (now : Z),
  exists token : string,
    Jwts.CreateToken (Some params) (Some secret) None now = Returns (Some token, None)
    /\ Jwts.ValidateToken (Some token) (Some secret) None = Returns (true, None).
Proof.
  intros p key now. exists (jwts_token p key now). split.
  - apply CreateToken_eq.
  - unfold Jwts.ValidateToken.
    rewrite (parseTokenChunks_three _ _ _ _ (Split_jwts_token p key now)).
    rewrite validateSignature_eq, String.eqb_refl. reflexivity.
Qed.

(** C2. A token that does not split into three segments makes
    [parseTokenChunks] return [errInvalidToken], but neither
    [VerifyToken] nor [ValidateToken] returns it: both take the address
    of a field of the nil result before the error is looked at, and
    panic. *)
Theorem C2_malformed_token_panics :
  forall (token : string) (audTarget : option string) (secret : option (list byte)) (now : Z),
    List.length (Strings.Split token ".") <> 3%nat ->
    Jwts.parseTokenChunks (Some token) None = (None, Some Jwts.errInvalidToken)
    /\ Jwts.VerifyToken (Some token) audTarget None now = Panics
    /\ Jwts.ValidateToken (Some token) secret None = Panics.
Proof.
  intros t tgt key now H.
  pose proof (parseTokenChunks_malformed t H) as E.
  split; [exact E|]. split.
  - unfold Jwts.VerifyToken. rewrite E. reflexivity.
  - unfold Jwts.ValidateToken. rewrite E. reflexivity.
Qed.

Lemma C2_malformed_token_panics_witness :
  List.length (Strings.Split "a.b" ".") <> 3%nat
  /\ Jwts.parseTokenChunks (Some "a.b"%string) None = (None, Some Jwts.errInvalidToken)
  /\ Jwts.VerifyToken (Some "a.b"%string) (Some "x"%string) None 1700000000 = Panics
  /\ Jwts.ValidateToken (Some "a.b"%string) (Some Examples.secret) None = Panics.
Proof.
  split; [simpl; lia|].
  apply (C2_malformed_token_panics "a.b" (Some "x"%string) (Some Examples.secret) 1700000000).
  simpl; lia.
Defined.

(** C3 (as amended). A token created with a delay of 60 seconds and a
    positive lifetime is rejected at every time from [iat] up to and
    including [iat + 60]: [ValidateTokenByWindowAndAud] fails with
    [errTokenUsedBeforeExpected], [VerifyToken] returns false with a
    nil error.  It is accepted at every time after [iat + 60] and
    before [exp]: the not-before check rejects exactly when
    [nbf >= now]. *)
Theorem C3_not_before_window :
  forall (aud : slice string) (iss sub : string) (lifetime : Z) (secret : list byte)
         (source : Jwtx.Rand) (iat now : Z) (target : string),
    plain_time iat -> 0 < lifetime -> plain_time (iat + lifetime) ->
    plain_time (iat + 60) -> plain_time now -> iat <= now ->
    In target (token_aud aud) ->
    exists (token : string) (payload : Jwtx.TokenPayload),
      Jwts.CreateToken (Some (Jwts.mkCreateTokenParams aud iss sub lifetime (Some 60)))
        (Some secret) None iat = Returns (Some token, None)
      /\ Jwtx.CreateJWT (Some (Jwtx.mkCreateJWTParams aud iss sub lifetime (Some 60)))
           None source iat = Returns (Some payload, None)
      /\ (now <= iat + 60 ->
          Jwts.VerifyToken (Some token) (Some target) None now = Returns (false, None)
          /\ Jwtx.ValidateTokenByWindowAndAud (Jwtx.Payload_Token payload) target None now
             = Returns (false, Some Jwtx.errTokenUsedBeforeExpected))
      /\ (iat + 60 < now < iat + lifetime ->
          Jwts.VerifyToken (Some token) (Some target) None now = Returns (true, None)
          /\ Jwtx.ValidateTokenByWindowAndAud (Jwtx.Payload_Token payload) target None now
             = Returns (true, None)).
Proof.
  intros aud iss sub lifetime secret source iat now target Hi Hl He Hn Hnow Hle Hin.
  eexists _, _. split; [apply CreateToken_eq|]. split; [apply CreateJWT_eq|].
  cbn [Jwtx.Payload_Token].
  rewrite VerifyToken_created_plain by (assumption || plain).
  rewrite ValidateTokenByWindowAndAud_created_plain by (assumption || plain).
  apply has_label_In in Hin. rewrite Hin. cbn [negb andb not_before].
  split; intros Hw.
  - destruct (Z.leb_spec iat now), (Z.ltb_spec (iat + 60) now), (Z.ltb_spec now iat),
      (Z.leb_spec now (iat + 60)); try lia. split; reflexivity.
  - destruct (Z.leb_spec iat now), (Z.ltb_spec (iat + 60) now), (Z.ltb_spec now iat),
      (Z.leb_spec now (iat + 60)), (Z.ltb_spec now (iat + lifetime)); try lia.
    split; reflexivity.
Qed.

Lemma C3_not_before_window_witness :
  plain_time 1700000000 /\ 0 < 3600 /\ In "svc"%string (token_aud (Some ["svc"%string]))
  /\ exists (token : string) (payload : Jwtx.TokenPayload),
      Jwts.CreateToken
        (Some (Jwts.mkCreateTokenParams (Some ["svc"%string]) "x" "y" 3600 (Some 60)))
        (Some Examples.secret) None 1700000000 = Returns (Some token, None)
      /\ Jwtx.CreateJWT
           (Some (Jwtx.mkCreateJWTParams (Some ["svc"%string]) "x" "y" 3600 (Some 60)))
           None Examples.source 1700000000 = Returns (Some payload, None)
      /\ (1700000060 <= 1700000000 + 60 ->
          Jwts.VerifyToken (Some token) (Some "svc"%string) None 1700000060
          = Returns (false, None)
          /\ Jwtx.ValidateTokenByWindowAndAud (Jwtx.Payload_Token payload) "svc" None 1700000060
             = Returns (false, Some Jwtx.errTokenUsedBeforeExpected))
      /\ (1700000000 + 60 < 1700000060 < 1700000000 + 3600 ->
          Jwts.VerifyToken (Some token) (Some "svc"%string) None 1700000060
          = Returns (true, None)
          /\ Jwtx.ValidateTokenByWindowAndAud (Jwtx.Payload_Token payload) "svc" None 1700000060
             = Returns (true, None)).
Proof.
  split; [plain|]. split; [lia|]. split; [left; reflexivity|].
  apply (C3_not_before_window (Some ["svc"%string]) "x" "y" 3600 Examples.secret
           Examples.source 1700000000 1700000060 "svc"); try plain.
  left; reflexivity.
Defined.

(** C3, the claim as stated fails at [now = iat + 60]: the token is
    still rejected there, and [VerifyToken] reports no error at all. *)
Lemma C3_counterexample :
  exists (token : string) (payload : Jwtx.TokenPayload),
    Jwts.CreateToken
      (Some (Jwts.mkCreateTokenParams (Some ["svc"%string]) "x" "y" 3600 (Some 60)))
      (Some Examples.secret) None 1700000000 = Returns (Some token, None)
    /\ Jwtx.CreateJWT
         (Some (Jwtx.mkCreateJWTParams (Some ["svc"%string]) "x" "y" 3600 (Some 60)))
         None Examples.source 1700000000 = Returns (Some payload, None)
    /\ Jwtx.ValidateTokenByWindowAndAud (Jwtx.Payload_Token payload) "svc" None
         (1700000000 + 60)
       = Returns (false, Some Jwtx.errTokenUsedBeforeExpected)
    /\ Jwts.VerifyToken (Some token) (Some "svc"%string) None (1700000000 + 60)
       = Returns (false, None)
    /\ Jwts.VerifyToken (Some token) (Some "svc"%string) None (1700000000 + 1)
       = Returns (false, None).
Proof.
  eexists _, _. split; [vm_compute; reflexivity|]. split; [vm_compute; reflexivity|].
  repeat split; vm_compute; reflexivity.
Qed.

(** C4 (as amended). A created token is accepted by [VerifyToken]
    only while [now < exp]; from [exp] on [VerifyToken] returns false
    with a nil error (package jwts has no error for it), and
    [ValidateTokenByWindowAndAud], once the earlier checks pass, fails
    with [errTokenIsExpired].  With a lifetime of 0 the decoded claims
    have [exp = iat], so this holds at and after the creation
    instant. *)
Theorem C4_expiry :
  forall (aud : slice string) (iss sub : string) (lifetime : Z) (delay : option Z)
         (secret : list byte) (source : Jwtx.Rand) (iat now : Z) (target : string),
    plain_time iat -> 0 <= lifetime -> plain_time (iat + lifetime) ->
    plain_time (not_before iat delay) -> plain_time now ->
    exists (token header claims signature : string) (details : Jwts.TokenDetails)
           (payload : Jwtx.TokenPayload),
      Jwts.CreateToken (Some (Jwts.mkCreateTokenParams aud iss sub lifetime delay))
        (Some secret) None iat = Returns (Some token, None)
      /\ Jwtx.CreateJWT (Some (Jwtx.mkCreateJWTParams aud iss sub lifetime delay))
           None source iat = Returns (Some payload, None)
      /\ Strings.Split token "." = [header; claims; signature]
      /\ Jwts.parseTokenDetails (Some (Jwts.mkTokenChunks header claims signature)) None
         = Returns (Some details, None)
      /\ Iat (Jwts.Details_Claims details) = iat
      /\ Exp (Jwts.Details_Claims details) = iat + lifetime
      /\ (Jwts.VerifyToken (Some token) (Some target) None now = Returns (true, None) ->
          now < iat + lifetime)
      /\ (iat + lifetime <= now ->
          Jwts.VerifyToken (Some token) (Some target) None now = Returns (false, None))
      /\ (iat + lifetime <= now -> In target (token_aud aud) ->
          iat <= now -> not_before iat delay < now ->
          Jwtx.ValidateTokenByWindowAndAud (Jwtx.Payload_Token payload) target None now
          = Returns (false, Some Jwtx.errTokenIsExpired)).
Proof.
  intros aud iss sub lifetime delay secret source iat now target Hi Hl He Hn Hnow.
  set (p := Jwts.mkCreateTokenParams aud iss sub lifetime delay).
  exists (jwts_token p secret iat), header64, (encoded (AnyClaims (jwts_claims p iat))),
    (jwts_signature secret header64 (encoded (AnyClaims (jwts_claims p iat)))),
    (Jwts.mkTokenDetails Jwts.DefaultHeader (coerce_Claims (jwts_claims p iat))).
  eexists.
  split; [apply CreateToken_eq|]. split; [apply CreateJWT_eq|].
  split; [apply Split_jwts_token|].
  split; [apply parseTokenDetails_encoded, int64_claims_of, is_int64_plain, Hi|].
  split; [reflexivity|].
  split; [cbn; apply add64_plain, He|].
  cbn [Jwtx.Payload_Token]. subst p.
  rewrite VerifyToken_created_plain by assumption.
  rewrite ValidateTokenByWindowAndAud_created_plain by assumption.
  split; [|split].
  - intros E. injection E as E.
    repeat (apply andb_true_iff in E as [? E]). apply Z.ltb_lt in E. exact E.
  - intros Hx. destruct (Z.ltb_spec now (iat + lifetime)); [lia|].
    now rewrite !andb_false_r.
  - intros Hx Hin H1 H2. apply has_label_In in Hin. rewrite Hin. cbn [negb].
    destruct (Z.ltb_spec now iat), (Z.leb_spec now (not_before iat delay)),
      (Z.ltb_spec now (iat + lifetime)); try lia. reflexivity.
Qed.

Lemma C4_expiry_witness :
  plain_time 1700000000 /\ 0 <= 0
  /\ exists (token header claims signature : string) (details : Jwts.TokenDetails)
           (payload : Jwtx.TokenPayload),
      Jwts.CreateToken (Some (Jwts.mkCreateTokenParams (Some ["svc"%string]) "x" "y" 0 None))
        (Some Examples.secret) None 1700000000 = Returns (Some token, None)
      /\ Jwtx.CreateJWT (Some (Jwtx.mkCreateJWTParams (Some ["svc"%string]) "x" "y" 0 None))
           None Examples.source 1700000000 = Returns (Some payload, None)
      /\ Strings.Split token "." = [header; claims; signature]
      /\ Jwts.parseTokenDetails (Some (Jwts.mkTokenChunks header claims signature)) None
         = Returns (Some details, None)
      /\ Iat (Jwts.Details_Claims details) = 1700000000
      /\ Exp (Jwts.Details_Claims details) = 1700000000 + 0
      /\ (Jwts.VerifyToken (Some token) (Some "svc"%string) None 1700000000
          = Returns (true, None) -> 1700000000 < 1700000000 + 0)
      /\ (1700000000 + 0 <= 1700000000 ->
          Jwts.VerifyToken (Some token) (Some "svc"%string) None 1700000000
          = Returns (false, None))
      /\ (1700000000 + 0 <= 1700000000 -> In "svc"%string (token_aud (Some ["svc"%string])) ->
          1700000000 <= 1700000000 -> not_before 1700000000 None < 1700000000 ->
          Jwtx.ValidateTokenByWindowAndAud (Jwtx.Payload_Token payload) "svc" None 1700000000
          = Returns (false, Some Jwtx.errTokenIsExpired)).
Proof.
  split; [plain|]. split; [lia|].
  apply (C4_expiry (Some ["svc"%string]) "x" "y" 0 None Examples.secret Examples.source
           1700000000 1700000000 "svc"); plain.
Defined.

(** C4, the claim as stated fails: the policy check of package jwts
    rejects an expired token with a nil error, not with an expiry
    error. *)
Lemma C4_counterexample :
  exists token : string,
    Jwts.CreateToken (Some (Jwts.mkCreateTokenParams (Some ["svc"%string]) "x" "y" 0 None))
      (Some Examples.secret) None 1700000000 = Returns (Some token, None)
    /\ Jwts.VerifyToken (Some token) (Some "svc"%string) None 1700000000
       = Returns (false, None).
Proof. eexists. split; [vm_compute; reflexivity|]. vm_compute. reflexivity. Qed.

(** C5 (as amended). For a created token whose time window is valid
    at [now], [VerifyToken] returns true exactly when the target is in
    the token's aud list.  For a target that is not, [VerifyToken]
    returns false with a nil error; [ValidateTokenByWindowAndAud]
    returns false with [errAudChunkNotFound]. *)
Theorem C5_audience :
  forall (aud : slice string) (iss sub : string) (lifetime : Z) (delay : option Z)
         (secret : list byte) (source : Jwtx.Rand) (iat now : Z) (x : string),
    plain_time iat -> plain_time (iat + lifetime) ->
    plain_time (not_before iat delay) -> plain_time now ->
    iat <= now -> not_before iat delay < now -> now < iat + lifetime ->
    exists (token : string) (payload : Jwtx.TokenPayload),
      Jwts.CreateToken (Some (Jwts.mkCreateTokenParams aud iss sub lifetime delay))
        (Some secret) None iat = Returns (Some token, None)
      /\ Jwtx.CreateJWT (Some (Jwtx.mkCreateJWTParams aud iss sub lifetime delay))
           None source iat = Returns (Some payload, None)
      /\ (Jwts.VerifyToken (Some token) (Some x) None now = Returns (true, None)
          <-> In x (token_aud aud))
      /\ (In x (token_aud aud) ->
          Jwtx.ValidateTokenByWindowAndAud (Jwtx.Payload_Token payload) x None now
          = Returns (true, None))
      /\ (~ In x (token_aud aud) ->
          Jwts.VerifyToken (Some token) (Some x) None now = Returns (false, None)
          /\ Jwtx.ValidateTokenByWindowAndAud (Jwtx.Payload_Token payload) x None now
             = Returns (false, Some Jwtx.errAudChunkNotFound)).
Proof.
  intros aud iss sub lifetime delay secret source iat now x Hi He Hn Hnow H1 H2 H3.
  eexists _, _. split; [apply CreateToken_eq|]. split; [apply CreateJWT_eq|].
  cbn [Jwtx.Payload_Token].
  rewrite VerifyToken_created_plain by assumption.
  rewrite ValidateTokenByWindowAndAud_created_plain by assumption.
  pose proof (has_label_In (token_aud aud) x) as L.
  destruct (Z.leb_spec iat now), (Z.ltb_spec (not_before iat delay) now),
    (Z.ltb_spec now (iat + lifetime)), (Z.ltb_spec now iat),
    (Z.leb_spec now (not_before iat delay)); try lia.
  cbn [andb]. rewrite andb_true_r.
  destruct (has_label (token_aud aud) x); cbn [negb].
  - split; [split; [intros _; now apply L | reflexivity]|].
    split; [reflexivity|]. intros N. elim N. now apply L.
  - split; [split; [discriminate | intros I; apply L in I; discriminate]|].
    split; [intros I; apply L in I; discriminate|]. intros _. split; reflexivity.
Qed.

Lemma C5_audience_witness :
  plain_time 1700000000 /\ 1700000000 <= 1700000001 /\ 1700000001 < 1700000000 + 3600
  /\ exists (token : string) (payload : Jwtx.TokenPayload),
      Jwts.CreateToken (Some (Jwts.mkCreateTokenParams (Some ["svc"%string]) "x" "y" 3600 None))
        (Some Examples.secret) None 1700000000 = Returns (Some token, None)
      /\ Jwtx.CreateJWT (Some (Jwtx.mkCreateJWTParams (Some ["svc"%string]) "x" "y" 3600 None))
           None Examples.source 1700000000 = Returns (Some payload, None)
      /\ (Jwts.VerifyToken (Some token) (Some "other"%string) None 1700000001
          = Returns (true, None)
          <-> In "other"%string (token_aud (Some ["svc"%string])))
      /\ (In "other"%string (token_aud (Some ["svc"%string])) ->
          Jwtx.ValidateTokenByWindowAndAud (Jwtx.Payload_Token payload) "other" None 1700000001
          = Returns (true, None))
      /\ (~ In "other"%string (token_aud (Some ["svc"%string])) ->
          Jwts.VerifyToken (Some token) (Some "other"%string) None 1700000001
          = Returns (false, None)
          /\ Jwtx.ValidateTokenByWindowAndAud (Jwtx.Payload_Token payload) "other" None
               1700000001
             = Returns (false, Some Jwtx.errAudChunkNotFound)).
Proof.
  split; [plain|]. split; [lia|]. split; [lia|].
  apply (C5_audience (Some ["svc"%string]) "x" "y" 3600 None Examples.secret Examples.source
           1700000000 1700000001 "other"); plain.
Defined.

(** C5, the claim as stated fails: for a target that is not in the aud
    list [VerifyToken] returns false with a nil error, not with an
    audience error. *)
Lemma C5_counterexample :
  Jwts.VerifyToken (Some Examples.token) (Some "other"%string) None 1700000001
  = Returns (false, None).
Proof. vm_compute. reflexivity. Qed.

(** C6 (as amended). [createSignature] of package jwts returns the
    unpadded base64 of the raw MAC of header, dot and claims: decoding
    it gives the MAC bytes back.  [generateSignature] of package
    jwtx marshals the MAC as JSON first: what it returns decodes to a
    JSON string, the padded base64 of the MAC between double quotes. *)
Theorem C6_signature_encoding :
  forall (encodedHeader encodedClaims : string) (secret : list byte),
    let mac := HMAC.Sum secret (list_byte_of_string (encodedHeader ++ "." ++ encodedClaims)) in
    (exists signature : string,
        Jwts.createSignature (Some encodedHeader) (Some encodedClaims) (Some secret) None
        = (Some signature, None)
        /\ signature = Base64.EncodeToString Base64.RawStd mac
        /\ Base64.DecodeString signature = (mac, None))
    /\ (exists signature : string,
        Jwtx.generateSignature (Some encodedHeader) (Some encodedClaims) (Some secret) None
        = (Some signature, None)
        /\ Base64.DecodeString signature
           = (list_byte_of_string (quoted (Base64.EncodeToString Base64.Std mac)), None)).
Proof.
  intros h c key mac. split.
  - exists (jwts_signature key h c). split; [apply createSignature_eq|]. split; [reflexivity|].
    apply DecodeString_EncodeToString.
  - exists (jwtx_signature key h c). split; [apply generateSignature_eq|].
    apply DecodeString_EncodeToString.
Qed.

(** C6, the claim as stated fails for [generateSignature]: its result
    is not the unpadded base64 of the raw MAC. *)
Lemma C6_generateSignature_counterexample :
  Jwtx.generateSignature (Some header64) (Some "e30"%string) (Some Examples.secret) None
  <> (Some (Base64.EncodeToString Base64.RawStd
              (HMAC.Sum Examples.secret (list_byte_of_string (header64 ++ "." ++ "e30")))),
      None).
Proof. vm_compute. discriminate. Qed.

(** C7. A token created without a delay carries [nbf] set to 0, not
    left out: its decoded claims have [Nbf] pointing to 0.  At any
    positive time the not-before test [0 - now >= 0] is false, so
    [validateTokenTimes] decides by [iat] and [exp] alone. *)
Theorem C7_absent_delay_gives_nbf_zero :
  forall (aud : slice string) (iss sub : string) (lifetime : Z) (secret : list byte) (iat : Z),
    is_int64 iat = true ->
    exists (token header claims signature : string) (details : Jwts.TokenDetails),
      Jwts.CreateToken (Some (Jwts.mkCreateTokenParams aud iss sub lifetime None))
        (Some secret) None iat = Returns (Some token, None)
      /\ Strings.Split token "." = [header; claims; signature]
      /\ Jwts.parseTokenDetails (Some (Jwts.mkTokenChunks header claims signature)) None
         = Returns (Some details, None)
      /\ Nbf (Jwts.Details_Claims details) = Some 0
      /\ forall now : Z,
           0 < now <= max_int64 ->
           (sub64 0 now >=? 0) = false
           /\ Jwts.validateTokenTimes (Some details) None now
              = Returns (negb (sub64 (Iat (Jwts.Details_Claims details)) now >? 0)
                         && (sub64 (Exp (Jwts.Details_Claims details)) now >? 0), None).
Proof.
  intros aud iss sub lifetime secret iat H.
  destruct (created_token_details aud iss sub lifetime None secret iat H)
    as (token & h & c & s & details & Ec & Es & Ep & Ed).
  exists token, h, c, s, details.
  split; [exact Ec|]. split; [exact Es|]. split; [exact Ep|].
  split; [rewrite Ed; reflexivity|].
  intros now Hnow.
  assert (E0 : sub64 0 now = - now).
  { unfold sub64. apply wrap64_small. unfold min_int64, max_int64 in *. lia. }
  assert (G : (sub64 0 now >=? 0) = false).
  { rewrite E0. destruct (Z.geb_spec (- now) 0); [lia | reflexivity]. }
  split; [exact G|].
  unfold Jwts.validateTokenTimes. cbn [deref bind]. rewrite Ed.
  cbn [coerce_Claims claims_of Nbf Iat Exp]. rewrite G.
  destruct (sub64 iat now >? 0); [reflexivity|].
  destruct (sub64 (add64 iat lifetime) now >? 0); reflexivity.
Qed.

Lemma C7_absent_delay_gives_nbf_zero_witness :
  is_int64 1700000000 = true
  /\ exists (token header claims signature : string) (details : Jwts.TokenDetails),
      Jwts.CreateToken (Some (Jwts.mkCreateTokenParams (Some ["svc"%string]) "x" "y" 3600 None))
        (Some Examples.secret) None 1700000000 = Returns (Some token, None)
      /\ Strings.Split token "." = [header; claims; signature]
      /\ Jwts.parseTokenDetails (Some (Jwts.mkTokenChunks header claims signature)) None
         = Returns (Some details, None)
      /\ Nbf (Jwts.Details_Claims details) = Some 0
      /\ forall now : Z,
           0 < now <= max_int64 ->
           (sub64 0 now >=? 0) = false
           /\ Jwts.validateTokenTimes (Some details) None now
              = Returns (negb (sub64 (Iat (Jwts.Details_Claims details)) now >? 0)
                         && (sub64 (Exp (Jwts.Details_Claims details)) now >? 0), None).
Proof.
  split; [reflexivity|].
  apply (C7_absent_delay_gives_nbf_zero (Some ["svc"%string]) "x" "y" 3600
           Examples.secret 1700000000).
  reflexivity.
Defined.

(** C8. The header segment is a constant: it is the unpadded base64
    of the text {"alg":"HS256","typ":"JWT"}, and every token that
    [CreateToken] returns, for whatever arguments, starts with it as
    the first of its three segments. *)
Theorem C8_header_segment_constant :
  header64 = Base64.EncodeToString Base64.RawStd (list_byte_of_string header_json)
  /\ forall (params : option Jwts.CreateTokenParams) (secret : option (list byte))
            (err e : option Jwts.error) (now : Z) (token : string),
       Jwts.CreateToken params secret err now = Returns (Some token, e) ->
       exists claims signature : string,
         token = (header64 ++ "." ++ claims ++ "." ++ signature)%string
         /\ Strings.Split token "." = [header64; claims; signature].
Proof.
  split; [vm_compute; reflexivity|].
  intros [p|] [key|] [e0|] e now token H; try discriminate H.
  rewrite CreateToken_eq in H. injection H as <- <-.
  eexists _, _. split; [reflexivity | apply Split_jwts_token].
Qed.

Lemma C8_header_segment_constant_witness :
  Jwts.CreateToken (Some Examples.params) (Some Examples.secret) None 1700000000
  = Returns (Some Examples.token, None)
  /\ exists claims signature : string,
       Examples.token = (header64 ++ "." ++ claims ++ "." ++ signature)%string
       /\ Strings.Split Examples.token "." = [header64; claims; signature].
Proof.
  split; [vm_compute; reflexivity|].
  apply (proj2 C8_header_segment_constant (Some Examples.params) (Some Examples.secret)
           None None 1700000000 Examples.token).
  vm_compute; reflexivity.
Defined.

(** C9. [VerifyToken] is integrity-agnostic: two tokens of three
    segments with the same header and claims segments get the same
    outcome for the same audience target, incoming error and clock,
    whatever their signature segments are. *)
Theorem C9_VerifyToken_ignores_signature :
  forall (token1 token2 header claims signature1 signature2 : string)
         (audTarget : option string) (err : option Jwts.error) (now : Z),
    Strings.Split token1 "." = [header; claims; signature1] ->
    Strings.Split token2 "." = [header; claims; signature2] ->
    Jwts.VerifyToken (Some token1) audTarget err now
    = Jwts.VerifyToken (Some token2) audTarget err now.
Proof.
  intros t1 t2 h c s1 s2 tgt err now H1 H2.
  unfold Jwts.VerifyToken, Jwts.parseTokenChunks.
  destruct err as [e|]; [reflexivity|].
  rewrite H1, H2. reflexivity.
Qed.

Lemma C9_VerifyToken_ignores_signature_witness :
  Strings.Split Examples.token "."
  = [ Examples.header_segment; Examples.claims_segment;
      "HF8jZR7wKgrDiwf5Sm4M+GdxHJVtiheOYKx71R14kMA"%string ]
  /\ Strings.Split Examples.forged_token "."
     = [Examples.header_segment; Examples.claims_segment; "forged"%string]
  /\ Jwts.VerifyToken (Some Examples.token) (Some "svc"%string) None 1700000001
     = Jwts.VerifyToken (Some Examples.forged_token) (Some "svc"%string) None 1700000001.
Proof.
  split; [reflexivity|]. split; [reflexivity|].
  apply (C9_VerifyToken_ignores_signature Examples.token Examples.forged_token
           Examples.header_segment Examples.claims_segment
           "HF8jZR7wKgrDiwf5Sm4M+GdxHJVtiheOYKx71R14kMA" "forged");
    reflexivity.
Defined.

Example VerifyToken_forged_accepted :
  Jwts.VerifyToken (Some Examples.forged_token) (Some "svc"%string) None 1700000001
  = Returns (true, None).
Proof. vm_compute. reflexivity. Qed.

(** C10. [CreateJWTFromSecret] does not depend on the secret it is
    given: it returns what [CreateJWT] returns, a token signed with
    the 128 bytes read from the random source, which are also the
    payload's [Secret].  The payload validates; with any other secret
    in its place it validates exactly when that secret signs header
    and claims to the same signature. *)
Theorem C10_CreateJWTFromSecret_discards_secret :
  forall (params : Jwtx.CreateJWTParams) (secret1 secret2 : list byte)
         (source : Jwtx.Rand) (now : Z),
    Jwtx.CreateJWTFromSecret (Some params) (Some secret1) None source now
    = Jwtx.CreateJWTFromSecret (Some params) (Some secret2) None source now
    /\ Jwtx.CreateJWTFromSecret (Some params) (Some secret1) None source now
       = Jwtx.CreateJWT (Some params) None source now
    /\ exists token claims signature : string,
         Jwtx.CreateJWTFromSecret (Some params) (Some secret1) None source now
         = Returns (Some (Jwtx.mkTokenPayload (Some token) (Some (generated source))
                            (Some signature)), None)
         /\ List.length (generated source) = 128%nat
         /\ Strings.Split token "." = [header64; claims; signature]
         /\ signature = jwtx_signature (generated source) header64 claims
         /\ Jwtx.ValidateJWT
              (Some (Jwtx.mkTokenPayload (Some token) (Some (generated source))
                       (Some signature))) None
            = Returns (true, None)
         /\ forall other : list byte,
              Jwtx.ValidateJWT
                (Some (Jwtx.mkTokenPayload (Some token) (Some other) (Some signature))) None
              = Returns (String.eqb (jwtx_signature other header64 claims) signature, None).
Proof.
  intros p s1 s2 source now. split; [reflexivity|]. split; [reflexivity|].
  rewrite CreateJWTFromSecret_CreateJWT, CreateJWT_eq.
  eexists _, _, _. split; [reflexivity|].
  split; [unfold generated; now rewrite length_map, length_seq|].
  split; [apply Split_jwtx_token|]. split; [reflexivity|]. split.
  - rewrite (ValidateJWT_eq _ _ _ _ _ _ (Split_jwtx_token p (generated source) now)).
    now rewrite String.eqb_refl.
  - intros other.
    apply (ValidateJWT_eq _ _ _ _ _ _ (Split_jwtx_token p (generated source) now)).
Qed.

(* ================================================================== *)
(** * Further lemmas on the library models and the pipelines *)
(* ================================================================== *)

Module LengthFacts.

Lemma length_block (h : list Z) (p : list byte) :
  List.length h = 8%nat -> List.length (SHA256.block h p) = 8%nat.
Proof.
  intros H. unfold SHA256.block.
  destruct (fold_left SHA256.round _ _) as [a b c d e f g h'].
  rewrite !length_map, length_combine, H. reflexivity.
Qed.

Lemma length_blocks (fuel : nat) :
  forall (h : list Z) (p : list byte),
    List.length h = 8%nat -> List.length (SHA256.blocks fuel h p) = 8%nat.
Proof.
  induction fuel as [|fuel IH]; intros h p H; [exact H|].
  cbn [SHA256.blocks]. destruct p as [|b p]; [exact H|].
  apply IH, length_block, H.
Qed.

Lemma length_word_bytes (l : list Z) :
  List.length (flat_map SHA256.word_bytes l) = (4 * List.length l)%nat.
Proof.
  induction l as [|w l IH]; [reflexivity|].
  cbn [flat_map SHA256.word_bytes List.length app]. rewrite IH. lia.
Qed.

(** A digest has [sha256.Size] bytes. *)
Lemma length_Sum256 (data : list byte) : List.length (SHA256.Sum256 data) = 32%nat.
Proof.
  unfold SHA256.Sum256. rewrite length_word_bytes, length_blocks; reflexivity.
Qed.

Lemma length_HMAC (key message : list byte) : List.length (HMAC.Sum key message) = 32%nat.
Proof. unfold HMAC.Sum. apply length_Sum256. Qed.

(** [enc.EncodedLen(n)] without padding and with it. *)
Lemma length_EncodeToString_RawStd (src : list byte) :
  String.length (Base64.EncodeToString Base64.RawStd src)
  = ((List.length src * 8 + 5) / 6)%nat.
Proof.
  induction src as [| b0 | b0 b1 | b0 b1 b2 rest IH] using list_ind3; try reflexivity.
  cbn [Base64.EncodeToString String.length List.length]. rewrite IH.
  replace ((S (S (S (List.length rest))) * 8 + 5)%nat)
    with ((List.length rest * 8 + 5) + 4 * 6)%nat by lia.
  rewrite Nat.div_add by lia. lia.
Qed.

Lemma length_EncodeToString_Std (src : list byte) :
  String.length (Base64.EncodeToString Base64.Std src)
  = ((List.length src + 2) / 3 * 4)%nat.
Proof.
  induction src as [| b0 | b0 b1 | b0 b1 b2 rest IH] using list_ind3; try reflexivity.
  cbn [Base64.EncodeToString String.length List.length]. rewrite IH.
  replace ((S (S (S (List.length rest))) + 2)%nat)
    with ((List.length rest + 2) + 1 * 3)%nat by lia.
  rewrite Nat.div_add by lia. lia.
Qed.

Lemma length_list_byte_of_string (s : string) :
  List.length (list_byte_of_string s) = String.length s.
Proof.
  unfold list_byte_of_string. rewrite length_map.
  induction s as [|c s IH]; [reflexivity|].
  cbn [list_ascii_of_string List.length String.length]. now rewrite IH.
Qed.

(** The signature segment of package jwts has 43 characters, that of
    package jwtx 62. *)
Lemma length_jwts_signature (key : list byte) (h c : string) :
  String.length (jwts_signature key h c) = 43%nat.
Proof.
  unfold jwts_signature, mac. rewrite length_EncodeToString_RawStd, length_HMAC. reflexivity.
Qed.

Lemma length_jwtx_signature (key : list byte) (h c : string) :
  String.length (jwtx_signature key h c) = 62%nat.
Proof.
  unfold jwtx_signature, encoded, mac. cbn [Json.encode].
  rewrite length_EncodeToString_RawStd, length_list_byte_of_string.
  unfold Json.encode_bytes. cbn [String.length]. rewrite length_append. cbn [String.length].
  rewrite length_EncodeToString_Std, length_HMAC. reflexivity.
Qed.

End LengthFacts.

Module ChunkFacts.

(** The pieces of a split, put together again with the separator
    between them, are the string that was split. *)
Lemma Split_cons (s : string) (sep : ascii) :
  forall (p : string) (ps : list string),
    Strings.Split s sep = p :: ps ->
    match ps with
    | [] => s = p
    | _ :: _ => exists rest : string, s = (p ++ String sep rest)%string
                                      /\ Strings.Split rest sep = ps
    end.
Proof.
  induction s as [|x s IH]; intros p ps H; cbn [Strings.Split] in H.
  - injection H as <- <-. reflexivity.
  - destruct (Ascii.eqb_spec x sep) as [->|N].
    + injection H as <- <-.
      pose proof (Split_nonempty s sep) as Hn.
      destruct (Strings.Split s sep) as [|q qs] eqn:E; [now elim Hn|].
      exists s. split; [reflexivity | exact E].
    + destruct (Strings.Split s sep) as [|q qs] eqn:E.
      * now elim (Split_nonempty s sep).
      * injection H as <- <-. specialize (IH q qs eq_refl).
        destruct qs as [|q' qs'].
        -- now subst.
        -- destruct IH as (rest & -> & Er). exists rest. split; [reflexivity | exact Er].
Qed.

Lemma Split_three_inv (t h c s : string) :
  Strings.Split t "." = [h; c; s] -> t = (h ++ "." ++ c ++ "." ++ s)%string.
Proof.
  intros H. apply Split_cons in H as (r1 & -> & H).
  apply Split_cons in H as (r2 & -> & H). apply Split_cons in H as ->. reflexivity.
Qed.

Lemma Split_three_no_dot (t h c s : string) :
  Strings.Split t "." = [h; c; s] ->
  Strings.contains h "." = false /\ Strings.contains c "." = false
  /\ Strings.contains s "." = false.
Proof.
  intros H. pose proof (Split_pieces t ".") as F. rewrite H in F.
  inversion F as [|? ? Hh F1]; subst. inversion F1 as [|? ? Hc F2]; subst.
  inversion F2 as [|? ? Hs F3]; subst. auto.
Qed.

(** What [parseTokenChunks] returns is decided by the incoming
    error, the pointer and the number of pieces. *)
Lemma parseTokenChunks_cases (token : option string) (err : option Jwts.error) :
  (exists t h c s, err = None /\ token = Some t /\ Strings.Split t "." = [h; c; s]
                   /\ Jwts.parseTokenChunks token err = (Some (Jwts.mkTokenChunks h c s), None))
  \/ (exists e, Jwts.parseTokenChunks token err = (None, Some e)
                /\ (err <> None \/ token = None
                    \/ exists t, token = Some t /\ List.length (Strings.Split t ".") <> 3%nat)).
Proof.
  destruct err as [e|]; [right; exists e; split; [reflexivity | left; discriminate]|].
  destruct token as [t|]; [|right; eexists; split; [reflexivity | right; left; reflexivity]].
  unfold Jwts.parseTokenChunks.
  destruct (Strings.Split t ".") as [|a [|b [|c [|d l]]]] eqn:E;
    try (right; eexists; split; [reflexivity|]; right; right; exists t; split;
         [reflexivity | rewrite E; simpl; lia]).
  left. exists t, a, b, c. auto.
Qed.

Lemma retrieveTokenChunks_cases (token : option string) (err : option Jwtx.error) :
  (exists t h c s, err = None /\ token = Some t /\ Strings.Split t "." = [h; c; s]
                   /\ Jwtx.retrieveTokenChunks token err
                      = (Some (Jwtx.mkTokenChunks h c s), None))
  \/ (exists e, Jwtx.retrieveTokenChunks token err = (None, Some e)
                /\ (err <> None \/ token = None
                    \/ exists t, token = Some t /\ List.length (Strings.Split t ".") <> 3%nat)).
Proof.
  destruct err as [e|]; [right; exists e; split; [reflexivity | left; discriminate]|].
  destruct token as [t|]; [|right; eexists; split; [reflexivity | right; left; reflexivity]].
  unfold Jwtx.retrieveTokenChunks.
  destruct (Strings.Split t ".") as [|a [|b [|c [|d l]]]] eqn:E;
    try (right; eexists; split; [reflexivity|]; right; right; exists t; split;
         [reflexivity | rewrite E; simpl; lia]).
  left. exists t, a, b, c. auto.
Qed.

End ChunkFacts.

Module KeyFacts.

Import LengthFacts.

(** A key longer than the block size and its digest give the same
    MAC. *)
Lemma HMAC_long_key (key message : list byte) :
  (SHA256.BlockSize < List.length key)%nat ->
  HMAC.Sum (SHA256.Sum256 key) message = HMAC.Sum key message.
Proof.
  intros H. unfold HMAC.Sum. rewrite length_Sum256.
  apply Nat.ltb_lt in H. rewrite H. reflexivity.
Qed.

(** Zero bytes at the end of a key that fits the block are padding. *)
Lemma HMAC_zero_padded_key (key message : list byte) (n : nat) :
  (List.length key + n <= SHA256.BlockSize)%nat ->
  HMAC.Sum (key ++ repeat (byte_chr 0) n) message = HMAC.Sum key message.
Proof.
  intros H. unfold HMAC.Sum. cbv zeta. rewrite !length_app, !repeat_length.
  destruct (Nat.ltb_spec SHA256.BlockSize (List.length key + n)) as [N|_]; [lia|].
  destruct (Nat.ltb_spec SHA256.BlockSize (List.length key)) as [N|_]; [lia|].
  rewrite ?length_app, ?repeat_length, <- app_assoc, <- repeat_app.
  replace (n + (SHA256.BlockSize - (List.length key + n)))%nat
    with (SHA256.BlockSize - List.length key)%nat by lia.
  reflexivity.
Qed.

Lemma wrap64_sub_l (a b : Z) : wrap64 (wrap64 a - b) = wrap64 (a - b).
Proof.
  unfold wrap64. f_equal.
  replace ((a + 2 ^ 63) mod 2 ^ 64 - 2 ^ 63 - b + 2 ^ 63)
    with ((a + 2 ^ 63) mod 2 ^ 64 - b) by lia.
  rewrite Zminus_mod_idemp_l. f_equal. lia.
Qed.

(** The difference to a sum, when the exact difference is an int64,
    whether or not the sum wrapped around. *)
Lemma sub64_add64 (a b c : Z) :
  min_int64 <= a + b - c <= max_int64 -> sub64 (add64 a b) c = a + b - c.
Proof.
  intros H. unfold sub64, add64. rewrite wrap64_sub_l. now apply wrap64_small.
Qed.

Lemma coerce_strings_valid (aud : slice string) :
  Forall (fun label => UTF8.ValidString label = true) (elements aud) ->
  coerce_strings aud = aud.
Proof.
  destruct aud as [l|]; [|reflexivity]. cbn [elements coerce_strings option_map].
  intros H. f_equal. induction H as [|x l Hx _ IH]; [reflexivity|].
  cbn [map]. now rewrite (CoerceFacts.coerce_valid x Hx), IH.
Qed.

End KeyFacts.

Module ValidFacts.

Import UTF8Facts.

(** What comes out of [coerce] is valid UTF-8. *)
Lemma valid_coerce_fuel (g : nat) :
  forall (s : string) (g' : nat),
    (String.length s <= g)%nat ->
    (String.length (UTF8.coerce_fuel g s) <= g')%nat ->
    UTF8.valid_fuel g' (UTF8.coerce_fuel g s) = true.
Proof.
  induction g as [|g IH]; intros s g' Hg Hg'.
  - destruct g'; reflexivity.
  - destruct s as [|c s]; [destruct g'; reflexivity|].
    cbn [UTF8.coerce_fuel] in *. unfold UTF8.RuneSelf in *.
    destruct (Z.ltb_spec (code c) 128) as [A|A].
    + destruct g' as [|g']; [reflexivity|]. cbn [UTF8.valid_fuel]. unfold UTF8.RuneSelf.
      destruct (Z.ltb_spec (code c) 128); [|lia].
      apply IH; simpl in *; lia.
    + destruct (UTF8.invalid_head (String c s)) eqn:Hi.
      * destruct g' as [|g']; [reflexivity|].
        change (UTF8.EncodeRune UTF8.RuneError ++ UTF8.coerce_fuel g s)%string
          with (String (chr 239) (String (chr 191) (String (chr 189) (UTF8.coerce_fuel g s))))
          in Hg' |- *.
        cbn [UTF8.valid_fuel]. cbn [String.length] in Hg'.
        apply IH; simpl in *; lia.
      * destruct (DecodeRune_valid c s A Hi) as (r & bs & tl & Es & Hbs & Enc & Dec).
        rewrite Es in Hg, Hg', Hi |- *. rewrite length_append in Hg.
        unfold UTF8.invalid_head in Hi. rewrite Dec in Hi, Hg' |- *. cbn [snd] in Hg' |- *.
        rewrite take_append, drop_append in Hg' |- *.
        rewrite length_append in Hg'.
        destruct bs as [|b bs]; [simpl in Hbs; lia|].
        injection Es as <- Es.
        destruct g' as [|g']; [reflexivity|].
        change ((String c bs ++ UTF8.coerce_fuel g tl)%string)
          with (String c (bs ++ UTF8.coerce_fuel g tl)).
        cbn [UTF8.valid_fuel]. unfold UTF8.RuneSelf.
        destruct (Z.ltb_spec (code c) 128); [lia|].
        change (String c (bs ++ UTF8.coerce_fuel g tl))
          with ((String c bs ++ UTF8.coerce_fuel g tl)%string).
        unfold UTF8.invalid_head. rewrite Dec, Hi. cbn [negb andb snd].
        rewrite drop_append. apply IH; simpl in *; lia.
Qed.

Lemma ValidString_coerce (s : string) : UTF8.ValidString (UTF8.coerce s) = true.
Proof. unfold UTF8.ValidString, UTF8.coerce. apply valid_coerce_fuel; lia. Qed.

(** Every aud label of a token is valid UTF-8. *)
Lemma token_aud_ValidString (aud : slice string) (label : string) :
  In label (token_aud aud) -> UTF8.ValidString label = true.
Proof.
  unfold token_aud, coerce_strings. destruct aud as [l|]; [|intros []].
  cbn [option_map elements]. rewrite in_map_iff. intros (x & <- & _).
  apply ValidString_coerce.
Qed.

End ValidFacts.

Module DetailsFacts.

(** [parseTokenDetails] stage by stage: the header is decoded and
    unmarshalled, the claims are decoded and unmarshalled.  A failure
    of one of the first three stages leaves a nil pointer that is
    dereferenced; only the error of the last stage is returned. *)
Lemma parseTokenDetails_stages (h c s : string) :
  Jwts.parseTokenDetails (Some (Jwts.mkTokenChunks h c s)) None
  = match Base64.DecodeString h with
    | (hb, None) =>
        match Json.Unmarshal_Header hb with
        | (hd, None) =>
            match Base64.DecodeString c with
            | (cb, None) =>
                Returns (Some (Jwts.mkTokenDetails hd (fst (Json.Unmarshal_Claims cb))),
                         option_map Jwts.JsonError (snd (Json.Unmarshal_Claims cb)))
            | (_, Some _) => Panics
            end
        | (_, Some _) => Panics
        end
    | (_, Some _) => Panics
    end.
Proof.
  unfold Jwts.parseTokenDetails, Jwts.decodeFromBase64.
  cbn [Jwts.Chunks_Header Jwts.Chunks_Claims].
  destruct (Base64.DecodeString h) as [hb [eh|]]; [reflexivity|].
  cbn [option_map Jwts.unmarshalHeader]. rewrite list_byte_of_string_of_list_byte.
  destruct (Json.Unmarshal_Header hb) as [hd [ehd|]]; [reflexivity|].
  cbn [option_map]. destruct (Base64.DecodeString c) as [cb [ec|]]; [reflexivity|].
  cbn [option_map Jwts.unmarshalClaims]. rewrite list_byte_of_string_of_list_byte.
  destruct (Json.Unmarshal_Claims cb) as [cl ecl]. reflexivity.
Qed.

(** After the details are there, nothing in [VerifyToken] panics. *)
Lemma VerifyToken_details (t h c s : string) (audTarget : option string) (now : Z)
  (details : Jwts.TokenDetails) (e : option Jwts.error) :
  Strings.Split t "." = [h; c; s] ->
  Jwts.parseTokenDetails (Some (Jwts.mkTokenChunks h c s)) None = Returns (Some details, e) ->
  Jwts.VerifyToken (Some t) audTarget None now
  = match e, audTarget with
    | Some x, _ => Returns (false, Some x)
    | None, None => Returns (false, None)
    | None, Some target =>
        if has_label (elements (Aud (Jwts.Details_Claims details))) target
        then Jwts.validateTokenTimes (Some details) None now
        else Returns (false, None)
    end.
Proof.
  intros Hs Hd. unfold Jwts.VerifyToken.
  rewrite (parseTokenChunks_three _ _ _ _ Hs), Hd.
  cbn [bind field_addr]. unfold Jwts.findAudChunk.
  destruct e as [x|]; [reflexivity|]. destruct audTarget as [target|]; [|reflexivity].
  cbn [deref bind]. unfold has_label. destruct (existsb _ _); reflexivity.
Qed.

Lemma validateTokenTimes_no_error (details : Jwts.TokenDetails) (now : Z) :
  exists ok : bool, Jwts.validateTokenTimes (Some details) None now = Returns (ok, None).
Proof.
  unfold Jwts.validateTokenTimes. cbn [deref bind].
  destruct (_ >? 0); [eexists; reflexivity|].
  destruct (Nbf _) as [n|].
  - destruct (_ >=? 0); [eexists; reflexivity|]. destruct (_ >? 0); eexists; reflexivity.
  - destruct (_ >? 0); eexists; reflexivity.
Qed.

End DetailsFacts.

Module JwtxDetailsFacts.

(** [RetrieveTokenDetails] stage by stage.  The fields of
    [TokenDetails] are pointers, so a stage that fails leaves nil
    fields behind and its error goes through the later stages. *)
Lemma RetrieveTokenDetails_stages (t h c s : string) :
  Strings.Split t "." = [h; c; s] ->
  Jwtx.RetrieveTokenDetails (Some t) None
  = Returns
      match Base64.DecodeString h with
      | (_, Some e) => (Some (Jwtx.mkTokenDetails None None), Some (Jwtx.Base64Error e))
      | (hb, None) =>
          match Json.Unmarshal_Header hb with
          | (hd, Some e) =>
              (Some (Jwtx.mkTokenDetails (Some hd) None), Some (Jwtx.JsonError e))
          | (hd, None) =>
              match Base64.DecodeString c with
              | (_, Some e) =>
                  (Some (Jwtx.mkTokenDetails (Some hd) None), Some (Jwtx.Base64Error e))
              | (cb, None) =>
                  (Some (Jwtx.mkTokenDetails (Some hd)
                           (Some (fst (Json.Unmarshal_Claims cb)))),
                   option_map Jwtx.JsonError (snd (Json.Unmarshal_Claims cb)))
              end
          end
      end.
Proof.
  intros Es. unfold Jwtx.RetrieveTokenDetails.
  rewrite (retrieveTokenChunks_three _ _ _ _ Es).
  cbn [bind field_addr Jwtx.Chunks_Header Jwtx.Chunks_Claims].
  unfold Jwtx.decodeFromBase64.
  destruct (Base64.DecodeString h) as [hb [eh|]]; [reflexivity|].
  cbn [option_map Jwtx.unmarshalHeader]. rewrite list_byte_of_string_of_list_byte.
  destruct (Json.Unmarshal_Header hb) as [hd [ehd|]]; [reflexivity|].
  cbn [option_map]. destruct (Base64.DecodeString c) as [cb [ec|]]; [reflexivity|].
  cbn [option_map Jwtx.unmarshalClaims]. rewrite list_byte_of_string_of_list_byte.
  destruct (Json.Unmarshal_Claims cb) as [cl ecl]. reflexivity.
Qed.

(** With details that have claims and no error, nothing in
    [ValidateTokenByWindowAndAud] panics. *)
Lemma window_checks_return (t : string) (hd : option Header) (cl : Claims)
  (target : string) (now : Z) :
  Jwtx.RetrieveTokenDetails (Some t) None
  = Returns (Some (Jwtx.mkTokenDetails hd (Some cl)), None) ->
  exists r : bool * option Jwtx.error,
    Jwtx.ValidateTokenByWindowAndAud (Some t) target None now = Returns r.
Proof.
  intros H. unfold Jwtx.ValidateTokenByWindowAndAud. rewrite H.
  cbn [Jwtx.Details_Claims field_addr bind Jwtx.findAudChunk deref].
  destruct (existsb _ _); cbn [negb]; [|eexists; reflexivity].
  destruct (_ >? 0); [eexists; reflexivity|].
  destruct (Nbf cl) as [n|].
  - destruct (_ >=? 0); [eexists; reflexivity|]. destruct (_ >? 0); eexists; reflexivity.
  - destruct (_ >? 0); eexists; reflexivity.
Qed.

End JwtxDetailsFacts.

(* ================================================================== *)
(** * Further properties of the two packages *)
(* ================================================================== *)

Import LengthFacts ChunkFacts KeyFacts ValidFacts DetailsFacts JwtxDetailsFacts.

(** ** Package jwts *)

(** X1. [CreateToken] never panics.  A nil secret is reported first,
    even when an error was handed in; then the error handed in; then
    nil parameters.  Otherwise the token is the header constant, what
    [createClaims] returns and what [createSignature] returns for the
    two, with dots between them. *)
Theorem X1_CreateToken_outcomes :
  (forall (params : option Jwts.CreateTokenParams) (err : option Jwts.error) (now : Z),
      Jwts.CreateToken params None err now = Returns (None, Some Jwts.errSecretIsNil))
  /\ (forall (params : option Jwts.CreateTokenParams) (key : list byte) (e : Jwts.error)
             (now : Z),
         Jwts.CreateToken params (Some key) (Some e) now = Returns (None, Some e))
  /\ (forall (key : list byte) (now : Z),
         Jwts.CreateToken None (Some key) None now
         = Returns (None, Some Jwts.errNilCreateTokenParams))
  /\ (forall (params : Jwts.CreateTokenParams) (key : list byte) (now : Z),
         exists header claims signature : string,
           Jwts.DefaultHeaderBase64 = Some header
           /\ Jwts.createClaims (Some params) None now = (Some claims, None)
           /\ Jwts.createSignature (Some header) (Some claims) (Some key) None
              = (Some signature, None)
           /\ Jwts.CreateToken (Some params) (Some key) None now
              = Returns (Some (header ++ "." ++ claims ++ "." ++ signature)%string, None)).
Proof.
  split; [reflexivity|]. split; [reflexivity|]. split; [reflexivity|].
  intros p key now. eexists _, _, _.
  split; [apply DefaultHeaderBase64_eq|]. split; [apply createClaims_eq|].
  split; [apply createSignature_eq|]. apply CreateToken_eq.
Qed.

(** X2. [parseTokenChunks] and [retrieveTokenChunks] lose nothing: a
    token is cut into three chunks exactly when it is the three chunks
    with a dot between them and no dot inside them. *)
Theorem X2_parseTokenChunks_rejoin :
  forall t h c s : string,
    (Jwts.parseTokenChunks (Some t) None = (Some (Jwts.mkTokenChunks h c s), None)
     <-> t = (h ++ "." ++ c ++ "." ++ s)%string
         /\ Strings.contains h "." = false /\ Strings.contains c "." = false
         /\ Strings.contains s "." = false)
    /\ (Jwtx.retrieveTokenChunks (Some t) None = (Some (Jwtx.mkTokenChunks h c s), None)
        <-> t = (h ++ "." ++ c ++ "." ++ s)%string
            /\ Strings.contains h "." = false /\ Strings.contains c "." = false
            /\ Strings.contains s "." = false).
Proof.
  intros t h c s.
  assert (A : Jwts.parseTokenChunks (Some t) None = (Some (Jwts.mkTokenChunks h c s), None)
              <-> Strings.Split t "." = [h; c; s]).
  { split; [|apply parseTokenChunks_three].
    unfold Jwts.parseTokenChunks.
    destruct (Strings.Split t ".") as [|a [|b [|d [|x l]]]]; try discriminate.
    intros E. injection E as -> -> ->. reflexivity. }
  assert (B : Jwtx.retrieveTokenChunks (Some t) None = (Some (Jwtx.mkTokenChunks h c s), None)
              <-> Strings.Split t "." = [h; c; s]).
  { split; [|apply retrieveTokenChunks_three].
    unfold Jwtx.retrieveTokenChunks.
    destruct (Strings.Split t ".") as [|a [|b [|d [|x l]]]]; try discriminate.
    intros E. injection E as -> -> ->. reflexivity. }
  assert (R : Strings.Split t "." = [h; c; s]
              <-> t = (h ++ "." ++ c ++ "." ++ s)%string
                  /\ Strings.contains h "." = false /\ Strings.contains c "." = false
                  /\ Strings.contains s "." = false).
  { split.
    - intros H. split; [apply Split_three_inv, H | apply (Split_three_no_dot t), H].
    - intros (-> & Hh & Hc & Hs). now apply Split_three. }
  rewrite A, B. split; exact R.
Qed.

(** X3. What [encodeJSONToBase64] returns, [decodeFromBase64] turns
    back into the JSON text that [json.Marshal] wrote, with a nil
    error; the same holds for the two functions of package jwtx,
    which return the same strings. *)
Theorem X3_decodeFromBase64_encodeJSONToBase64 :
  forall source : any,
  exists encoded64 : string,
    Jwts.encodeJSONToBase64 (Some source) = (Some encoded64, None)
    /\ Jwts.decodeFromBase64 (Some encoded64) None
       = (Some (string_of_list_byte (fst (Json.Marshal source))), None)
    /\ Jwtx.encodeToBase64 (Some source) = (Some encoded64, None)
    /\ Jwtx.decodeFromBase64 (Some encoded64) None
       = (Some (string_of_list_byte (fst (Json.Marshal source))), None).
Proof.
  intros v. exists (encoded v). unfold encoded.
  split; [reflexivity|].
  split; [unfold Jwts.decodeFromBase64; now rewrite DecodeString_EncodeToString|].
  split; [reflexivity|].
  unfold Jwtx.decodeFromBase64; now rewrite DecodeString_EncodeToString.
Qed.

(** X4. [ValidateToken] returns only for a well-formed call: it panics
    exactly when an error is handed in, the token is nil or the token
    does not have three segments.  None of the errors of
    [parseTokenChunks] ever reaches the caller. *)
Theorem X4_ValidateToken_panics_iff :
  forall (token : option string) (secret : option (list byte)) (err : option Jwts.error),
    Jwts.ValidateToken token secret err = Panics
    <-> (err <> None \/ token = None
         \/ exists t : string,
              token = Some t /\ List.length (Strings.Split t ".") <> 3%nat).
Proof.
  intros token secret err. unfold Jwts.ValidateToken.
  destruct (parseTokenChunks_cases token err)
    as [(t & h & c & s & -> & -> & Es & ->) | (e & -> & H)].
  - split.
    + unfold Jwts.validateSignature. cbn [field_addr bind Jwts.Chunks_Header Jwts.Chunks_Claims].
      destruct secret as [key|]; [|discriminate].
      rewrite createSignature_eq. cbn [deref bind].
      destruct (String.eqb _ _); discriminate.
    + intros [N | [N | (t' & E & N)]]; [now elim N | discriminate |].
      injection E as <-. rewrite Es in N. now elim N.
  - split; [intros _; exact H | reflexivity].
Qed.

(** X5. [ValidateToken] looks at nothing but the MAC.  For any header
    and claims segments, decodable or not, the token made of them and
    of what [createSignature] returns for them is accepted under the
    same secret; with any other third segment it is rejected, with a
    nil error; with a nil secret the error is [errSecretIsNil]. *)
Theorem X5_ValidateToken_signed_segments :
  forall (header claims : string) (key : list byte),
    Strings.contains header "." = false ->
    Strings.contains claims "." = false ->
    exists signature : string,
      Jwts.createSignature (Some header) (Some claims) (Some key) None
      = (Some signature, None)
      /\ Jwts.ValidateToken (Some (header ++ "." ++ claims ++ "." ++ signature)%string)
           (Some key) None = Returns (true, None)
      /\ (forall other : string,
             Strings.contains other "." = false -> other <> signature ->
             Jwts.ValidateToken (Some (header ++ "." ++ claims ++ "." ++ other)%string)
               (Some key) None = Returns (false, None))
      /\ (forall other : string,
             Strings.contains other "." = false ->
             Jwts.ValidateToken (Some (header ++ "." ++ claims ++ "." ++ other)%string)
               None None = Returns (false, Some Jwts.errSecretIsNil)).
Proof.
  intros h c key Hh Hc. exists (jwts_signature key h c).
  split; [apply createSignature_eq|].
  assert (V : forall (s : string) (secret : option (list byte)),
             Strings.contains s "." = false ->
             Jwts.ValidateToken (Some (h ++ "." ++ c ++ "." ++ s)%string) secret None
             = Jwts.validateSignature (Some (Jwts.mkTokenChunks h c s)) secret None).
  { intros s secret Hs. unfold Jwts.ValidateToken.
    now rewrite (parseTokenChunks_three _ h c s (Split_three h c s Hh Hc Hs)). }
  split; [|split].
  - rewrite V by apply EncodeToString_no_dot.
    now rewrite validateSignature_eq, String.eqb_refl.
  - intros s Hs N. rewrite V, validateSignature_eq by assumption.
    destruct (String.eqb_spec s (jwts_signature key h c)); [contradiction | reflexivity].
  - intros s Hs. rewrite V by assumption. reflexivity.
Qed.

Lemma X5_ValidateToken_signed_segments_witness :
  Strings.contains "not base64" "." = false
  /\ Strings.contains "{}" "." = false
  /\ exists signature : string,
      Jwts.createSignature (Some "not base64"%string) (Some "{}"%string)
        (Some Examples.secret) None = (Some signature, None)
      /\ Jwts.ValidateToken (Some ("not base64" ++ "." ++ "{}" ++ "." ++ signature)%string)
           (Some Examples.secret) None = Returns (true, None)
      /\ (forall other : string,
             Strings.contains other "." = false -> other <> signature ->
             Jwts.ValidateToken (Some ("not base64" ++ "." ++ "{}" ++ "." ++ other)%string)
               (Some Examples.secret) None = Returns (false, None))
      /\ (forall other : string,
             Strings.contains other "." = false ->
             Jwts.ValidateToken (Some ("not base64" ++ "." ++ "{}" ++ "." ++ other)%string)
               None None = Returns (false, Some Jwts.errSecretIsNil)).
Proof.
  split; [reflexivity|]. split; [reflexivity|].
  apply (X5_ValidateToken_signed_segments "not base64" "{}" Examples.secret); reflexivity.
Defined.

(** X6. [hmac.New] pads a key shorter than the block with zero bytes,
    so package jwts cannot tell a secret from the same secret with
    zero bytes after it (up to 64 bytes in all): [CreateToken] writes
    the same token and [ValidateToken] gives the same verdict. *)
Theorem X6_zero_padded_secret :
  forall (key : list byte) (n : nat),
    (List.length key + n <= 64)%nat ->
    (forall (params : option Jwts.CreateTokenParams) (err : option Jwts.error) (now : Z),
        Jwts.CreateToken params (Some (key ++ repeat (byte_chr 0) n)) err now
        = Jwts.CreateToken params (Some key) err now)
    /\ (forall (token : option string) (err : option Jwts.error),
           Jwts.ValidateToken token (Some (key ++ repeat (byte_chr 0) n)) err
           = Jwts.ValidateToken token (Some key) err).
Proof.
  intros key n H.
  assert (S : forall (h c : option string) (err : option Jwts.error),
             Jwts.createSignature h c (Some (key ++ repeat (byte_chr 0) n)) err
             = Jwts.createSignature h c (Some key) err).
  { intros [h|] [c|] [e|]; try reflexivity.
    unfold Jwts.createSignature. now rewrite HMAC_zero_padded_key. }
  split.
  - intros params err now. unfold Jwts.CreateToken.
    destruct (Jwts.createClaims params err now) as [claims errClaims]. now rewrite S.
  - intros token err. unfold Jwts.ValidateToken, Jwts.validateSignature.
    destruct (Jwts.parseTokenChunks token err) as [[chunks|] e]; [|reflexivity].
    cbn [field_addr bind]. now rewrite S.
Qed.

Lemma X6_zero_padded_secret_witness :
  (List.length Examples.secret + 2 <= 64)%nat
  /\ (forall (params : option Jwts.CreateTokenParams) (err : option Jwts.error) (now : Z),
         Jwts.CreateToken params (Some (Examples.secret ++ repeat (byte_chr 0) 2)) err now
         = Jwts.CreateToken params (Some Examples.secret) err now)
  /\ (forall (token : option string) (err : option Jwts.error),
         Jwts.ValidateToken token (Some (Examples.secret ++ repeat (byte_chr 0) 2)) err
         = Jwts.ValidateToken token (Some Examples.secret) err).
Proof.
  split; [simpl; lia|].
  apply (X6_zero_padded_secret Examples.secret 2). simpl; lia.
Defined.

(** X7. [VerifyToken] returns exactly when no error is handed in, the
    token has three segments, the header segment decodes and
    unmarshals and the claims segment decodes.  In every other case
    it panics: a nil pointer is dereferenced before the error is
    looked at. *)
Theorem X7_VerifyToken_returns_iff :
  forall (token audTarget : option string) (err : option Jwts.error) (now : Z),
    (exists r : bool * option Jwts.error,
        Jwts.VerifyToken token audTarget err now = Returns r)
    <-> (err = None
         /\ exists t header claims signature : string,
              token = Some t
              /\ Strings.Split t "." = [header; claims; signature]
              /\ snd (Base64.DecodeString header) = None
              /\ snd (Json.Unmarshal_Header (fst (Base64.DecodeString header))) = None
              /\ snd (Base64.DecodeString claims) = None).
Proof.
  intros token tgt err now.
  destruct (parseTokenChunks_cases token err)
    as [(t & h & c & s & -> & -> & Es & Ep) | (e & Ep & H)].
  - pose proof (parseTokenDetails_stages h c s) as St.
    split.
    + intros (r & Hr). split; [reflexivity|]. exists t, h, c, s.
      split; [reflexivity|]. split; [exact Es|].
      unfold Jwts.VerifyToken in Hr. rewrite Ep, St in Hr.
      destruct (Base64.DecodeString h) as [hb [eh|]]; [discriminate|].
      cbn [fst snd]. destruct (Json.Unmarshal_Header hb) as [hd [ehd|]]; [discriminate|].
      destruct (Base64.DecodeString c) as [cb [ec|]]; [discriminate|]. auto.
    + intros (_ & t' & h' & c' & s' & Et & Es' & Hh & Hhd & Hc).
      injection Et as <-. rewrite Es in Es'. injection Es' as <- <- <-.
      destruct (Base64.DecodeString h) as [hb eh]. cbn [fst snd] in *. subst eh.
      destruct (Json.Unmarshal_Header hb) as [hd ehd]. cbn [snd] in *. subst ehd.
      destruct (Base64.DecodeString c) as [cb ec]. cbn [snd] in *. subst ec.
      rewrite (VerifyToken_details _ _ _ _ tgt now _ _ Es St).
      destruct (option_map _ _); [eexists; reflexivity|].
      destruct tgt as [target|]; [|eexists; reflexivity].
      destruct (has_label _ _); [|eexists; reflexivity].
      destruct (validateTokenTimes_no_error
                  (Jwts.mkTokenDetails hd (fst (Json.Unmarshal_Claims cb))) now) as (ok & ->).
      eexists; reflexivity.
  - split.
    + intros (r & Hr). unfold Jwts.VerifyToken in Hr. rewrite Ep in Hr. discriminate.
    + intros (-> & t & h & c & s & -> & Es & _).
      destruct H as [N | [N | (t' & E & N)]]; [now elim N | discriminate |].
      injection E as <-. rewrite Es in N. now elim N.
Qed.

(** X8. The only error [VerifyToken] ever returns is the error of
    unmarshalling the claims, and it comes with [false]: no error of
    the package, no base64 error and no error handed in is returned. *)
Theorem X8_VerifyToken_error_is_claims_error :
  forall (token audTarget : option string) (err : option Jwts.error) (now : Z)
         (ok : bool) (e : Jwts.error),
    Jwts.VerifyToken token audTarget err now = Returns (ok, Some e) ->
    ok = false
    /\ exists (t header claims signature : string) (cause : Json.error),
         token = Some t
         /\ Strings.Split t "." = [header; claims; signature]
         /\ snd (Json.Unmarshal_Claims (fst (Base64.DecodeString claims))) = Some cause
         /\ e = Jwts.JsonError cause.
Proof.
  intros token tgt err now ok e H.
  destruct (parseTokenChunks_cases token err)
    as [(t & h & c & s & -> & -> & Es & Ep) | (x & Ep & _)].
  2:{ unfold Jwts.VerifyToken in H. rewrite Ep in H. discriminate. }
  pose proof (parseTokenDetails_stages h c s) as St.
  destruct (Base64.DecodeString h) as [hb [eh|]];
    [unfold Jwts.VerifyToken in H; rewrite Ep, St in H; discriminate|].
  destruct (Json.Unmarshal_Header hb) as [hd [ehd|]];
    [unfold Jwts.VerifyToken in H; rewrite Ep, St in H; discriminate|].
  destruct (Base64.DecodeString c) as [cb [ec|]] eqn:Ec;
    [unfold Jwts.VerifyToken in H; rewrite Ep, St in H; discriminate|].
  rewrite (VerifyToken_details _ _ _ _ tgt now _ _ Es St) in H.
  destruct (snd (Json.Unmarshal_Claims cb)) as [cause|] eqn:Ecl; cbn [option_map] in H.
  - injection H as <- <-. split; [reflexivity|]. exists t, h, c, s, cause.
    rewrite Ec. auto.
  - destruct tgt as [target|]; [|discriminate].
    destruct (has_label _ _); [|discriminate].
    destruct (validateTokenTimes_no_error
                (Jwts.mkTokenDetails hd (fst (Json.Unmarshal_Claims cb))) now) as (b & Eb).
    rewrite Eb in H. discriminate.
Qed.

Lemma X8_VerifyToken_error_is_claims_error_witness :
  Jwts.VerifyToken (Some (header64 ++ "." ++ "ew" ++ "." ++ "x")%string) (Some "svc"%string)
    None 1700000000 = Returns (false, Some (Jwts.JsonError Json.SyntaxError))
  /\ false = false
  /\ exists (t header claims signature : string) (cause : Json.error),
       Some (header64 ++ "." ++ "ew" ++ "." ++ "x")%string = Some t
       /\ Strings.Split t "." = [header; claims; signature]
       /\ snd (Json.Unmarshal_Claims (fst (Base64.DecodeString claims))) = Some cause
       /\ Jwts.JsonError Json.SyntaxError = Jwts.JsonError cause.
Proof.
  split; [vm_compute; reflexivity|].
  apply (X8_VerifyToken_error_is_claims_error
           (Some (header64 ++ "." ++ "ew" ++ "." ++ "x")%string) (Some "svc"%string)
           None 1700000000 false (Jwts.JsonError Json.SyntaxError)).
  vm_compute; reflexivity.
Defined.

(** X9. What acceptance by [VerifyToken] means, for any token: no
    error was handed in and none is returned, the token has three
    segments that decode to details, the target is one of the aud
    labels of the decoded claims, and the three int64 differences the
    code computes have the signs it tests.  A nil target is never
    accepted. *)
Theorem X9_VerifyToken_true_means :
  forall (token audTarget : option string) (err e : option Jwts.error) (now : Z),
    Jwts.VerifyToken token audTarget err now = Returns (true, e) ->
    e = None /\ err = None
    /\ exists (t target header claims signature : string) (details : Jwts.TokenDetails),
         token = Some t /\ audTarget = Some target
         /\ Strings.Split t "." = [header; claims; signature]
         /\ Jwts.parseTokenDetails (Some (Jwts.mkTokenChunks header claims signature)) None
            = Returns (Some details, None)
         /\ In target (elements (Aud (Jwts.Details_Claims details)))
         /\ sub64 (Iat (Jwts.Details_Claims details)) now <= 0
         /\ (forall n : Z, Nbf (Jwts.Details_Claims details) = Some n -> sub64 n now < 0)
         /\ 0 < sub64 (Exp (Jwts.Details_Claims details)) now.
Proof.
  intros token tgt err e now H.
  destruct (parseTokenChunks_cases token err)
    as [(t & h & c & s & -> & -> & Es & Ep) | (x & Ep & _)].
  2:{ unfold Jwts.VerifyToken in H. rewrite Ep in H. discriminate. }
  destruct (Jwts.parseTokenDetails (Some (Jwts.mkTokenChunks h c s)) None)
    as [[[details|] ed]|] eqn:Ed;
    try (unfold Jwts.VerifyToken in H; rewrite Ep, Ed in H; discriminate).
  rewrite (VerifyToken_details _ _ _ _ tgt now _ _ Es Ed) in H.
  destruct ed as [x|]; [discriminate|]. destruct tgt as [target|]; [|discriminate].
  destruct (has_label _ target) eqn:Hl; [|discriminate]. apply has_label_In in Hl.
  unfold Jwts.validateTokenTimes in H. cbn [deref bind] in H.
  destruct (Z.gtb_spec (sub64 (Iat (Jwts.Details_Claims details)) now) 0) as [|Hi];
    [discriminate|].
  assert (He : e = None /\ 0 < sub64 (Exp (Jwts.Details_Claims details)) now
               /\ forall n, Nbf (Jwts.Details_Claims details) = Some n -> sub64 n now < 0).
  { destruct (Nbf (Jwts.Details_Claims details)) as [n|].
    - destruct (Z.geb_spec (sub64 n now) 0) as [|Hn]; [discriminate|].
      destruct (Z.gtb_spec (sub64 (Exp (Jwts.Details_Claims details)) now) 0);
        [|discriminate].
      injection H as <-. split; [reflexivity|]. split; [lia|].
      intros m E. injection E as <-. exact Hn.
    - destruct (Z.gtb_spec (sub64 (Exp (Jwts.Details_Claims details)) now) 0);
        [|discriminate].
      injection H as <-. split; [reflexivity|]. split; [lia | discriminate]. }
  destruct He as (-> & Hexp & Hnbf).
  split; [reflexivity|]. split; [reflexivity|].
  exists t, target, h, c, s, details. repeat split; auto.
Qed.

Lemma X9_VerifyToken_true_means_witness :
  Jwts.VerifyToken (Some Examples.token) (Some "svc"%string) None 1700000001
  = Returns (true, None)
  /\ exists (t target header claims signature : string) (details : Jwts.TokenDetails),
       Some Examples.token = Some t /\ Some "svc"%string = Some target
       /\ Strings.Split t "." = [header; claims; signature]
       /\ Jwts.parseTokenDetails (Some (Jwts.mkTokenChunks header claims signature)) None
          = Returns (Some details, None)
       /\ In target (elements (Aud (Jwts.Details_Claims details)))
       /\ sub64 (Iat (Jwts.Details_Claims details)) 1700000001 <= 0
       /\ (forall n : Z, Nbf (Jwts.Details_Claims details) = Some n ->
                         sub64 n 1700000001 < 0)
       /\ 0 < sub64 (Exp (Jwts.Details_Claims details)) 1700000001.
Proof.
  split; [vm_compute; reflexivity|].
  apply (X9_VerifyToken_true_means (Some Examples.token) (Some "svc"%string) None None
           1700000001).
  vm_compute; reflexivity.
Defined.

(** X10. [VerifyToken] never looks at the fields of the header: two
    tokens with the same claims segment whose header segments both
    decode and unmarshal get the same outcome, whatever [alg] and
    [typ] say. *)
Theorem X10_VerifyToken_ignores_header_fields :
  forall (t1 t2 header1 header2 claims signature1 signature2 : string)
         (audTarget : option string) (now : Z),
    Strings.Split t1 "." = [header1; claims; signature1] ->
    Strings.Split t2 "." = [header2; claims; signature2] ->
    snd (Base64.DecodeString header1) = None ->
    snd (Json.Unmarshal_Header (fst (Base64.DecodeString header1))) = None ->
    snd (Base64.DecodeString header2) = None ->
    snd (Json.Unmarshal_Header (fst (Base64.DecodeString header2))) = None ->
    Jwts.VerifyToken (Some t1) audTarget None now
    = Jwts.VerifyToken (Some t2) audTarget None now.
Proof.
  intros t1 t2 h1 h2 c s1 s2 tgt now E1 E2 A1 B1 A2 B2.
  pose proof (parseTokenDetails_stages h1 c s1) as St1.
  pose proof (parseTokenDetails_stages h2 c s2) as St2.
  destruct (Base64.DecodeString h1) as [hb1 e1]. cbn [fst snd] in *. subst e1.
  destruct (Json.Unmarshal_Header hb1) as [hd1 x1]. cbn [snd] in *. subst x1.
  destruct (Base64.DecodeString h2) as [hb2 e2]. cbn [fst snd] in *. subst e2.
  destruct (Json.Unmarshal_Header hb2) as [hd2 x2]. cbn [snd] in *. subst x2.
  destruct (Base64.DecodeString c) as [cb [ec|]].
  - unfold Jwts.VerifyToken.
    rewrite (parseTokenChunks_three _ _ _ _ E1), (parseTokenChunks_three _ _ _ _ E2).
    now rewrite St1, St2.
  - rewrite (VerifyToken_details _ _ _ _ tgt now _ _ E1 St1).
    rewrite (VerifyToken_details _ _ _ _ tgt now _ _ E2 St2).
    reflexivity.
Qed.

Lemma X10_VerifyToken_ignores_header_fields_witness :
  Strings.Split Examples.token "."
  = [ Examples.header_segment; Examples.claims_segment;
      "HF8jZR7wKgrDiwf5Sm4M+GdxHJVtiheOYKx71R14kMA"%string ]
  /\ Strings.Split ("eyJhbGciOiJub25lIn0" ++ "." ++ Examples.claims_segment ++ "." ++ "x") "."
     = ["eyJhbGciOiJub25lIn0"%string; Examples.claims_segment; "x"%string]
  /\ Jwts.VerifyToken (Some Examples.token) (Some "svc"%string) None 1700000001
     = Jwts.VerifyToken
         (Some ("eyJhbGciOiJub25lIn0" ++ "." ++ Examples.claims_segment ++ "." ++ "x")%string)
         (Some "svc"%string) None 1700000001.
Proof.
  split; [reflexivity|]. split; [reflexivity|].
  apply (X10_VerifyToken_ignores_header_fields Examples.token
           ("eyJhbGciOiJub25lIn0" ++ "." ++ Examples.claims_segment ++ "." ++ "x")
           Examples.header_segment "eyJhbGciOiJub25lIn0" Examples.claims_segment
           "HF8jZR7wKgrDiwf5Sm4M+GdxHJVtiheOYKx71R14kMA" "x");
    vm_compute; reflexivity.
Defined.

(** X11. The window of [validateTokenTimes] for any decoded claims
    whose times are not negative: it never returns an error, and it
    returns true exactly when [iat <= now], [nbf < now] if there is an
    [nbf], and [now < exp].  Claims without [nbf] skip the second
    test. *)
Theorem X11_validateTokenTimes_window :
  forall (header : Header) (claims : Claims) (now : Z),
    plain_time (Iat claims) -> plain_time (Exp claims) ->
    (forall n : Z, Nbf claims = Some n -> plain_time n) ->
    plain_time now ->
    exists ok : bool,
      Jwts.validateTokenTimes (Some (Jwts.mkTokenDetails header claims)) None now
      = Returns (ok, None)
      /\ (ok = true
          <-> Iat claims <= now
              /\ (forall n : Z, Nbf claims = Some n -> n < now)
              /\ now < Exp claims).
Proof.
  intros h c now Hi He Hn Hnow.
  rewrite validateTokenTimes_plain by assumption.
  eexists. split; [reflexivity|].
  rewrite !andb_true_iff, Z.leb_le, Z.ltb_lt.
  destruct (Nbf c) as [n|].
  - rewrite Z.ltb_lt. split.
    + intros ((A & B) & C). repeat split; try assumption.
      intros m E. now injection E as <-.
    + intros (A & B & C). repeat split; auto.
  - split.
    + intros ((A & _) & C). repeat split; try assumption. discriminate.
    + intros (A & _ & C). auto.
Qed.

Lemma X11_validateTokenTimes_window_witness :
  plain_time 100 /\ plain_time 200 /\ plain_time 150
  /\ exists ok : bool,
      Jwts.validateTokenTimes
        (Some (Jwts.mkTokenDetails (mkHeader "none" "JWT")
                 (mkClaims None 200 100 "x" None "y"))) None 150
      = Returns (ok, None)
      /\ (ok = true
          <-> 100 <= 150
              /\ (forall n : Z, None = Some n -> n < 150)
              /\ 150 < 200).
Proof.
  split; [plain|]. split; [plain|]. split; [plain|].
  apply (X11_validateTokenTimes_window (mkHeader "none" "JWT") (mkClaims None 200 100 "x" None "y")
           150); cbn [Iat Exp Nbf]; try plain.
  discriminate.
Defined.

(** X12. The verdict of [VerifyToken] on a token of [CreateToken] is
    decided by the time that has passed since its creation: it is
    accepted exactly when the target is an aud label, more than
    [delay] seconds have passed (if a delay was given) and fewer than
    [lifetime].  This holds also when [created + lifetime] or
    [created + delay] does not fit an int64 and the stored [exp] or
    [nbf] wrapped around: the differences are taken modulo 2^64 as
    well. *)
Theorem X12_VerifyToken_elapsed_time :
  forall (aud : slice string) (iss sub : string) (lifetime : Z) (delay : option Z)
         (secret : list byte) (created now : Z) (target : string),
    0 < created -> created <= now <= max_int64 ->
    0 <= lifetime <= max_int64 ->
    (forall d : Z, delay = Some d -> 0 <= d <= max_int64) ->
    exists token : string,
      Jwts.CreateToken (Some (Jwts.mkCreateTokenParams aud iss sub lifetime delay))
        (Some secret) None created = Returns (Some token, None)
      /\ Jwts.VerifyToken (Some token) (Some target) None now
         = Returns (has_label (token_aud aud) target
                    && match delay with
                       | Some d => d <? now - created
                       | None => true
                       end
                    && (now - created <? lifetime), None).
Proof.
  intros aud iss sub lifetime delay secret t0 now target H0 Hnow Hl Hd.
  eexists. split; [apply CreateToken_eq|].
  assert (I : is_int64 t0 = true).
  { unfold is_int64, min_int64, max_int64 in *. apply andb_true_iff.
    split; apply Z.leb_le; lia. }
  rewrite VerifyToken_created by exact I. cbn [Jwts.Params_Aud].
  destruct (has_label (token_aud aud) target); [|reflexivity]. cbn [andb].
  unfold Jwts.validateTokenTimes, jwts_claims, claims_of, coerce_Claims.
  cbn [deref bind Jwts.Details_Claims Jwts.Params_Aud Jwts.Params_Iss Jwts.Params_Sub
         Jwts.Params_Lifetime Jwts.Params_Delay Aud Exp Iat Iss Nbf Sub].
  assert (Ei : sub64 t0 now = t0 - now).
  { unfold sub64. apply wrap64_small. unfold min_int64, max_int64 in *. lia. }
  assert (Ee : sub64 (add64 t0 lifetime) now = t0 + lifetime - now).
  { apply sub64_add64. unfold min_int64, max_int64 in *. lia. }
  rewrite Ei, Ee.
  destruct (Z.gtb_spec (t0 - now) 0); [lia|].
  destruct delay as [d|].
  - specialize (Hd d eq_refl).
    assert (En : sub64 (add64 t0 d) now = t0 + d - now).
    { apply sub64_add64. unfold min_int64, max_int64 in *. lia. }
    rewrite En.
    destruct (Z.geb_spec (t0 + d - now) 0), (Z.ltb_spec d (now - t0)); try lia;
      [reflexivity|].
    destruct (Z.gtb_spec (t0 + lifetime - now) 0), (Z.ltb_spec (now - t0) lifetime);
      try lia; reflexivity.
  - assert (En : sub64 0 now = - now).
    { unfold sub64. apply wrap64_small. unfold min_int64, max_int64 in *. lia. }
    rewrite En. destruct (Z.geb_spec (- now) 0); [lia|].
    destruct (Z.gtb_spec (t0 + lifetime - now) 0), (Z.ltb_spec (now - t0) lifetime);
      try lia; reflexivity.
Qed.

Lemma X12_VerifyToken_elapsed_time_witness :
  0 < 1700000000 /\ 1700000000 <= 1700000100 <= max_int64
  /\ 0 <= max_int64 <= max_int64
  /\ exists token : string,
      Jwts.CreateToken
        (Some (Jwts.mkCreateTokenParams (Some ["svc"%string]) "x" "y" max_int64 (Some 60)))
        (Some Examples.secret) None 1700000000 = Returns (Some token, None)
      /\ Jwts.VerifyToken (Some token) (Some "svc"%string) None 1700000100
         = Returns (has_label (token_aud (Some ["svc"%string])) "svc"
                    && (60 <? 1700000100 - 1700000000)
                    && (1700000100 - 1700000000 <? max_int64), None).
Proof.
  split; [lia|]. split; [unfold max_int64; lia|]. split; [unfold max_int64; lia|].
  apply (X12_VerifyToken_elapsed_time (Some ["svc"%string]) "x" "y" max_int64 (Some 60)
           Examples.secret 1700000000 1700000100 "svc");
    try (unfold max_int64; lia).
  intros d E. injection E as <-. unfold max_int64; lia.
Defined.

(** X13. A token of [CreateToken] is never verified without an
    audience: for a nil target, and for any target when the
    parameters had a nil or empty aud list, [VerifyToken] returns
    false with a nil error at every time. *)
Theorem X13_VerifyToken_without_audience :
  forall (aud : slice string) (iss sub : string) (lifetime : Z) (delay : option Z)
         (secret : list byte) (created : Z),
    is_int64 created = true ->
    exists token : string,
      Jwts.CreateToken (Some (Jwts.mkCreateTokenParams aud iss sub lifetime delay))
        (Some secret) None created = Returns (Some token, None)
      /\ (forall now : Z, Jwts.VerifyToken (Some token) None None now = Returns (false, None))
      /\ (elements aud = [] ->
          forall (target : string) (now : Z),
            Jwts.VerifyToken (Some token) (Some target) None now = Returns (false, None)).
Proof.
  intros aud iss sub lifetime delay secret t0 Hc.
  set (p := Jwts.mkCreateTokenParams aud iss sub lifetime delay).
  exists (jwts_token p secret t0). split; [apply CreateToken_eq|]. split.
  - intros now. unfold Jwts.VerifyToken.
    rewrite (parseTokenChunks_three _ _ _ _ (Split_jwts_token p secret t0)).
    rewrite parseTokenDetails_encoded by (apply int64_claims_of; assumption).
    reflexivity.
  - intros He target now. rewrite VerifyToken_created by exact Hc.
    subst p. cbn [Jwts.Params_Aud]. unfold token_aud, coerce_strings.
    destruct aud as [l|]; [|reflexivity]. cbn [elements] in He. subst l. reflexivity.
Qed.

Lemma X13_VerifyToken_without_audience_witness :
  is_int64 1700000000 = true
  /\ exists token : string,
      Jwts.CreateToken (Some (Jwts.mkCreateTokenParams None "x" "y" 3600 None))
        (Some Examples.secret) None 1700000000 = Returns (Some token, None)
      /\ (forall now : Z, Jwts.VerifyToken (Some token) None None now = Returns (false, None))
      /\ (elements (@None (list string)) = [] ->
          forall (target : string) (now : Z),
            Jwts.VerifyToken (Some token) (Some target) None now = Returns (false, None)).
Proof.
  split; [reflexivity|].
  apply (X13_VerifyToken_without_audience None "x" "y" 3600 None Examples.secret 1700000000).
  reflexivity.
Defined.

(** X14. An audience label that is not valid UTF-8 does not survive
    the token: [json.Marshal] replaces its invalid bytes, so
    [VerifyToken] returns false for such a target on every token of
    [CreateToken], also when the very same label was in the aud list
    of the parameters. *)
Theorem X14_VerifyToken_invalid_utf8_target :
  forall (aud : slice string) (iss sub : string) (lifetime : Z) (delay : option Z)
         (secret : list byte) (created now : Z) (target : string),
    is_int64 created = true ->
    UTF8.ValidString target = false ->
    exists token : string,
      Jwts.CreateToken (Some (Jwts.mkCreateTokenParams aud iss sub lifetime delay))
        (Some secret) None created = Returns (Some token, None)
      /\ Jwts.VerifyToken (Some token) (Some target) None now = Returns (false, None).
Proof.
  intros aud iss sub lifetime delay secret t0 now target Hc Hv.
  eexists. split; [apply CreateToken_eq|].
  rewrite VerifyToken_created by exact Hc. cbn [Jwts.Params_Aud].
  destruct (has_label (token_aud aud) target) eqn:E; [|reflexivity].
  apply has_label_In, token_aud_ValidString in E. congruence.
Qed.

Lemma X14_VerifyToken_invalid_utf8_target_witness :
  is_int64 1700000000 = true
  /\ UTF8.ValidString (String (chr 255) "svc") = false
  /\ exists token : string,
      Jwts.CreateToken
        (Some (Jwts.mkCreateTokenParams (Some [String (chr 255) "svc"]) "x" "y" 3600 None))
        (Some Examples.secret) None 1700000000 = Returns (Some token, None)
      /\ Jwts.VerifyToken (Some token) (Some (String (chr 255) "svc")) None 1700000001
         = Returns (false, None).
Proof.
  split; [reflexivity|]. split; [reflexivity|].
  apply (X14_VerifyToken_invalid_utf8_target (Some [String (chr 255) "svc"]) "x" "y" 3600 None
           Examples.secret 1700000000 1700000001 (String (chr 255) "svc")); reflexivity.
Defined.

(** ** Package jwtx *)

(** X15. [CreateJWT] and [CreateJWTFromSecret] hand an incoming error
    back and [CreateJWTFromSecret] reports a nil secret, but nil
    parameters make both panic: [errNilCreateParams] is computed, and
    the nil claims are dereferenced before it is returned.  With
    parameters both return a payload and a nil error. *)
Theorem X15_CreateJWT_outcomes :
  forall (source : Jwtx.Rand) (now : Z),
    (forall (params : option Jwtx.CreateJWTParams) (secret : option (list byte))
            (e : Jwtx.error),
        Jwtx.CreateJWT params (Some e) source now = Returns (None, Some e)
        /\ Jwtx.CreateJWTFromSecret params secret (Some e) source now = Returns (None, Some e))
    /\ (forall params : option Jwtx.CreateJWTParams,
           Jwtx.CreateJWTFromSecret params None None source now
           = Returns (None, Some Jwtx.errSecretIsNil))
    /\ Jwtx.createJWTClaims None None now = (None, Some Jwtx.errNilCreateParams)
    /\ Jwtx.CreateJWT None None source now = Panics
    /\ (forall key : list byte,
           Jwtx.CreateJWTFromSecret None (Some key) None source now = Panics)
    /\ (forall (params : Jwtx.CreateJWTParams) (key : list byte),
           exists payload : Jwtx.TokenPayload,
             Jwtx.CreateJWT (Some params) None source now = Returns (Some payload, None)
             /\ Jwtx.CreateJWTFromSecret (Some params) (Some key) None source now
                = Returns (Some payload, None)).
Proof.
  intros source now.
  split; [intros; split; reflexivity|]. split; [reflexivity|]. split; [reflexivity|].
  split; [reflexivity|]. split; [reflexivity|].
  intros p key. eexists. rewrite CreateJWTFromSecret_CreateJWT.
  split; apply CreateJWT_eq.
Qed.

(** X16. [ValidateJWT] returns an error only for an error handed in or
    a nil payload.  For a payload it panics exactly when the token is
    nil, the token does not have three segments or the secret is nil:
    [errTokenIsNil], [errInvalidToken] and [errSecretIsNil] are
    computed but the nil signature is dereferenced first.  Otherwise
    it compares the third segment with the signature of the first
    two. *)
Theorem X16_ValidateJWT_outcomes :
  (forall (payload : option Jwtx.TokenPayload) (e : Jwtx.error),
      Jwtx.ValidateJWT payload (Some e) = Returns (false, Some e))
  /\ Jwtx.ValidateJWT None None = Returns (false, Some Jwtx.errTokenPayloadIsNil)
  /\ forall payload : Jwtx.TokenPayload,
       (Jwtx.ValidateJWT (Some payload) None = Panics
        <-> (Jwtx.Payload_Token payload = None
             \/ (exists t : string,
                    Jwtx.Payload_Token payload = Some t
                    /\ List.length (Strings.Split t ".") <> 3%nat)
             \/ Jwtx.Payload_Secret payload = None))
       /\ forall (t header claims signature : string) (key : list byte),
            Jwtx.Payload_Token payload = Some t ->
            Jwtx.Payload_Secret payload = Some key ->
            Strings.Split t "." = [header; claims; signature] ->
            exists expected : string,
              Jwtx.generateSignature (Some header) (Some claims) (Some key) None
              = (Some expected, None)
              /\ Jwtx.ValidateJWT (Some payload) None
                 = Returns (String.eqb expected signature, None).
Proof.
  split; [reflexivity|]. split; [reflexivity|].
  intros [token secret sig]. cbn [Jwtx.Payload_Token Jwtx.Payload_Secret]. split.
  - unfold Jwtx.ValidateJWT. cbn [Jwtx.Payload_Token Jwtx.Payload_Secret].
    destruct (retrieveTokenChunks_cases token None)
      as [(t & h & c & s & _ & -> & Es & ->) | (e & -> & H)].
    + cbn [field_addr bind Jwtx.Chunks_Header Jwtx.Chunks_Claims].
      destruct secret as [key|].
      * rewrite generateSignature_eq. cbn [deref bind]. split; [discriminate|].
        intros [N | [(t' & E & N) | N]]; try discriminate.
        injection E as <-. rewrite Es in N. now elim N.
      * split; [intros _; right; right; reflexivity | reflexivity].
    + split; [|reflexivity]. intros _.
      destruct H as [N | [N | H]]; [now elim N | left; exact N | right; left; exact H].
  - intros t h c s key -> -> Es. exists (jwtx_signature key h c).
    split; [apply generateSignature_eq | apply (ValidateJWT_eq _ _ _ _ _ _ Es)].
Qed.

(** X17. The 128 random bytes of [CreateJWT] are longer than the block
    of SHA-256, so [hmac.New] replaces them by their digest: the
    payload also validates with the 32 bytes of the digest in the
    place of its secret. *)
Theorem X17_ValidateJWT_accepts_digest_of_secret :
  forall (params : Jwtx.CreateJWTParams) (source : Jwtx.Rand) (now : Z),
  exists (token signature : string) (secret : list byte),
    Jwtx.CreateJWT (Some params) None source now
    = Returns (Some (Jwtx.mkTokenPayload (Some token) (Some secret) (Some signature)), None)
    /\ List.length secret = 128%nat
    /\ List.length (SHA256.Sum256 secret) = 32%nat
    /\ Jwtx.ValidateJWT
         (Some (Jwtx.mkTokenPayload (Some token) (Some (SHA256.Sum256 secret))
                  (Some signature))) None
       = Returns (true, None).
Proof.
  intros p source now. eexists _, _, _. split; [apply CreateJWT_eq|].
  assert (L : List.length (generated source) = 128%nat).
  { unfold generated. now rewrite length_map, length_seq. }
  split; [exact L|]. split; [apply length_Sum256|].
  rewrite (ValidateJWT_eq _ _ _ _ _ _ (Split_jwtx_token p (generated source) now)).
  unfold jwtx_signature, mac. rewrite HMAC_long_key.
  - now rewrite String.eqb_refl.
  - rewrite L. unfold SHA256.BlockSize. lia.
Qed.



(** X19. Round trip of package jwtx: [RetrieveTokenDetails] gives back
    the header constant and the claims [CreateJWT] wrote: the aud
    list, issuer and subject of the parameters when they are valid
    UTF-8, the clock as [iat], the wrapped sums as [exp] and [nbf]
    ([nbf] pointing at 0 when no delay was given). *)
Theorem X19_RetrieveTokenDetails_CreateJWT :
  forall (aud : slice string) (iss sub : string) (lifetime : Z) (delay : option Z)
         (source : Jwtx.Rand) (now : Z),
    is_int64 now = true ->
    UTF8.ValidString iss = true ->
    UTF8.ValidString sub = true ->
    Forall (fun label => UTF8.ValidString label = true) (elements aud) ->
    exists payload : Jwtx.TokenPayload,
      Jwtx.CreateJWT (Some (Jwtx.mkCreateJWTParams aud iss sub lifetime delay))
        None source now = Returns (Some payload, None)
      /\ Jwtx.RetrieveTokenDetails (Jwtx.Payload_Token payload) None
         = Returns
             (Some (Jwtx.mkTokenDetails
                      (Some (mkHeader "HS256" "JWT"))
                      (Some (mkClaims aud (add64 now lifetime) now iss
                               (Some match delay with
                                     | Some d => add64 now d
                                     | None => 0
                                     end) sub))), None).
Proof.
  intros aud iss sub lifetime delay source now Hn Hi Hs Ha.
  eexists. split; [apply CreateJWT_eq|]. cbn [Jwtx.Payload_Token].
  rewrite RetrieveTokenDetails_created by assumption.
  unfold jwtx_claims, claims_of, coerce_Claims.
  cbn [Jwtx.Params_Aud Jwtx.Params_Iss Jwtx.Params_Sub Jwtx.Params_Lifetime
         Jwtx.Params_Delay Aud Exp Iat Iss Nbf Sub].
  rewrite (coerce_strings_valid aud Ha).
  now rewrite (CoerceFacts.coerce_valid iss Hi), (CoerceFacts.coerce_valid sub Hs).
Qed.

Lemma X19_RetrieveTokenDetails_CreateJWT_witness :
  is_int64 1700000000 = true
  /\ exists payload : Jwtx.TokenPayload,
      Jwtx.CreateJWT
        (Some (Jwtx.mkCreateJWTParams (Some ["svc"; "admin"]%string) "issuer" "subject"
                 3600 (Some 60)))
        None Examples.source 1700000000 = Returns (Some payload, None)
      /\ Jwtx.RetrieveTokenDetails (Jwtx.Payload_Token payload) None
         = Returns
             (Some (Jwtx.mkTokenDetails
                      (Some (mkHeader "HS256" "JWT"))
                      (Some (mkClaims (Some ["svc"; "admin"]%string)
                               (add64 1700000000 3600) 1700000000 "issuer"
                               (Some (add64 1700000000 60)) "subject"))), None).
Proof.
  split; [reflexivity|].
  apply (X19_RetrieveTokenDetails_CreateJWT (Some ["svc"; "admin"]%string) "issuer" "subject"
           3600 (Some 60) Examples.source 1700000000); try reflexivity.
  repeat constructor.
Defined.

(** X20. [ValidateTokenByWindowAndAud] panics exactly when it is given,
    with a nil error, a token that does not have three segments.  For
    a nil token, an error handed in or a segment that does not decode
    it returns. *)
Theorem X20_ValidateTokenByWindowAndAud_panics_iff :
  forall (token : option string) (audTarget : string) (err : option Jwtx.error) (now : Z),
    Jwtx.ValidateTokenByWindowAndAud token audTarget err now = Panics
    <-> (err = None
         /\ exists t : string,
              token = Some t /\ List.length (Strings.Split t ".") <> 3%nat).
Proof.
  intros token target err now.
  destruct err as [e|]; [split; [discriminate | intros (N & _); discriminate]|].
  destruct token as [t|];
    [|split; [discriminate | intros (_ & t & N & _); discriminate]].
  destruct (retrieveTokenChunks_cases (Some t) None)
    as [(t' & h & c & s & _ & Et & Es & _) | (e & Ep & H)].
  - injection Et as <-. split.
    + pose proof (RetrieveTokenDetails_stages _ _ _ _ Es) as St.
      destruct (Base64.DecodeString h) as [hb [eh|]];
        [unfold Jwtx.ValidateTokenByWindowAndAud; rewrite St; discriminate|].
      destruct (Json.Unmarshal_Header hb) as [hd [ehd|]];
        [unfold Jwtx.ValidateTokenByWindowAndAud; rewrite St; discriminate|].
      destruct (Base64.DecodeString c) as [cb [ec|]];
        [unfold Jwtx.ValidateTokenByWindowAndAud; rewrite St; discriminate|].
      destruct (snd (Json.Unmarshal_Claims cb)); cbn [option_map] in St;
        [unfold Jwtx.ValidateTokenByWindowAndAud; rewrite St; discriminate|].
      destruct (window_checks_return t _ _ target now St) as (r & ->).
      discriminate.
    + intros (_ & t' & E & N). injection E as <-. rewrite Es in N. now elim N.
  - split.
    + intros _. split; [reflexivity|].
      destruct H as [N | [N | H]]; [now elim N | discriminate | exact H].
    + intros _. unfold Jwtx.ValidateTokenByWindowAndAud, Jwtx.RetrieveTokenDetails.
      rewrite Ep. reflexivity.
Qed.

(** X21. The verdict of [ValidateTokenByWindowAndAud] and its error go
    together: whenever it returns, the boolean is true exactly when
    the error is nil.  And true means that the token decoded without error to claims
    that list the target and whose three int64 differences to the
    clock have the signs the code tests. *)
Theorem X21_ValidateTokenByWindowAndAud_verdict :
  forall (token : option string) (audTarget : string) (err e : option Jwtx.error)
         (now : Z) (ok : bool),
    Jwtx.ValidateTokenByWindowAndAud token audTarget err now = Returns (ok, e) ->
    (ok = true <-> e = None)
    /\ (ok = true ->
        exists (details : Jwtx.TokenDetails) (claims : Claims),
          Jwtx.RetrieveTokenDetails token err = Returns (Some details, None)
          /\ Jwtx.Details_Claims details = Some claims
          /\ In audTarget (elements (Aud claims))
          /\ sub64 (Iat claims) now <= 0
          /\ (forall n : Z, Nbf claims = Some n -> sub64 n now < 0)
          /\ 0 < sub64 (Exp claims) now).
Proof.
  intros token target err e now ok H. unfold Jwtx.ValidateTokenByWindowAndAud in H.
  destruct (Jwtx.RetrieveTokenDetails token err) as [[[details|] [x|]]|] eqn:Er;
    cbn [bind] in H; try discriminate;
    try (injection H as <- <-; split; [split; discriminate | discriminate]).
  destruct details as [hd [cl|]]; cbn [Jwtx.Details_Claims field_addr bind] in H;
    [|discriminate].
  unfold Jwtx.findAudChunk in H. cbn [deref bind] in H.
  destruct (existsb _ _) eqn:Ea; cbn [negb] in H;
    [|injection H as <- <-; split; [split; discriminate | discriminate]].
  apply (proj1 (has_label_In _ _)) in Ea.
  destruct (Z.gtb_spec (sub64 (Iat cl) now) 0) as [|Hi];
    [injection H as <- <-; split; [split; discriminate | discriminate]|].
  assert (G : (ok = true <-> e = None)
              /\ (ok = true ->
                  0 < sub64 (Exp cl) now
                  /\ forall n, Nbf cl = Some n -> sub64 n now < 0)).
  { destruct (Nbf cl) as [n|].
    - destruct (Z.geb_spec (sub64 n now) 0) as [|Hn];
        [injection H as <- <-; split; [split; discriminate | discriminate]|].
      destruct (Z.gtb_spec (sub64 (Exp cl) now) 0);
        injection H as <- <-; (split; [split; (reflexivity || discriminate)|]);
        [|discriminate].
      intros _. split; [lia|]. intros m E. now injection E as <-.
    - destruct (Z.gtb_spec (sub64 (Exp cl) now) 0);
        injection H as <- <-; (split; [split; (reflexivity || discriminate)|]);
        [|discriminate].
      intros _. split; [lia | discriminate]. }
  destruct G as (G1 & G2). split; [exact G1|].
  intros Hok. destruct (G2 Hok) as (He & Hn).
  exists (Jwtx.mkTokenDetails hd (Some cl)), cl. repeat split; auto.
Qed.

Lemma X21_ValidateTokenByWindowAndAud_verdict_witness :
  Jwtx.ValidateTokenByWindowAndAud (Some Examples.token) "svc" None 1700000001
  = Returns (true, None)
  /\ (true = true <-> @None Jwtx.error = None)
  /\ (true = true ->
      exists (details : Jwtx.TokenDetails) (claims : Claims),
        Jwtx.RetrieveTokenDetails (Some Examples.token) None = Returns (Some details, None)
        /\ Jwtx.Details_Claims details = Some claims
        /\ In "svc"%string (elements (Aud claims))
        /\ sub64 (Iat claims) 1700000001 <= 0
        /\ (forall n : Z, Nbf claims = Some n -> sub64 n 1700000001 < 0)
        /\ 0 < sub64 (Exp claims) 1700000001).
Proof.
  split; [vm_compute; reflexivity|].
  apply (X21_ValidateTokenByWindowAndAud_verdict (Some Examples.token) "svc" None None
           1700000001 true).
  vm_compute; reflexivity.
Defined.

(** X22. The checks of [ValidateTokenByWindowAndAud] on a token of
    [CreateJWT] and the error of each, in the order the code makes
    them: the audience first, whatever the time is; then the issue
    time ([errTokenIssuedBeforeNow] for a clock before [iat]); then
    not-before; then the expiry. *)
Theorem X22_ValidateTokenByWindowAndAud_order :
  forall (aud : slice string) (iss sub : string) (lifetime : Z) (delay : option Z)
         (source : Jwtx.Rand) (created now : Z) (target : string),
    plain_time created -> plain_time (created + lifetime) ->
    plain_time (not_before created delay) -> plain_time now ->
    exists payload : Jwtx.TokenPayload,
      Jwtx.CreateJWT (Some (Jwtx.mkCreateJWTParams aud iss sub lifetime delay))
        None source created = Returns (Some payload, None)
      /\ Jwtx.ValidateTokenByWindowAndAud (Jwtx.Payload_Token payload) target None now
         = Returns
             (if negb (has_label (token_aud aud) target)
              then (false, Some Jwtx.errAudChunkNotFound)
              else if now <? created then (false, Some Jwtx.errTokenIssuedBeforeNow)
              else if now <=? not_before created delay
                   then (false, Some Jwtx.errTokenUsedBeforeExpected)
              else if now <? created + lifetime then (true, None)
              else (false, Some Jwtx.errTokenIsExpired)).
Proof.
  intros aud iss sub lifetime delay source t0 now target Hi He Hn Hnow.
  eexists. split; [apply CreateJWT_eq|]. cbn [Jwtx.Payload_Token].
  now apply ValidateTokenByWindowAndAud_created_plain.
Qed.

Lemma X22_ValidateTokenByWindowAndAud_order_witness :
  plain_time 1700000000 /\ plain_time (1700000000 + 3600)
  /\ plain_time (not_before 1700000000 (Some 60)) /\ plain_time 1699999999
  /\ exists payload : Jwtx.TokenPayload,
      Jwtx.CreateJWT (Some (Jwtx.mkCreateJWTParams (Some ["svc"%string]) "x" "y" 3600 (Some 60)))
        None Examples.source 1700000000 = Returns (Some payload, None)
      /\ Jwtx.ValidateTokenByWindowAndAud (Jwtx.Payload_Token payload) "svc" None 1699999999
         = Returns
             (if negb (has_label (token_aud (Some ["svc"%string])) "svc")
              then (false, Some Jwtx.errAudChunkNotFound)
              else if 1699999999 <? 1700000000 then (false, Some Jwtx.errTokenIssuedBeforeNow)
              else if 1699999999 <=? not_before 1700000000 (Some 60)
                   then (false, Some Jwtx.errTokenUsedBeforeExpected)
              else if 1699999999 <? 1700000000 + 3600 then (true, None)
              else (false, Some Jwtx.errTokenIsExpired)).
Proof.
  split; [plain|]. split; [plain|]. split; [plain|]. split; [plain|].
  apply (X22_ValidateTokenByWindowAndAud_order (Some ["svc"%string]) "x" "y" 3600 (Some 60)
           Examples.source 1700000000 1699999999 "svc"); plain.
Defined.

(** ** The two packages together *)

(** X23. The two packages write the same header and claims segments
    for the same parameters and clock, so [VerifyToken] of package
    jwts treats a token of [CreateJWT] like the token of
    [CreateToken]; but their signature segments differ in length (62
    and 43 characters), so neither package accepts the signature of
    the other, whatever the secrets are. *)
Theorem X23_packages_share_claims_not_signatures :
  forall (aud : slice string) (iss sub : string) (lifetime : Z) (delay : option Z)
         (key : list byte) (source : Jwtx.Rand) (created : Z),
  exists (token tokenx header claims signature signaturex : string)
         (secretx : list byte),
    Jwts.CreateToken (Some (Jwts.mkCreateTokenParams aud iss sub lifetime delay))
      (Some key) None created = Returns (Some token, None)
    /\ Jwtx.CreateJWT (Some (Jwtx.mkCreateJWTParams aud iss sub lifetime delay))
         None source created
       = Returns (Some (Jwtx.mkTokenPayload (Some tokenx) (Some secretx) (Some signaturex)),
                  None)
    /\ Strings.Split token "." = [header; claims; signature]
    /\ Strings.Split tokenx "." = [header; claims; signaturex]
    /\ String.length signature = 43%nat
    /\ String.length signaturex = 62%nat
    /\ (forall (audTarget : option string) (now : Z),
           Jwts.VerifyToken (Some tokenx) audTarget None now
           = Jwts.VerifyToken (Some token) audTarget None now)
    /\ (forall secret : list byte,
           Jwts.ValidateToken (Some tokenx) (Some secret) None = Returns (false, None))
    /\ (forall (secret : list byte) (sig : option string),
           Jwtx.ValidateJWT (Some (Jwtx.mkTokenPayload (Some token) (Some secret) sig)) None
           = Returns (false, None)).
Proof.
  intros aud iss sub lifetime delay key source t0.
  set (p := Jwts.mkCreateTokenParams aud iss sub lifetime delay).
  set (px := Jwtx.mkCreateJWTParams aud iss sub lifetime delay).
  set (c := encoded (AnyClaims (claims_of aud iss sub lifetime delay t0))).
  exists (jwts_token p key t0), (jwtx_token px (generated source) t0), header64, c,
    (jwts_signature key header64 c), (jwtx_signature (generated source) header64 c),
    (generated source).
  pose proof (Split_jwts_token p key t0) as S1.
  pose proof (Split_jwtx_token px (generated source) t0) as S2.
  split; [apply CreateToken_eq|]. split; [apply CreateJWT_eq|].
  split; [exact S1|]. split; [exact S2|].
  split; [apply length_jwts_signature|]. split; [apply length_jwtx_signature|].
  split; [|split].
  - intros tgt now. unfold Jwts.VerifyToken.
    rewrite (parseTokenChunks_three _ _ _ _ S1), (parseTokenChunks_three _ _ _ _ S2).
    reflexivity.
  - intros secret. unfold Jwts.ValidateToken.
    rewrite (parseTokenChunks_three _ _ _ _ S2), validateSignature_eq.
    destruct (String.eqb_spec (jwtx_signature (generated source) header64
                                 (encoded (AnyClaims (jwtx_claims px t0))))
                (jwts_signature secret header64 (encoded (AnyClaims (jwtx_claims px t0)))))
      as [E|_]; [|reflexivity].
    apply (f_equal String.length) in E.
    rewrite length_jwtx_signature, length_jwts_signature in E. discriminate.
  - intros secret sig. rewrite (ValidateJWT_eq _ _ _ _ _ _ S1).
    destruct (String.eqb_spec (jwtx_signature secret header64
                                 (encoded (AnyClaims (jwts_claims p t0))))
                (jwts_signature key header64 (encoded (AnyClaims (jwts_claims p t0)))))
      as [E|_]; [|reflexivity].
    apply (f_equal String.length) in E.
    rewrite length_jwtx_signature, length_jwts_signature in E. discriminate.
Qed.
